(** * django-timegraph: metric cache, write queue, series store and export

    A shallow embedding of [timegraph/models.py] (class [Metric]) and of the
    export and metric graph routines of [timegraph/views.py].  Python values are a small closed
    type, the shared cache, the archive files and the logger form an explicit
    world that every method threads, and exceptions are explicit outcomes.
    Floats are rationals: the code only moves, compares with [0.0] and parses
    them. *)

From Stdlib Require Import ZArith QArith String Ascii List Bool Lia DecimalString DecimalZ.
From stdpp Require Import gmap strings list fin_maps.

Local Open Scope string_scope.
Local Open Scope Z_scope.

(** ** Python values, exceptions and outcomes *)

Module Py.

Inductive pyval :=
| PNone
| PBool (b : bool)
| PInt (z : Z)
| PFloat (q : Q)
| PStr (s : string).

Inductive exn :=
| KeyError (key : string)
| IndexError
| TypeError
| ValueError
| RrdError (message : string)
| Exception (message : string).

Inductive outcome (A : Type) :=
| Return (a : A)
| Raise (e : exn).
Arguments Return {A} a.
Arguments Raise {A} e.

Definition obind {A B} (o : outcome A) (k : A -> outcome B) : outcome B :=
  match o with
  | Return a => k a
  | Raise e => Raise e
  end.

(** The text of a float is CPython's business ([str], [unicode] and
    [format] of a float); it is kept as an interface of the runtime. *)
Class FloatText := float_text : Q -> string.

(** *** Characters and strings *)

Definition chars (s : string) : list ascii := list_ascii_of_string s.
Definition text (l : list ascii) : string := string_of_list_ascii l.

Definition is_colon (c : ascii) : bool := Ascii.eqb c ":"%char.

(** [s.replace(':', '')] *)
Definition strip_colons (s : string) : string :=
  text (List.filter (fun c => negb (is_colon c)) (chars s)).

Definition lower_char (c : ascii) : ascii :=
  let n := nat_of_ascii c in
  if ((65 <=? n) && (n <=? 90))%nat then ascii_of_nat (n + 32) else c.

(** [s.lower()] on ASCII text *)
Definition lower (s : string) : string := text (List.map lower_char (chars s)).

(** [sep.join(items)] *)
Fixpoint join (sep : string) (items : list string) : string :=
  match items with
  | [] => ""
  | [x] => x
  | x :: rest => x ++ sep ++ join sep rest
  end.

(** [needle in hay] for two strings *)
Fixpoint contains (needle hay : string) : bool :=
  String.prefix needle hay ||
  match hay with
  | EmptyString => false
  | String _ rest => contains needle rest
  end.

(** [str(n)] and [%i] of an integer *)
Definition str_int (z : Z) : string := NilZero.string_of_int (Z.to_int z).

(** *** Numeric literals

    Decimal literals with an optional sign, fraction and exponent, between
    optional blanks: the texts [float()] and [int()] are given here.  The
    special names ([inf], [nan]) have no rational value and are rejected. *)

Definition is_blank (c : ascii) : bool :=
  let n := nat_of_ascii c in ((n =? 32) || ((9 <=? n) && (n <=? 13)))%nat.

Fixpoint lstrip (l : list ascii) : list ascii :=
  match l with
  | c :: rest => if is_blank c then lstrip rest else l
  | [] => []
  end.

Definition strip (l : list ascii) : list ascii := rev (lstrip (rev (lstrip l))).

Definition digit_of (c : ascii) : option Z :=
  let n := Z.of_nat (nat_of_ascii c) in
  if (48 <=? n) && (n <=? 57) then Some (n - 48) else None.

(** Reads a run of digits: its value after [acc], its length, the rest. *)
Fixpoint digits (l : list ascii) (acc : Z) (len : nat) : Z * nat * list ascii :=
  match l with
  | c :: rest =>
      match digit_of c with
      | Some d => digits rest (10 * acc + d) (S len)
      | None => (acc, len, l)
      end
  | [] => (acc, len, [])
  end.

Definition sign_of (l : list ascii) : bool * list ascii :=
  match l with
  | c :: rest =>
      if Ascii.eqb c "-" then (true, rest)
      else if Ascii.eqb c "+" then (false, rest)
      else (false, l)
  | [] => (false, l)
  end.

Definition parse_int (s : string) : option Z :=
  let '(neg, l) := sign_of (strip (chars s)) in
  match digits l 0 0 with
  | (v, S _, []) => Some (if neg then - v else v)
  | _ => None
  end.

Definition scale (q : Q) (e : Z) : Q :=
  if 0 <=? e then (q * inject_Z (10 ^ e))%Q else (q / inject_Z (10 ^ (- e)))%Q.

Definition parse_exponent (l : list ascii) : option Z :=
  match l with
  | [] => Some 0
  | c :: rest =>
      if Ascii.eqb c "e"%char || Ascii.eqb c "E"%char then
        let '(neg, l') := sign_of rest in
        match digits l' 0 0 with
        | (v, S _, []) => Some (if neg then - v else v)
        | _ => None
        end
      else None
  end.

Definition parse_float (s : string) : option Q :=
  let '(neg, l) := sign_of (strip (chars s)) in
  let '(ip, ilen, l1) := digits l 0 0 in
  let '(fp, flen, l2) :=
    match l1 with
    | c :: rest => if Ascii.eqb c "." then digits rest 0 0 else (0, 0%nat, l1)
    | [] => (0, 0%nat, l1)
    end in
  match (ilen + flen)%nat, parse_exponent l2 with
  | S _, Some e =>
      let m := (inject_Z (ip * 10 ^ Z.of_nat flen + fp) / inject_Z (10 ^ Z.of_nat flen))%Q in
      Some (Qred (scale (if neg then - m else m)%Q e))
  | _, _ => None
  end.

(** *** Builtins used by the code *)

(** [float(value)] *)
Definition py_float (v : pyval) : outcome Q :=
  match v with
  | PNone => Raise TypeError
  | PBool b => Return (if b then 1 else 0)%Q
  | PInt z => Return (inject_Z z)
  | PFloat q => Return q
  | PStr s => match parse_float s with Some q => Return q | None => Raise ValueError end
  end.

(** [int(value)]: a float is truncated towards zero. *)
Definition py_int (v : pyval) : outcome Z :=
  match v with
  | PNone => Raise TypeError
  | PBool b => Return (if b then 1 else 0)
  | PInt z => Return z
  | PFloat q => Return (Z.quot (Qnum q) (Zpos (Qden q)))
  | PStr s => match parse_int s with Some z => Return z | None => Raise ValueError end
  end.

(** Truth value of an object *)
Definition truthy (v : pyval) : bool :=
  match v with
  | PNone => false
  | PBool b => b
  | PInt z => negb (z =? 0)
  | PFloat q => negb (Qeq_bool q 0)
  | PStr s => negb (String.eqb s "")
  end.

(** [unicode(value)], [str(value)] and ["{}".format(value)] *)
Definition py_str `{FloatText} (v : pyval) : string :=
  match v with
  | PNone => "None"
  | PBool b => if b then "True" else "False"
  | PInt z => str_int z
  | PFloat q => float_text q
  | PStr s => s
  end.

(** [value == s] for a string literal [s] *)
Definition eq_str (v : pyval) (s : string) : bool :=
  match v with
  | PStr s' => String.eqb s' s
  | _ => false
  end.

(** [value == 0.0] *)
Definition eq_zero (v : pyval) : bool :=
  match v with
  | PNone => false
  | PBool b => negb b
  | PInt z => z =? 0
  | PFloat q => Qeq_bool q 0
  | PStr _ => false
  end.

Definition is_none (v : pyval) : bool :=
  match v with PNone => true | _ => false end.

(** [fmt % arg] with one string argument.  [%s] takes the argument, [%%] is
    a percent sign; the other conversions are rejected. *)
Fixpoint mod_format_go (fmt : list ascii) (arg : option string) : outcome (list ascii) :=
  match fmt with
  | [] => match arg with None => Return [] | Some _ => Raise TypeError end
  | c :: rest =>
      if Ascii.eqb c "%" then
        match rest with
        | d :: rest' =>
            if Ascii.eqb d "s" then
              match arg with
              | Some a => obind (mod_format_go rest' None) (fun r => Return (chars a ++ r)%list)
              | None => Raise TypeError
              end
            else if Ascii.eqb d "%" then
              obind (mod_format_go rest' arg) (fun r => Return (d :: r))
            else Raise ValueError
        | [] => Raise ValueError
        end
      else obind (mod_format_go rest arg) (fun r => Return (c :: r))
  end.

Definition mod_format (fmt arg : string) : outcome string :=
  obind (mod_format_go (chars fmt) (Some arg)) (fun r => Return (text r)).

(** [l[i]] and [l[i] = x] with Python's negative indices *)
Definition norm_index {A} (l : list A) (i : Z) : option nat :=
  let n := Z.of_nat (length l) in
  let j := if i <? 0 then i + n else i in
  if (0 <=? j) && (j <? n) then Some (Z.to_nat j) else None.

Definition getitem {A} (l : list A) (i : Z) : outcome A :=
  match norm_index l i with
  | Some j => match l !! j with Some x => Return x | None => Raise IndexError end
  | None => Raise IndexError
  end.

Definition setitem {A} (l : list A) (i : Z) (x : A) : outcome (list A) :=
  match norm_index l i with
  | Some j => Return (<[j := x]> l)
  | None => Raise IndexError
  end.

End Py.
Export Py.

(** ** [os.path] *)

Module OsPath.

(** [posixpath.join(a, b)] *)
Definition join2 (a b : string) : string :=
  if String.prefix "/" b then b
  else if String.eqb a "" || String.prefix "/" (text (rev (chars a))) then a ++ b
  else a ++ "/" ++ b.

(** [os.path.join(a, *p)] *)
Definition join (a : string) (p : list string) : string := fold_left join2 p a.

Fixpoint rstrip_slash (r : list ascii) : list ascii :=
  match r with
  | c :: rest => if Ascii.eqb c "/" then rstrip_slash rest else r
  | [] => []
  end.

Fixpoint drop_tail (r : list ascii) : list ascii :=
  match r with
  | [] => []
  | c :: rest => if Ascii.eqb c "/" then r else drop_tail rest
  end.

(** [os.path.dirname(p)]: the head up to the last slash, without trailing
    slashes unless it only consists of slashes. *)
Definition dirname (p : string) : string :=
  let head := drop_tail (rev (chars p)) in
  match rstrip_slash head with
  | [] => text (rev head)
  | h => text (rev h)
  end.

End OsPath.

(** ** State and exceptions

    A method is a function from a state to an outcome and the state it
    leaves: an exception keeps the effects made before it was raised. *)

Module Eff.

Definition M (S A : Type) : Type := S -> outcome A * S.

Definition ret {S A} (a : A) : M S A := fun s => (Return a, s).
Definition raise {S A} (e : exn) : M S A := fun s => (Raise e, s).

Definition bind {S A B} (m : M S A) (k : A -> M S B) : M S B :=
  fun s =>
    match m s with
    | (Return a, s') => k a s'
    | (Raise e, s') => (Raise e, s')
    end.

Definition lift {S A} (o : outcome A) : M S A := fun s => (o, s).
Definition gets {S A} (f : S -> A) : M S A := fun s => (Return (f s), s).
Definition modify {S} (f : S -> S) : M S unit := fun s => (Return tt, f s).

(** [for x in l: acc = body(x, acc)] *)
Fixpoint for_each {S A B} (body : A -> B -> M S B) (l : list A) (acc : B) : M S B :=
  match l with
  | [] => ret acc
  | x :: rest => bind (body x acc) (for_each body rest)
  end.

End Eff.
Import Eff.

Notation "'let*' x := c 'in' k" := (Eff.bind c (fun x => k))
  (at level 10, x pattern, c at level 100, k at level 200).

(** ** The world outside the process: shared cache, archive files, logger *)

Module World.

(** An archive file: its data source and rings as given to [rrdtool.create],
    the updates it received, and the fault, if any, that makes the tool
    refuse to update it. *)
Record archive := {
  ds : string;
  rras : list string;
  samples : list string;
  fault : option string }.

(** Calls that leave the process, in the order they were made. *)
Inductive event :=
| CacheGetMany (keys : list string)
| CacheSetMany (entries : gmap string pyval) (timeout : Z)
| RrdUpdate (path arg : string)
| RrdCreate (path : string) (args : list string)
| MakeDirs (path : string)
| LogError (message : string).

Record world := {
  shared : gmap string pyval;
  dirs : gset string;
  files : gmap string archive;
  trace : list event }.

Definition emit (e : event) (w : world) : world :=
  {| shared := shared w; dirs := dirs w; files := files w; trace := trace w ++ [e] |}.

Definition with_shared (c : gmap string pyval) (w : world) : world :=
  {| shared := c; dirs := dirs w; files := files w; trace := trace w |}.

Definition with_dirs (d : gset string) (w : world) : world :=
  {| shared := shared w; dirs := d; files := files w; trace := trace w |}.

Definition with_files (f : gmap string archive) (w : world) : world :=
  {| shared := shared w; dirs := dirs w; files := f; trace := trace w |}.

(** The hits among [keys]: absent keys are missing from the result. *)
Fixpoint hits (c : gmap string pyval) (keys : list string) : gmap string pyval :=
  match keys with
  | [] => ∅
  | k :: rest =>
      match c !! k with
      | Some v => <[k := v]> (hits c rest)
      | None => hits c rest
      end
  end.

(** [cache.get_many(keys, raw=True)]: one round trip *)
Definition cache_get_many (keys : list string) : M world (gmap string pyval) :=
  fun w => (Return (hits (shared w) keys), emit (CacheGetMany keys) w).

(** What the backend keeps of a value under [raw=True]: its text, as
    [str] gives it, and not the object. *)
Definition raw `{FloatText} (v : pyval) : pyval := PStr (py_str v).

(** [cache.set_many(entries, timeout=timeout, raw=True)]: one round trip *)
Definition cache_set_many `{FloatText} (entries : gmap string pyval) (timeout : Z)
  : M world unit :=
  fun w => (Return tt,
            emit (CacheSetMany entries timeout) (with_shared ((raw <$> entries) ∪ shared w) w)).

Definition no_such_file (path : string) : string :=
  "opening '" ++ path ++ "': No such file or directory".

Definition push_sample (arg : string) (a : archive) : archive :=
  {| ds := ds a; rras := rras a; samples := samples a ++ [arg]; fault := fault a |}.

(** [rrdtool.update(path, arg)] *)
Definition rrd_update (path arg : string) : M world unit :=
  fun w =>
    let w' := emit (RrdUpdate path arg) w in
    match files w !! path with
    | None => (Raise (RrdError (no_such_file path)), w')
    | Some a =>
        match fault a with
        | Some message => (Raise (RrdError message), w')
        | None => (Return tt, with_files (<[path := push_sample arg a]> (files w)) w')
        end
    end.

(** [rrdtool.create(path, ds, *rras)]: needs the directory of [path]. *)
Definition rrd_create (path data_source : string) (rings : list string) : M world unit :=
  fun w =>
    let w' := emit (RrdCreate path (data_source :: rings)) w in
    if bool_decide (OsPath.dirname path ∈ dirs w) then
      (Return tt,
       with_files (<[path := {| ds := data_source; rras := rings; samples := []; fault := None |}]> (files w)) w')
    else (Raise (RrdError ("creating '" ++ path ++ "': No such file or directory")), w').

(** [os.path.exists(path)] *)
Definition path_exists (path : string) (w : world) : bool :=
  bool_decide (path ∈ dirs w) || bool_decide (is_Some (files w !! path)).

(** [os.makedirs(path)] *)
Definition makedirs (path : string) : M world unit :=
  fun w => (Return tt, emit (MakeDirs path) (with_dirs ({[path]} ∪ dirs w) w)).

(** [LOGGER.error(...)] *)
Definition log_error (message : string) : M world unit :=
  fun w => (Return tt, emit (LogError message) w).

End World.
Import World.

(** ** Monitored objects *)

Module Obj.

(** A primary key is a number or a text (an address with colons, say). *)
Inductive pkval :=
| PkInt (z : Z)
| PkStr (s : string).

#[global] Instance pkval_eq_dec : EqDecision pkval.
Proof. solve_decision. Defined.

Definition pkval_to_sum (p : pkval) : Z + string :=
  match p with PkInt z => inl z | PkStr s => inr s end.

Definition pkval_of_sum (x : Z + string) : pkval :=
  match x with inl z => PkInt z | inr s => PkStr s end.

#[global] Instance pkval_countable : Countable pkval :=
  inj_countable' pkval_to_sum pkval_of_sum (fun p => match p with PkInt _ | PkStr _ => eq_refl end).

Record entity := { class_name : string; pk : pkval }.

(** [str(obj.pk)] *)
Definition str_pk (p : pkval) : string :=
  match p with PkInt z => str_int z | PkStr s => s end.

(** ['%s%i' % (key, obj.pk)]: [%i] wants a number. *)
Definition fmt_s_i (key : string) (p : pkval) : outcome string :=
  match p with
  | PkInt z => Return (key ++ str_int z)
  | PkStr _ => Raise TypeError
  end.

End Obj.
Import Obj.

(** [objtype(obj)] *)
Definition objtype (obj : entity) : string := lower (class_name obj).

(** ** Containers returned by the tool's binding

    [rrdtool.xport] returns a dictionary; its ['data'] entry is a list with
    one tuple of column values per time slot. *)

Module PyObj.

#[warnings="-register-all"]
Inductive pyobj :=
| Atom (v : pyval)
| Tuple (items : list pyobj)
| PyList (items : list pyobj)
| Dict (entries : gmap string pyobj).

(** [o[key]] for a string key *)
Definition getkey (o : pyobj) (key : string) : outcome pyobj :=
  match o with
  | Dict m => match m !! key with Some x => Return x | None => Raise (KeyError key) end
  | _ => Raise TypeError
  end.

(** [o[key] = x] for a string key *)
Definition setkey (o : pyobj) (key : string) (x : pyobj) : outcome pyobj :=
  match o with
  | Dict m => Return (Dict (<[key := x]> m))
  | _ => Raise TypeError
  end.

(** [o[i]] for an integer index; a dictionary has string keys only. *)
Definition index (o : pyobj) (i : Z) : outcome pyobj :=
  match o with
  | Tuple l | PyList l => getitem l i
  | Dict _ => Raise (KeyError (str_int i))
  | Atom _ => Raise TypeError
  end.

(** [o[i] = x] for an integer index: only a list can be assigned to. *)
Definition setindex (o : pyobj) (i : Z) (x : pyobj) : outcome pyobj :=
  match o with
  | PyList l => obind (setitem l i x) (fun l' => Return (PyList l'))
  | _ => Raise TypeError
  end.

Definition truthy (o : pyobj) : bool :=
  match o with
  | Atom v => Py.truthy v
  | Tuple l | PyList l => negb (Nat.eqb (length l) 0)
  | Dict m => negb (Nat.eqb (size m) 0)
  end.

(** [o == 0.0]: a container never equals a number. *)
Definition eq_zero (o : pyobj) : bool :=
  match o with
  | Atom v => Py.eq_zero v
  | _ => false
  end.

End PyObj.

(** ** Addition and [sum]

    [sum] starts from the integer [0] and adds with [+]: a [bool] counts as
    an [int], an [int] and a [float] give a [float], two texts are joined,
    and anything else is a [TypeError].  Integers are added exactly; the
    sum of two floats is the runtime's, which rounds, and is kept as an
    interface like the text of a float. *)

Module PyArith.

Class FloatAdd := float_add : Q -> Q -> Q.

Definition as_int (v : pyval) : option Z :=
  match v with
  | PInt z => Some z
  | PBool b => Some (if b then 1 else 0)
  | _ => None
  end.

Definition as_float (v : pyval) : option Q :=
  match v with
  | PFloat q => Some q
  | _ => match as_int v with Some z => Some (inject_Z z) | None => None end
  end.

(** [a + b] *)
Definition add `{FloatAdd} (a b : pyval) : outcome pyval :=
  match as_int a, as_int b with
  | Some x, Some y => Return (PInt (x + y))
  | _, _ =>
      match as_float a, as_float b with
      | Some x, Some y => Return (PFloat (float_add x y))
      | _, _ =>
          match a, b with
          | PStr s, PStr t => Return (PStr (s ++ t))
          | _, _ => Raise TypeError
          end
      end
  end.

Fixpoint sum_from `{FloatAdd} (acc : pyval) (items : list pyval) : outcome pyval :=
  match items with
  | [] => Return acc
  | x :: rest => obind (add acc x) (fun acc => sum_from acc rest)
  end.

(** [sum(items)] *)
Definition sum `{FloatAdd} (items : list pyval) : outcome pyval := sum_from (PInt 0) items.

End PyArith.

(** ** The expressions handed to the series tool

    Both export routines build the same reverse-Polish program for the
    tool's [CDEF].  The tool is outside the repository; [Rpn] is the part of
    its calculator that the program uses, one time slot at a time: a sample
    is a number or unknown, a token is read as a number first, then as an
    operator, and as the name of a defined series otherwise. *)

Module Rpn.

Inductive operator := UN | IF | EQ | ADD | SUB | MUL | MAX | MIN | ADDNAN.

Inductive token :=
| Num (q : Q)
| Op (o : operator)
| Var (name : string).

(** A sample: [None] is the unknown value. *)
Definition sample : Type := option Q.

Definition operator_of (s : string) : option operator :=
  if String.eqb s "UN" then Some UN
  else if String.eqb s "IF" then Some IF
  else if String.eqb s "EQ" then Some EQ
  else if String.eqb s "+" then Some ADD
  else if String.eqb s "-" then Some SUB
  else if String.eqb s "*" then Some MUL
  else if String.eqb s "MAX" then Some MAX
  else if String.eqb s "MIN" then Some MIN
  else if String.eqb s "ADDNAN" then Some ADDNAN
  else None.

Definition lex (s : string) : token :=
  match parse_float s with
  | Some q => Num q
  | None =>
      match operator_of s with
      | Some o => Op o
      | None => Var s
      end
  end.

Definition truth (b : bool) : sample := Some (if b then 1 else 0)%Q.

Definition is_false (a : sample) : bool :=
  match a with
  | None => true
  | Some x => Qeq_bool x 0
  end.

(** A binary operator on two samples, [a] below [b] on the stack. *)
Definition binary (o : operator) (a b : sample) : option sample :=
  match o, a, b with
  | EQ, Some x, Some y => Some (truth (Qeq_bool x y))
  | ADD, Some x, Some y => Some (Some (x + y)%Q)
  | SUB, Some x, Some y => Some (Some (x - y)%Q)
  | MUL, Some x, Some y => Some (Some (x * y)%Q)
  | MAX, Some x, Some y => Some (Some (if Qle_bool x y then y else x))
  | MIN, Some x, Some y => Some (Some (if Qle_bool x y then x else y))
  | ADDNAN, Some x, Some y => Some (Some (x + y)%Q)
  | ADDNAN, Some x, None => Some (Some x)
  | ADDNAN, None, Some y => Some (Some y)
  | (EQ | ADD | SUB | MUL | MAX | MIN | ADDNAN), _, _ => Some None
  | (UN | IF), _, _ => None
  end.

(** One token on the stack (top first); [None] is a malformed program. *)
Definition step (env : gmap string sample) (tok : token) (stack : list sample)
  : option (list sample) :=
  match tok with
  | Num q => Some (Some q :: stack)
  | Var name => match env !! name with Some s => Some (s :: stack) | None => None end
  | Op UN =>
      match stack with
      | a :: rest => Some (truth (match a with None => true | Some _ => false end) :: rest)
      | _ => None
      end
  | Op IF =>
      match stack with
      | c :: b :: a :: rest => Some ((if is_false a then c else b) :: rest)
      | _ => None
      end
  | Op o =>
      match stack with
      | b :: a :: rest => match binary o a b with Some r => Some (r :: rest) | None => None end
      | _ => None
      end
  end.

Fixpoint run (env : gmap string sample) (prog : list token) (stack : list sample)
  : option (list sample) :=
  match prog with
  | [] => Some stack
  | tok :: rest =>
      match step env tok stack with
      | Some stack' => run env rest stack'
      | None => None
      end
  end.

(** The value of a program of texts in one time slot. *)
Definition eval (env : gmap string sample) (prog : list string) : option sample :=
  match run env (map lex prog) [] with
  | Some [r] => Some r
  | _ => None
  end.

End Rpn.

(** The program of the [CDEF], as both export routines build it from the
    names in [xvars]. *)
Definition gap_guard (un_value var : string) : list string :=
  [var; "UN"; "0.0"; var; "IF"; "0.0"; "EQ"; un_value; var; "IF"].

Definition cdef_program (xvars : list string) (op un_value : string) : list string :=
  let variables := xvars in
  let xvars := concat (map (gap_guard un_value) xvars) in
  xvars ++ map (fun _ => op) (tail variables).

(** ** [class Metric] *)

Module Metric.

(** The fields the methods read, and the two per-instance containers
    ([_cache] and [queue]) they mutate.  The display fields ([name], [unit],
    [graph_color], [graph_order]) play no part here. *)
Record metric := {
  pk : Z;
  parameter : string;
  type : string;
  rrd_enabled : bool;
  cache_timeout : Z;
  _cache : gmap pkval pyval;
  queue : list (entity * pyval);
  rrd_root : string;
  cache_prefix : string;
  heartbeat : Z;
  queue_size : Z }.

Definition with_cache (c : gmap pkval pyval) (self : metric) : metric :=
  {| pk := pk self; parameter := parameter self; type := type self;
     rrd_enabled := rrd_enabled self; cache_timeout := cache_timeout self;
     _cache := c; queue := queue self; rrd_root := rrd_root self;
     cache_prefix := cache_prefix self; heartbeat := heartbeat self;
     queue_size := queue_size self |}.

Definition with_queue (q : list (entity * pyval)) (self : metric) : metric :=
  {| pk := pk self; parameter := parameter self; type := type self;
     rrd_enabled := rrd_enabled self; cache_timeout := cache_timeout self;
     _cache := _cache self; queue := q; rrd_root := rrd_root self;
     cache_prefix := cache_prefix self; heartbeat := heartbeat self;
     queue_size := queue_size self |}.

(** The settings [__init__] reads; [None] is a setting that is not given. *)
Record settings := {
  TIMEGRAPH_RRD_ROOT : option string;
  TIMEGRAPH_CACHE_PREFIX : option string;
  TIMEGRAPH_HEARTBEAT : option Z;
  MEMCACHE_QUEUE_SIZE : option Z }.

(** [Metric.__init__] on the fields of the model. *)
Definition __init__ (conf : settings) (pk : Z) (parameter type : string)
    (rrd_enabled : bool) (cache_timeout : Z) : metric :=
  {| pk := pk; parameter := parameter; type := type; rrd_enabled := rrd_enabled;
     cache_timeout := cache_timeout;
     _cache := ∅;
     queue := [];
     rrd_root := default "/var/lib/rrdcached/db" (TIMEGRAPH_RRD_ROOT conf);
     cache_prefix := default "timegraph" (TIMEGRAPH_CACHE_PREFIX conf);
     heartbeat := default 300 (TIMEGRAPH_HEARTBEAT conf);
     queue_size := default 3000 (MEMCACHE_QUEUE_SIZE conf) |}.

(** A method runs on the instance and the world. *)
Definition state : Type := metric * world.

Definition me : M state metric := gets fst.
Definition set_me (f : metric -> metric) : M state unit :=
  modify (fun s => (f (fst s), snd s)).

(** Runs a call that only touches the world. *)
Definition outside {A} (m : M world A) : M state A :=
  fun s => let '(r, w) := m (snd s) in (r, (fst s, w)).

Section Methods.
Context `{FloatText}.

(** [Metric.to_python] *)
Definition to_python (self : metric) (value : pyval) (force_metric_type : bool) : pyval :=
  if String.eqb (type self) "float" then
    match py_float value with
    | Return q => PFloat q
    | Raise _ => if force_metric_type then PFloat 0 else PNone
    end
  else if String.eqb (type self) "int" then
    match py_int value with
    | Return z => PInt z
    | Raise _ => if force_metric_type then PInt 0 else PNone
    end
  else if String.eqb (type self) "bool" then
    if eq_str value "1" || eq_str value "True" then PBool true
    else if negb force_metric_type && is_none value then PNone
    else PBool false
  else
    if truthy value then
      (if truthy (PStr (py_str value)) then PStr (py_str value) else PStr "")
    else PStr "".

(** [Metric._rrd_path] *)
Definition _rrd_path (self : metric) (obj : entity) : string :=
  let obj_type := objtype obj in
  let obj_pk := strip_colons (str_pk (Obj.pk obj)) in
  OsPath.join (rrd_root self) [obj_type; obj_pk; str_int (pk self) ++ ".rrd"].

(** [Metric._pre_key_for]: the class of the first object is read. *)
Definition _pre_key_for (self : metric) (objects : list entity) : outcome string :=
  match objects with
  | [] => Raise IndexError
  | first :: _ =>
      let obj_type := objtype first in
      Return (cache_prefix self ++ "/" ++ obj_type ++ "/%s/" ++ str_int (pk self))
  end.

(** The shared-cache key of an object under a pre-key:
    [pre_key % str(pk).replace(':', '')]. *)
Definition key_of (pre_key : string) (p : pkval) : outcome string :=
  mod_format pre_key (strip_colons (str_pk p)).

(** The key under which both [get_polling_many] and [set_polling_many]
    address an object of a batch that starts with [first]. *)
Definition cache_key (self : metric) (first obj : entity) : outcome string :=
  obind (_pre_key_for self [first]) (fun pre_key => key_of pre_key (Obj.pk obj)).

(** [Metric.get_cached_polling_list] *)
Fixpoint get_cached_polling_list (self : metric) (objs : list entity) : outcome (list pyval) :=
  match objs with
  | [] => Return []
  | obj :: rest =>
      match _cache self !! Obj.pk obj with
      | Some v => obind (get_cached_polling_list self rest) (fun vs => Return (v :: vs))
      | None => Raise (KeyError (str_pk (Obj.pk obj)))
      end
  end.

(** First loop of [get_polling_many]: the keys of the objects that are not
    in the local cache. *)
Fixpoint uncached_keys (self : metric) (pre_key : string) (objs : list entity)
  : outcome (list (string * pkval)) :=
  match objs with
  | [] => Return []
  | obj :: rest =>
      let pk := Obj.pk obj in
      if bool_decide (is_Some (_cache self !! pk)) then uncached_keys self pre_key rest
      else
        obind (key_of pre_key pk) (fun key =>
        obind (uncached_keys self pre_key rest) (fun keys =>
        Return ((key, pk) :: keys)))
  end.

(** Second loop of [get_polling_many]: hits are decoded, misses become
    [None]. *)
Fixpoint fill_cache (self : metric) (force_metric_type : bool)
    (metrics : gmap string pyval) (keys : list (string * pkval)) (c : gmap pkval pyval)
  : gmap pkval pyval :=
  match keys with
  | [] => c
  | (key, pk) :: rest =>
      let v := match metrics !! key with
               | Some raw => to_python self raw force_metric_type
               | None => PNone
               end in
      fill_cache self force_metric_type metrics rest (<[pk := v]> c)
  end.

(** [Metric.get_polling_many]; the result is [None] under [no_return]. *)
Definition get_polling_many (objs : list entity) (no_return force_metric_type : bool)
  : M state (option (list pyval)) :=
  match objs with
  | [] => ret (Some [])
  | _ =>
      let* self := me in
      let* pre_key := lift (_pre_key_for self objs) in
      let* keys := lift (uncached_keys self pre_key objs) in
      let* _ :=
        match keys with
        | [] => ret tt
        | _ =>
            let* metrics := outside (cache_get_many (map fst keys)) in
            set_me (fun self => with_cache (fill_cache self force_metric_type metrics keys (_cache self)) self)
        end in
      if no_return then ret None
      else
        let* self := me in
        let* values := lift (get_cached_polling_list self objs) in
        ret (Some values)
  end.

(** [Metric.get_polling]; the keyword arguments are those of
    [get_polling_many], and [None[0]] is a [TypeError]. *)
Definition get_polling (obj : entity) (no_return force_metric_type : bool) : M state pyval :=
  let* _ := set_me (fun self => with_cache (delete (Obj.pk obj) (_cache self)) self) in
  let* r := get_polling_many [obj] no_return force_metric_type in
  match r with
  | Some vs => lift (getitem vs 0)
  | None => raise TypeError
  end.

(** [value not in (None, '')] *)
Definition non_empty (value : pyval) : bool :=
  negb (is_none value || eq_str value "").

Definition rings : list string :=
  ["RRA:AVERAGE:0.5:1:600"; "RRA:AVERAGE:0.5:6:600";
   "RRA:AVERAGE:0.5:24:600"; "RRA:AVERAGE:0.5:288:600"].

(** The archive part of the loop body of [set_polling_many], from the
    [try] on. *)
Definition archive_write (self : metric) (obj_pk filepath : string) (value : pyval)
  : M world unit :=
  fun w =>
    match rrd_update filepath ("N:" ++ py_str value) w with
    | (Raise (RrdError message), w1) =>
        if negb (contains "No such file" message) then
          log_error ("error on " ++ parameter self ++ " metric (object " ++ obj_pk
                     ++ "): " ++ message) w1
        else
          let dirpath := OsPath.dirname filepath in
          (let* _ := (if negb (path_exists dirpath w1) then makedirs dirpath else ret tt) in
           let* _ := rrd_create filepath
                       ("DS:" ++ str_int (pk self) ++ ":GAUGE:" ++ str_int (heartbeat self) ++ ":U:U")
                       rings in
           rrd_update filepath ("N:" ++ py_str value)) w1
    | r => r
    end.

(** The loop body of [set_polling_many]. *)
Definition store_one (self : metric) (pre_key pre_path filename : string)
    (item : entity * pyval) (cache_dict : gmap string pyval) : M world (gmap string pyval) :=
  let '(obj, value) := item in
  let obj_pk := strip_colons (str_pk (Obj.pk obj)) in
  let* key := lift (mod_format pre_key obj_pk) in
  let cache_dict := <[key := value]> cache_dict in
  let* _ :=
    if rrd_enabled self && non_empty value then
      archive_write self obj_pk (OsPath.join pre_path [obj_pk; filename]) value
    else ret tt in
  ret cache_dict.

(** [Metric.set_polling_many] *)
Definition set_polling_many (self : metric) (objs_and_values : list (entity * pyval))
  : M world unit :=
  match objs_and_values with
  | [] => ret tt
  | (first_obj, _) :: _ =>
      let* pre_key := lift (_pre_key_for self [first_obj]) in
      let pre_path := OsPath.join (rrd_root self) [objtype first_obj] in
      let filename := str_int (pk self) ++ ".rrd" in
      let* cache_dict := for_each (store_one self pre_key pre_path filename) objs_and_values ∅ in
      let timeout := if cache_timeout self =? 0 then 7 * 86400 else cache_timeout self in
      cache_set_many cache_dict timeout
  end.

(** [Metric.set_polling] *)
Definition set_polling (self : metric) (obj : entity) (value : pyval) : M world unit :=
  set_polling_many self [(obj, value)].

(** [Metric.dump_queue] *)
Definition dump_queue : M state unit :=
  let* self := me in
  let* _ := outside (set_polling_many self (queue self)) in
  set_me (with_queue []).

(** [Metric.queue_append] *)
Definition queue_append (obj : entity) (value : pyval) : M state unit :=
  let* _ := set_me (fun self => with_queue (queue self ++ [(obj, value)]) self) in
  let* self := me in
  if queue_size self <? Z.of_nat (length (queue self)) then dump_queue else ret tt.

(** What an export returns: [None], the serialised output or the output. *)
Inductive exported :=
| NoData
| Dumps (output : PyObj.pyobj)
| Output (output : PyObj.pyobj).

(** The loop of [xport] over [object_list]: one [DEF] per existing
    archive. *)
Fixpoint xport_defs (self : metric) (w : world) (key : string) (object_list : list entity)
    (args xvars : list string) : outcome (list string * list string) :=
  match object_list with
  | [] => Return (args, xvars)
  | obj :: rest =>
      let rrd_path := _rrd_path self obj in
      if path_exists rrd_path w then
        obind (fmt_s_i key (Obj.pk obj)) (fun xkey =>
        xport_defs self w key rest
          (args ++ ["DEF:" ++ xkey ++ "=" ++ rrd_path ++ ":" ++ str_int (pk self) ++ ":AVERAGE"])
          (xvars ++ [xkey]))
      else xport_defs self w key rest args xvars
  end.

(** The two assignments that end [xport]:
    [output['data'][i] = output[key][j]] when [output['data'][i] == 0.0]. *)
Definition copy_if_zero (key : string) (i j : Z) (output : PyObj.pyobj) : outcome PyObj.pyobj :=
  obind (PyObj.getkey output "data") (fun data =>
  obind (PyObj.index data i) (fun point =>
  if PyObj.eq_zero point then
    obind (PyObj.getkey output key) (fun series =>
    obind (PyObj.index series j) (fun x =>
    obind (PyObj.setindex data i x) (fun data' =>
    PyObj.setkey output "data" data')))
  else Return output)).

(** The end of [xport], from the test of [output['data']] on. *)
Definition xport_result (key : string) (json : bool) (output : PyObj.pyobj) : outcome exported :=
  obind (PyObj.getkey output "data") (fun data =>
  if negb (PyObj.truthy data) then Return NoData
  else
    obind (copy_if_zero key (-1) (-2) output) (fun output =>
    obind (copy_if_zero key 0 1 output) (fun output =>
    Return (if json then Dumps output else Output output)))).

(** [Metric.xport]; [rrdtool_xport] is the binding's [rrdtool.xport]. *)
Definition xport (rrdtool_xport : list string -> outcome PyObj.pyobj)
    (self : metric) (w : world) (args : list string) (object_list : list entity)
    (op un_value : string) (json : bool) : outcome exported :=
  let key := parameter self in
  obind (xport_defs self w key object_list args []) (fun '(args, xvars) =>
  match xvars with
  | [] => Return NoData
  | _ =>
      let args :=
        (args ++ [("CDEF:" ++ key ++ "=" ++ join "," (cdef_program xvars op un_value))%string])%list in
      let args := (args ++ [("XPORT:" ++ key ++ ":" ++ key)%string])%list in
      obind (rrdtool_xport args) (xport_result key json)
  end).

(** [Metric.get_cached_polling] *)
Definition get_cached_polling (self : metric) (obj : entity) : outcome pyval :=
  match _cache self !! Obj.pk obj with
  | Some v => Return v
  | None => Raise (KeyError (str_pk (Obj.pk obj)))
  end.

(** [Metric.get_sum_many]; the keyword arguments are those of
    [get_polling_many], and iterating over [None] is a [TypeError]. *)
Definition get_sum_many `{PyArith.FloatAdd} (objs : list entity) (no_return force_metric_type : bool) : M state pyval :=
  let* r := get_polling_many objs no_return force_metric_type in
  match r with
  | Some vs => lift (PyArith.sum (List.filter (fun x => negb (is_none x)) vs))
  | None => raise TypeError
  end.

(** [Metric.is_summable]; [unit] is the [unit] field of the metric. *)
Definition is_summable (self : metric) (unit : string) : bool :=
  bool_decide (type self ∈ ["float"; "int"])
  && negb (bool_decide (unit ∈ ["%"; "°"; "°C"; "°F"])).

End Methods.

End Metric.

(** ** [views._rrd_export_wrap] *)

Module Views.
Import Metric.

(** A row of the tool's XML output: the texts of its [t] and [v] elements. *)
Record xml_row := { t : string; v : list string }.

(** The finished [rrdtool xport] process. *)
Record process := { returncode : Z; out : list xml_row; err : string }.

Inductive exported :=
| NoData
| Dumps (output : gmap string (list pyval))
| Output (output : gmap string (list pyval)).

(** The loop over [object_list] for one metric; the state is the caller's
    [args] list, which [+=] extends in place. *)
Fixpoint export_defs (w : world) (key : string) (metric : metric) (object_list : list entity)
    (xvars : list string) : M (list string) (list string) :=
  match object_list with
  | [] => ret xvars
  | obj :: rest =>
      let rrd_path := _rrd_path metric obj in
      if path_exists rrd_path w then
        let* xkey := lift (fmt_s_i key (Obj.pk obj)) in
        let* _ := modify (fun args : list string =>
                    (args ++ [("DEF:" ++ xkey ++ "=" ++ _rrd_path metric obj ++ ":"
                               ++ str_int (pk metric) ++ ":AVERAGE")%string])%list) in
        export_defs w key metric rest (xvars ++ [xkey])
      else export_defs w key metric rest xvars
  end.

(** The loop over [exports], in iteration order: [None] is the early
    [return None], otherwise the labels in [keys]. *)
Fixpoint export_cdefs (w : world) (object_list : list entity) (exports : list (string * metric))
    (op un_value : string) (keys : list string) : M (list string) (option (list string)) :=
  match exports with
  | [] => ret (Some keys)
  | (key, metric) :: rest =>
      let* xvars := export_defs w key metric object_list [] in
      match xvars with
      | [] => ret None
      | _ =>
          let* _ := modify (fun args : list string =>
                      (args ++ [("CDEF:" ++ key ++ "=" ++ join "," (cdef_program xvars op un_value))%string])%list) in
          let* _ := modify (fun args : list string => (args ++ [("XPORT:" ++ key)%string])%list) in
          export_cdefs w object_list rest op un_value (keys ++ [key])
      end
  end.

(** [output[key] += [x]] *)
Definition extend (output : gmap string (list pyval)) (key : string) (x : pyval)
  : outcome (gmap string (list pyval)) :=
  match output !! key with
  | Some l => Return (<[key := (l ++ [x])%list]> output)
  | None => Raise (KeyError key)
  end.

(** The loop over [enumerate(keys)] for one row. *)
Fixpoint add_values (values : list string) (counter : Z) (keys : list string)
    (output : gmap string (list pyval)) : outcome (gmap string (list pyval)) :=
  match keys with
  | [] => Return output
  | key :: rest =>
      obind (getitem values counter) (fun value =>
      obind (if String.eqb value "NaN" || String.eqb value "nan" then Return PNone
             else obind (py_float (PStr value)) (fun q => Return (PFloat q))) (fun x =>
      obind (extend output key x) (fun output =>
      add_values values (counter + 1) rest output)))
  end.

(** The loop over the rows. *)
Fixpoint add_rows (rows : list xml_row) (keys : list string)
    (output : gmap string (list pyval)) : outcome (gmap string (list pyval)) :=
  match rows with
  | [] => Return output
  | row :: rest =>
      obind (py_int (PStr (t row))) (fun stamp =>
      obind (extend output "stamp" (PInt stamp)) (fun output =>
      obind (add_values (v row) 0 keys output) (fun output =>
      add_rows rest keys output)))
  end.

(** The two assignments on one series:
    [s[-1] = s[-2]] when [s[-1] == 0.0], then [s[0] = s[1]] when
    [s[0] == 0.0]. *)
Definition smooth (series : list pyval) : outcome (list pyval) :=
  obind (getitem series (-1)) (fun last =>
  obind (if eq_zero last
         then obind (getitem series (-2)) (fun x => setitem series (-1) x)
         else Return series) (fun series =>
  obind (getitem series 0) (fun first =>
  if eq_zero first
  then obind (getitem series 1) (fun x => setitem series 0 x)
  else Return series))).

(** The last loop over [keys]. *)
Fixpoint smooth_all (keys : list string) (output : gmap string (list pyval))
  : outcome (gmap string (list pyval)) :=
  match keys with
  | [] => Return output
  | key :: rest =>
      match output !! key with
      | Some series =>
          obind (smooth series) (fun series' => smooth_all rest (<[key := series']> output))
      | None => Raise (KeyError key)
      end
  end.

(** [_rrd_export_wrap]; [popen] runs the tool on its arguments. *)
Definition _rrd_export_wrap (popen : list string -> process) (w : world)
    (object_list : list entity) (exports : list (string * metric))
    (op un_value : string) (json : bool) : M (list string) exported :=
  let* keys := export_cdefs w object_list exports op un_value [] in
  match keys with
  | None => ret NoData
  | Some keys =>
      let* args := gets (fun args : list string => args) in
      let p := popen ("rrdtool" :: "xport" :: args) in
      if negb (returncode p =? 0) then raise (Exception ("rrdtool xport failed " ++ err p))
      else
        let output := fold_left (fun o key => <[key := []]> o) keys {["stamp" := []]} in
        let* output := lift (add_rows (out p) keys output) in
        let* output := lift (smooth_all keys output) in
        ret (if json then Dumps output else Output output)
  end.

(** *** [views.render_metric]

    The form ([timegraph/forms.py]) is seen through what the view asks of
    it: whether it is valid, and its options.  [rrdtool_graph] runs
    [rrdtool.graph] on its arguments and gives what the image file holds
    afterwards. *)

Inductive response :=
| HttpResponseBadRequest
| HttpResponse (content content_type : string).

(** [raise Http404] *)
Definition Http404 : exn := Exception "Http404".

(** [timegraph_rrd]; [image_file_name] is the name of the temporary file. *)
Definition timegraph_rrd (rrdtool_graph : list string -> outcome string)
    (image_file_name : string) (options : list string) : outcome string :=
  rrdtool_graph (image_file_name :: options).

(** The loop of [render_metric] over [object_list]. *)
Fixpoint metric_options (w : world) (metric : metric) (color : string)
    (object_list : list entity) (type : string) (count : Z) (options : list string)
  : Z * list string :=
  match object_list with
  | [] => (count, options)
  | obj :: rest =>
      let data_file := _rrd_path metric obj in
      if path_exists data_file w then
        metric_options w metric color rest "STACK" (count + 1)
          (options ++ [("DEF:" ++ str_int count ++ "=" ++ data_file ++ ":"
                        ++ str_int (pk metric) ++ ":AVERAGE")%string;
                       (type ++ ":" ++ str_int count ++ color)%string])%list
      else metric_options w metric color rest type count options
  end.

(** [render_metric]; [graph_color] is the [graph_color] field of the
    metric. *)
Definition render_metric (is_valid : bool) (form_options : list string)
    (rrdtool_graph : list string -> outcome string) (image_file_name : string)
    (w : world) (metric : metric) (graph_color : string) (object_list : list entity)
  : outcome response :=
  if negb is_valid then Return HttpResponseBadRequest
  else
    let color := if String.eqb graph_color "" then "#990033" else graph_color in
    let '(count, options) := metric_options w metric color object_list "AREA" 0 [] in
    if count =? 0 then Raise Http404
    else
      obind (timegraph_rrd rrdtool_graph image_file_name (options ++ form_options)%list)
        (fun image_data => Return (HttpResponse image_data "image/png")).

End Views.

(** ** Vocabulary of the statements *)

Module Spec.
Import Metric.

(** Shared-cache reads and writes among the calls of a trace. *)
Definition is_read (e : event) : bool :=
  match e with CacheGetMany _ => true | _ => false end.

Definition round_trips (tr : list event) : nat := length (List.filter is_read tr).

Definition cache_writes (tr : list event) : list (gmap string pyval) :=
  flat_map (fun e => match e with CacheSetMany d _ => [d] | _ => [] end) tr.

(** What the claim on gaps says of one sample: an unknown or zero sample
    becomes the unknown value, any other sample is kept. *)
Definition gap_fill (u : Q) (s : Rpn.sample) : Q :=
  match s with
  | None => u
  | Some x => if Qeq_bool x 0 then u else x
  end.

(** The operators that combine two series. *)
Definition combining (o : Rpn.operator) : bool :=
  match o with
  | Rpn.ADD | Rpn.SUB | Rpn.MUL | Rpn.MAX | Rpn.MIN | Rpn.ADDNAN => true
  | _ => false
  end.

(** The value of a combining operator on two numbers. *)
Definition apply (o : Rpn.operator) (x y : Q) : Q :=
  match o with
  | Rpn.SUB => (x - y)%Q
  | Rpn.MUL => (x * y)%Q
  | Rpn.MAX => if Qle_bool x y then y else x
  | Rpn.MIN => if Qle_bool x y then x else y
  | _ => (x + y)%Q
  end.

(** [x1 o (x2 o (... o xn))] *)
Fixpoint combine (o : Rpn.operator) (x : Q) (xs : list Q) : Q :=
  match xs with
  | [] => x
  | y :: ys => apply o x (combine o y ys)
  end.

(** What the claim on smoothing says of the series [first :: mid ++ [last]]:
    a last point equal to zero takes the value before it, then a first point
    equal to zero takes the value after it, and [mid] is kept.  With two
    points the value after the first is the last point as just replaced. *)
Definition smoothed_ends (first : pyval) (mid : list pyval) (last : pyval) : list pyval :=
  let before_last := List.last mid first in
  let last' := if eq_zero last then before_last else last in
  let second := hd last' mid in
  let first' := if eq_zero first then second else first in
  first' :: mid ++ [last'].

(** A row of the binding's answer: a tuple of column values. *)
Definition is_row (o : PyObj.pyobj) : Prop :=
  match o with PyObj.Tuple _ => True | _ => False end.

(** The sample of a series in a time slot. *)
Definition sample_of (env : gmap string Rpn.sample) (var : string) : Rpn.sample :=
  match env !! var with
  | Some s => s
  | None => None
  end.

(** A name that the tool reads as a series and that is defined. *)
Definition defined (env : gmap string Rpn.sample) (var : string) : Prop :=
  Rpn.lex var = Rpn.Var var /\ is_Some (env !! var).

(** A metric without an archive for any object of the list. *)
Definition unarchived (w : world) (object_list : list entity) (metric : metric) : Prop :=
  Forall (fun obj => path_exists (_rrd_path metric obj) w = false) object_list.

Definition numbered (object_list : list entity) : Prop :=
  Forall (fun obj => exists z, Obj.pk obj = PkInt z) object_list.

(** An export that gave nothing: [none], or the [TypeError] of a key that is
    not a number. *)
Definition nothing_exported {A} (object_list : list entity) (none : A) (r : outcome A) : Prop :=
  (r = Return none \/ r = Raise TypeError) /\
  (numbered object_list -> r = Return none).

(** Keys that are those of their objects under a pre-key. *)
Definition keyed_by_pk (pre_key : string) (keys : list (string * pkval)) : Prop :=
  Forall (fun kp => key_of pre_key (snd kp) = Return (fst kp)) keys.

(** The end of [get_polling_many], after the caches were consulted. *)
Definition answer (no_return : bool) (objs : list entity) (s : state)
  : outcome (option (list pyval)) * state :=
  if no_return then (Return None, s)
  else match get_cached_polling_list (fst s) objs with
       | Return vs => (Return (Some vs), s)
       | Raise e => (Raise e, s)
       end.

(** The archive that [set_polling_many] creates, after its first sample. *)
Definition fresh (self : metric) (arg : string) : archive :=
  {| ds := "DS:" ++ str_int (pk self) ++ ":GAUGE:" ++ str_int (heartbeat self) ++ ":U:U";
     rras := rings; samples := [arg]; fault := None |}.

(** One archive write applied to the files, as the store sees it when the
    write goes through: a sample is appended to a sound archive, a missing
    archive (or one whose fault reads as missing) is made anew with the one
    sample, any other faulty archive is left alone. *)
Definition persist (self : metric) (path arg : string) (fs : gmap string archive)
  : gmap string archive :=
  match fs !! path with
  | None => <[path := fresh self arg]> fs
  | Some a =>
      match fault a with
      | None => <[path := push_sample arg a]> fs
      | Some message =>
          if contains "No such file" message then <[path := fresh self arg]> fs else fs
      end
  end.

Section Batches.
Context `{FloatText}.

(** What the second loop of [get_polling_many] records for a key: the
    decoded hit, or [None]. *)
Definition recorded (self : metric) (force : bool) (metrics : gmap string pyval) (key : string)
  : pyval :=
  match metrics !! key with
  | Some raw => to_python self raw force
  | None => PNone
  end.

(** [for obj, value in items: metric.queue_append(obj, value)] *)
Definition enqueue_all (items : list (entity * pyval)) : M state unit :=
  for_each (fun (item : entity * pyval) (_ : unit) => queue_append (fst item) (snd item)) items tt.

(** The cache key and value of every pair of a batch, in its order. *)
Fixpoint keyed_under (pre_key : string) (items : list (entity * pyval))
  : outcome (list (string * pyval)) :=
  match items with
  | [] => Return []
  | (obj, value) :: rest =>
      obind (key_of pre_key (Obj.pk obj)) (fun key =>
      obind (keyed_under pre_key rest) (fun kvs => Return ((key, value) :: kvs)))
  end.

Definition keyed (self : metric) (items : list (entity * pyval))
  : outcome (list (string * pyval)) :=
  match items with
  | [] => Return []
  | (first, _) :: _ => obind (_pre_key_for self [first]) (fun pre_key => keyed_under pre_key items)
  end.

(** The archive path of an object in a batch that starts with [first], as
    [set_polling_many] builds it. *)
Definition batch_path (self : metric) (first obj : entity) : string :=
  OsPath.join (OsPath.join (rrd_root self) [objtype first])
    [strip_colons (str_pk (Obj.pk obj)); str_int (pk self) ++ ".rrd"].

(** The archive updates a batch asks for, in its order: one for every pair
    with a value other than [None] and [''], when the metric is archived. *)
Definition archived_from (self : metric) (first : entity) (items : list (entity * pyval))
  : list (string * string) :=
  flat_map (fun item : entity * pyval =>
              if rrd_enabled self && non_empty (snd item)
              then [(batch_path self first (fst item), "N:" ++ py_str (snd item))]
              else [])
           items.

Definition archived (self : metric) (items : list (entity * pyval)) : list (string * string) :=
  match items with
  | [] => []
  | (first, _) :: _ => archived_from self first items
  end.

(** The loop body of [set_polling_many] for a batch that starts with
    [first], and the cache write that ends it. *)
Definition loop_body (self : metric) (first : entity)
  : entity * pyval -> gmap string pyval -> M world (gmap string pyval) :=
  store_one self
    (cache_prefix self ++ "/" ++ objtype first ++ "/%s/" ++ str_int (pk self))
    (OsPath.join (rrd_root self) [objtype first])
    (str_int (pk self) ++ ".rrd").

Definition finish (self : metric) (cache_dict : gmap string pyval) : M world unit :=
  cache_set_many cache_dict (if cache_timeout self =? 0 then 7 * 86400 else cache_timeout self).

(** The first object of the batch [before ++ (obj, value) :: after]. *)
Definition first_of (before : list (entity * pyval)) (obj : entity) : entity :=
  match before with
  | [] => obj
  | (first, _) :: _ => first
  end.

(** The world after a missing archive was created, with its directory when
    that was missing too, and written once. *)
Definition provisioned (self : metric) (path : string) (value : pyval) (w : world) : world :=
  let arg := "N:" ++ py_str value in
  let dir := OsPath.dirname path in
  {| shared := shared w;
     dirs := if path_exists dir w then dirs w else {[dir]} ∪ dirs w;
     files := <[path := fresh self arg]> (files w);
     trace := trace w
              ++ [RrdUpdate path arg]
              ++ (if path_exists dir w then [] else [MakeDirs dir])
              ++ [RrdCreate path (ds (fresh self arg) :: rings); RrdUpdate path arg] |}.

(** The world after a refused update was logged. *)
Definition refused (self : metric) (obj : entity) (path : string) (value : pyval)
    (message : string) (w : world) : world :=
  emit (LogError ("error on " ++ parameter self ++ " metric (object "
                  ++ strip_colons (str_pk (Obj.pk obj)) ++ "): " ++ message))
    (emit (RrdUpdate path ("N:" ++ py_str value)) w).

End Batches.

Definition write_entry (c : gmap string pyval) (kv : string * pyval) : gmap string pyval :=
  <[fst kv := snd kv]> c.

(** One pair written to the shared cache, which keeps its text. *)
Definition store_entry `{FloatText} (c : gmap string pyval) (kv : string * pyval)
  : gmap string pyval :=
  <[fst kv := raw (snd kv)]> c.

Definition persist_entry (self : metric) (fs : gmap string archive) (pa : string * string)
  : gmap string archive :=
  persist self (fst pa) (snd pa) fs.

Section Polling.
Context `{FloatText}.

(** What a call of [get_polling_many] on a batch that starts with [first]
    holds for an object: the value of the local cache when it has one, the
    decoded entry of the shared cache otherwise, [None] when that has none. *)
Definition held (self : metric) (force : bool) (w : world) (first o : entity) : outcome pyval :=
  match _cache self !! Obj.pk o with
  | Some v => Return v
  | None => obind (cache_key self first o) (fun key => Return (recorded self force (shared w) key))
  end.

End Polling.

(** Numbers, and the values a numeric metric holds. *)
Definition number (v : pyval) : bool :=
  match v with PInt _ | PFloat _ => true | _ => false end.

Definition number_or_none (v : pyval) : bool := is_none v || number v.

Definition text_or_none (v : pyval) : bool :=
  match v with PNone | PStr _ => true | _ => false end.

(** Integers, and the values a metric of integers holds. *)
Definition integer_or_none (v : pyval) : bool :=
  match v with PNone | PInt _ => true | _ => false end.

(** The sum of the integers of a list; [None] counts for nothing. *)
Definition total (vs : list pyval) : Z :=
  fold_right (fun v s => match v with PInt z => z + s | _ => s end) 0 vs.

(** The objects of a list that have an archive of a metric. *)
Definition archived_objects (w : world) (metric : metric) (object_list : list entity)
  : list entity :=
  List.filter (fun obj => path_exists (_rrd_path metric obj) w) object_list.

(** The two options [render_metric] gives the [i]-th archive it draws. *)
Definition draw (metric : metric) (color : string) (i : nat) (obj : entity) : list string :=
  ["DEF:" ++ str_int (Z.of_nat i) ++ "=" ++ _rrd_path metric obj ++ ":"
   ++ str_int (pk metric) ++ ":AVERAGE";
   (if Nat.eqb i 0 then "AREA" else "STACK") ++ ":" ++ str_int (Z.of_nat i) ++ color].

Definition drawing (metric : metric) (color : string) (objs : list entity) : list string :=
  concat (imap (draw metric color) objs).

(** A key that is one path component: not empty, without a slash. *)
Definition component (k : string) : Prop :=
  k <> "" /\ ~ In "/"%char (chars k).

(** The messages logged among the calls of a trace. *)
Definition logged (tr : list event) : list string :=
  flat_map (fun e => match e with LogError message => [message] | _ => [] end) tr.

(** The characters of a decimal numeral. *)
Definition decimal_digits : list ascii := chars "0123456789".

(** The value [_rrd_export_wrap] reads in the text of a [v] element. *)
Definition point (value : string) : outcome pyval :=
  if String.eqb value "NaN" || String.eqb value "nan" then Return PNone
  else obind (py_float (PStr value)) (fun q => Return (PFloat q)).

(** What the loop of [_rrd_export_wrap] over the rows has built after the
    rows [done]: the times under ['stamp'], and under the label at position
    [j] the value at position [j] of every row. *)
Definition built (keys : list string) (done : list Views.xml_row)
    (output : gmap string (list pyval)) : Prop :=
  (exists stamps : list Z,
     output !! "stamp" = Some (PInt <$> stamps) /\
     Forall2 (fun row s => py_int (PStr (Views.t row)) = Return s) done stamps) /\
  forall (j : nat) (key : string),
    keys !! j = Some key ->
    exists xs : list pyval,
      output !! key = Some xs /\
      Forall2 (fun row x => exists txt, Views.v row !! j = Some txt /\ point txt = Return x)
        done xs.

End Spec.

(** ** Inputs of the examples *)

Module Examples.
Import Metric.

(** Floats with one decimal, which is all the examples print. *)
Definition one_decimal : FloatText :=
  fun q => str_int (Z.quot (Qnum q) (Zpos (Qden q))) ++ "."
           ++ str_int (Z.abs (Z.rem (Z.quot (10 * Qnum q) (Zpos (Qden q))) 10)).

(** Floats added as rationals, which is exact on the floats of the
    examples. *)
Definition exact : PyArith.FloatAdd := Qplus.

Definition unset : settings :=
  {| TIMEGRAPH_RRD_ROOT := None; TIMEGRAPH_CACHE_PREFIX := None;
     TIMEGRAPH_HEARTBEAT := None; MEMCACHE_QUEUE_SIZE := None |}.

Definition bandwidth (kind : string) (capacity : Z) : metric :=
  {| pk := 5; parameter := "bw"; type := kind; rrd_enabled := true; cache_timeout := 0;
     _cache := ∅; queue := []; rrd_root := "/var/lib/rrdcached/db";
     cache_prefix := "timegraph"; heartbeat := 300; queue_size := capacity |}.

Definition latency : metric :=
  {| pk := 6; parameter := "rtt"; type := "float"; rrd_enabled := true; cache_timeout := 60;
     _cache := ∅; queue := []; rrd_root := "/var/lib/rrdcached/db";
     cache_prefix := "timegraph"; heartbeat := 300; queue_size := 3000 |}.

Definition nothing : world := {| shared := ∅; dirs := ∅; files := ∅; trace := [] |}.

Definition host (p : pkval) : entity := {| class_name := "Host"; Obj.pk := p |}.

Definition sound : archive :=
  {| ds := "DS:5:GAUGE:300:U:U"; rras := rings; samples := ["N:1"]; fault := None |}.

Definition locked : archive :=
  {| ds := "DS:5:GAUGE:300:U:U"; rras := rings; samples := ["N:1"];
     fault := Some "opening '/var/lib/rrdcached/db/host/7/5.rrd': Permission denied" |}.

(** An archive with three samples that the tool cannot reach: the socket of
    its caching daemon is gone. *)
Definition unreachable : archive :=
  {| ds := "DS:5:GAUGE:300:U:U"; rras := rings; samples := ["N:1"; "N:2"; "N:3"];
     fault := Some "Unable to connect to rrdcached: No such file or directory" |}.

(** A world where host 7 has an archive of the bandwidth metric. *)
Definition polled (a : archive) : world :=
  {| shared := ∅; dirs := {["/var/lib/rrdcached/db/host/7"]};
     files := {["/var/lib/rrdcached/db/host/7/5.rrd" := a]}; trace := [] |}.

(** The binding's answer with one column: a tuple per time slot. *)
Definition column (points : list pyval) : PyObj.pyobj :=
  PyObj.Dict {[ "meta" := PyObj.Dict ∅;
               "data" := PyObj.PyList (map (fun x => PyObj.Tuple [PyObj.Atom x]) points) ]}.

(** An answer with the points themselves in ['data']. *)
Definition flat (points : list pyval) : PyObj.pyobj :=
  PyObj.Dict {[ "meta" := PyObj.Dict ∅; "data" := PyObj.PyList (map PyObj.Atom points) ]}.

Definition many : list (entity * pyval) := replicate 3001 (host (PkInt 7), PInt 1).

Definition three : list (entity * pyval) :=
  [(host (PkInt 1), PInt 10); (host (PkInt 2), PInt 20); (host (PkInt 3), PInt 30)].

Definition twice : list (entity * pyval) :=
  [(host (PkInt 7), PInt 1); (host (PkInt 7), PInt 2)].

Definition edges : list pyval := [PFloat 0; PFloat 5; PFloat 5; PFloat 0].

Definition tool (rows : list Views.xml_row) (args : list string) : Views.process :=
  {| Views.returncode := 0; Views.out := rows; Views.err := "" |}.

(** A metric whose cache prefix does not format, with a queue of capacity
    [0]. *)
Definition misnamed : metric :=
  {| pk := 5; parameter := "bw"; type := "int"; rrd_enabled := true; cache_timeout := 0;
     _cache := ∅; queue := []; rrd_root := "/var/lib/rrdcached/db";
     cache_prefix := "100%"; heartbeat := 300; queue_size := 0 |}.

(** A metric that is not archived. *)
Definition cached_only : metric := __init__ unset 5 "bw" "int" false 0.

(** A world where the host of address [aa:bb] has an archive of the
    bandwidth metric. *)
Definition addressed : world :=
  {| shared := ∅; dirs := {["/var/lib/rrdcached/db/host/aabb"]};
     files := {["/var/lib/rrdcached/db/host/aabb/5.rrd" := sound]}; trace := [] |}.

(** A shared cache that knows hosts 7 and 8. *)
Definition known (seven eight : pyval) : world :=
  {| shared := {[ "timegraph/host/7/5" := seven; "timegraph/host/8/5" := eight ]};
     dirs := ∅; files := ∅; trace := [] |}.

(** Two rows of the tool for two labels, with a gap. *)
Definition two_rows : list Views.xml_row :=
  [{| Views.t := "100"; Views.v := ["1.5"; "NaN"] |};
   {| Views.t := "400"; Views.v := ["2"; "7"] |}].

End Examples.

(** * Properties *)

(** ** Strings *)

Lemma chars_text (l : list ascii) : chars (text l) = l.
Proof. apply list_ascii_of_string_of_list_ascii. Qed.

Lemma filter_twice {A} (f : A -> bool) (l : list A) :
  List.filter f (List.filter f l) = List.filter f l.
Proof.
  induction l as [|x l IH]; simpl; [reflexivity|].
  destruct (f x) eqn:E; simpl; [rewrite E, IH|]; auto.
Qed.

Lemma strip_colons_idem (s : string) : strip_colons (strip_colons s) = strip_colons s.
Proof. unfold strip_colons. now rewrite chars_text, filter_twice. Qed.

Lemma prefix_app (n s : string) : String.prefix n (n ++ s) = true.
Proof.
  induction n as [|c n IH]; simpl; [now destruct s|].
  destruct (Ascii.ascii_dec c c); [assumption | contradiction].
Qed.

Lemma contains_here (n s : string) : contains n (n ++ s) = true.
Proof.
  pose proof (prefix_app n s) as P.
  destruct (n ++ s); simpl in *; rewrite P; reflexivity.
Qed.

Lemma contains_later (n p s : string) : contains n s = true -> contains n (p ++ s) = true.
Proof.
  intros Hs. induction p as [|c p IH]; simpl; [assumption|].
  rewrite IH. apply orb_true_r.
Qed.

Lemma missing_message_reads_missing (path : string) :
  contains "No such file" (no_such_file path) = true.
Proof.
  unfold no_such_file.
  apply (contains_later _ "opening '"), contains_later.
  apply (contains_later _ "': "), (contains_here "No such file" " or directory").
Qed.

(** ** C10: archive paths and cache keys forget the colons of a key *)

(** C10.  The archive path and the shared-cache key are functions of the
    entity type, the entity key without its colons and the metric (its key
    and the configured root and prefix): objects that agree on these get the
    same path and the same cache key.  So neither is injective in the entity
    key: ["aa:bb"] and ["aabb"] are two keys with the same path and the same
    cache key, for every metric and class. *)
Theorem rrd_path_forgets_colons :
  (forall (self self' : Metric.metric) (a b : entity),
      Metric.pk self = Metric.pk self' ->
      Metric.rrd_root self = Metric.rrd_root self' ->
      Metric.cache_prefix self = Metric.cache_prefix self' ->
      objtype a = objtype b ->
      strip_colons (str_pk (pk a)) = strip_colons (str_pk (pk b)) ->
      Metric._rrd_path self a = Metric._rrd_path self' b /\
      Metric.cache_key self a a = Metric.cache_key self' b b) /\
  (exists k1 k2 : pkval,
      k1 <> k2 /\
      forall (self : Metric.metric) (cls : string),
        let a := {| class_name := cls; pk := k1 |} in
        let b := {| class_name := cls; pk := k2 |} in
        Metric._rrd_path self a = Metric._rrd_path self b /\
        Metric.cache_key self a a = Metric.cache_key self b b).
Proof.
  assert (G : forall (self self' : Metric.metric) (a b : entity),
      Metric.pk self = Metric.pk self' ->
      Metric.rrd_root self = Metric.rrd_root self' ->
      Metric.cache_prefix self = Metric.cache_prefix self' ->
      objtype a = objtype b ->
      strip_colons (str_pk (pk a)) = strip_colons (str_pk (pk b)) ->
      Metric._rrd_path self a = Metric._rrd_path self' b /\
      Metric.cache_key self a a = Metric.cache_key self' b b).
  { intros self self' a b Hpk Hroot Hprefix Htype Hkey.
    unfold Metric._rrd_path, Metric.cache_key, Metric.key_of, Metric._pre_key_for.
    cbn [obind]. now rewrite Hpk, Hroot, Hprefix, Htype, Hkey. }
  split; [exact G|].
  exists (PkStr "aa:bb"), (PkStr "aabb"). split; [discriminate|].
  intros self cls a b. apply G; reflexivity.
Qed.

(** ** C6: decoding a raw value *)

Lemma eq_str_true (v : pyval) (s : string) : eq_str v s = true <-> v = PStr s.
Proof.
  destruct v; simpl; try (split; [discriminate|congruence]).
  rewrite String.eqb_eq. split; congruence.
Qed.

Lemma eq_str_false (v : pyval) (s : string) : v <> PStr s -> eq_str v s = false.
Proof.
  intros Hne. destruct (eq_str v s) eqn:E; [|reflexivity].
  apply eq_str_true in E. contradiction.
Qed.

Lemma is_none_true (v : pyval) : is_none v = true <-> v = PNone.
Proof. destruct v; simpl; split; congruence. Qed.

(** Failure of [float()] or [int()] under the numeric kinds: the zero of the
    kind when the type is forced, [None] otherwise. *)
Lemma to_python_float_failure `{FloatText} (self : Metric.metric) (raw : pyval) (strict : bool) (e : exn) :
  Metric.type self = "float" -> py_float raw = Raise e ->
  Metric.to_python self raw strict = if strict then PFloat 0 else PNone.
Proof. intros Ht Hf. unfold Metric.to_python. rewrite Ht, Hf. reflexivity. Qed.

Lemma to_python_int_failure `{FloatText} (self : Metric.metric) (raw : pyval) (strict : bool) (e : exn) :
  Metric.type self = "int" -> py_int raw = Raise e ->
  Metric.to_python self raw strict = if strict then PInt 0 else PNone.
Proof. intros Ht Hf. unfold Metric.to_python. rewrite Ht, Hf. reflexivity. Qed.

(** C6, as the code has it.  Under the boolean kind the texts ["1"] and
    ["True"] decode to true; a missing raw value decodes to [None] when the
    type is not forced and to false when it is; every other raw value decodes
    to false, forced or not.  Under the float and integer kinds every raw
    value that [float()] or [int()] rejects decodes to [None] when the type
    is not forced. *)
Theorem decode_null_by_kind `{FloatText} (self : Metric.metric) (raw : pyval) (strict : bool) :
  (Metric.type self = "bool" ->
     (raw = PStr "1" \/ raw = PStr "True" -> Metric.to_python self raw strict = PBool true) /\
     (raw = PNone ->
        Metric.to_python self raw strict = if strict then PBool false else PNone) /\
     (raw <> PStr "1" -> raw <> PStr "True" -> raw <> PNone ->
        Metric.to_python self raw strict = PBool false)) /\
  (Metric.type self = "float" -> forall e, py_float raw = Raise e ->
     Metric.to_python self raw false = PNone /\ Metric.to_python self raw true = PFloat 0) /\
  (Metric.type self = "int" -> forall e, py_int raw = Raise e ->
     Metric.to_python self raw false = PNone /\ Metric.to_python self raw true = PInt 0).
Proof.
  split; [|split].
  - intros Ht. unfold Metric.to_python. rewrite Ht. simpl. repeat split.
    + intros [-> | ->]; reflexivity.
    + intros ->. simpl. now destruct strict.
    + intros H1 H2 H3.
      rewrite (eq_str_false _ _ H1), (eq_str_false _ _ H2). simpl.
      destruct (is_none raw) eqn:E; [apply is_none_true in E; contradiction|].
      now rewrite andb_false_r.
  - intros Ht e Hf. split.
    + apply (to_python_float_failure self raw false e Ht Hf).
    + apply (to_python_float_failure self raw true e Ht Hf).
  - intros Ht e Hf. split.
    + apply (to_python_int_failure self raw false e Ht Hf).
    + apply (to_python_int_failure self raw true e Ht Hf).
Qed.

(** C6 as stated fails: the boolean kind does return [None], for a missing
    raw value when the type is not forced. *)
Lemma bool_decode_of_missing_is_null :
  @Metric.to_python Examples.one_decimal (Examples.bandwidth "bool" 3000) PNone false = PNone.
Proof. reflexivity. Qed.

(** ** Loops and states *)

Lemma for_each_app {S A B} (body : A -> B -> M S B) (l1 l2 : list A) (acc : B) (s : S) :
  for_each body (l1 ++ l2) acc s =
  match for_each body l1 acc s with
  | (Return acc', s') => for_each body l2 acc' s'
  | (Raise e, s') => (Raise e, s')
  end.
Proof.
  revert acc s. induction l1 as [|x l1 IH]; intros acc s; simpl; [reflexivity|].
  unfold bind. destruct (body x acc s) as [[acc'|e] s']; [apply IH | reflexivity].
Qed.

(** ** C5 and C9: the write queue *)

Section Queue.
Context `{FloatText}.

(** [set_polling_many] reads neither the queue nor the local cache. *)
Lemma set_polling_many_with_queue (q : list (entity * pyval)) (self : Metric.metric)
    (items : list (entity * pyval)) :
  Metric.set_polling_many (Metric.with_queue q self) items = Metric.set_polling_many self items.
Proof. destruct items as [|[first v] rest]; reflexivity. Qed.

(** One [queue_append], by cases on the length it reaches. *)
Lemma queue_append_step (self : Metric.metric) (w : world) (obj : entity) (value : pyval) :
  let q := (Metric.queue self ++ [(obj, value)])%list in
  Metric.queue_append obj value (self, w) =
  if Metric.queue_size self <? Z.of_nat (length q) then
    match Metric.set_polling_many self q w with
    | (Return _, w') => (Return tt, (Metric.with_queue [] self, w'))
    | (Raise e, w') => (Raise e, (Metric.with_queue q self, w'))
    end
  else (Return tt, (Metric.with_queue q self, w)).
Proof.
  intros q. unfold Metric.queue_append, Metric.dump_queue, Metric.set_me, Metric.me,
    Metric.outside, bind, modify, gets. simpl. fold q.
  destruct (Metric.queue_size self <? Z.of_nat (length q)); [|reflexivity].
  cbn beta iota delta [fst snd Metric.queue Metric.with_queue].
  rewrite set_polling_many_with_queue.
  destruct (Metric.set_polling_many self q w) as [[[]|e] w']; reflexivity.
Qed.

(** While the queue stays within its capacity nothing leaves the process:
    the pairs pile up in order, repeated objects included. *)
Lemma enqueue_all_within_capacity (items : list (entity * pyval)) (self : Metric.metric) (w : world) :
  Z.of_nat (length (Metric.queue self) + length items) <= Metric.queue_size self ->
  Spec.enqueue_all items (self, w)
  = (Return tt, (Metric.with_queue (Metric.queue self ++ items) self, w)).
Proof.
  revert self. induction items as [|[obj value] items IH]; intros self Hlen.
  - simpl. unfold ret. rewrite app_nil_r. now destruct self.
  - unfold Spec.enqueue_all in *. simpl. unfold bind at 1.
    rewrite queue_append_step. simpl.
    destruct (Z.ltb_spec (Metric.queue_size self)
                (Z.of_nat (length (Metric.queue self ++ [(obj, value)])))) as [Hlt|Hge].
    { rewrite length_app in Hlt. simpl in *. lia. }
    rewrite IH.
    + simpl. now rewrite <- app_assoc.
    + simpl. rewrite length_app. simpl in *. lia.
Qed.

(** C5, as the code has it.  From an empty queue of capacity [queue_size],
    the first [queue_size] calls of [queue_append] reach nothing outside the
    process and leave the pairs in the queue; the call after them hands all
    [queue_size + 1] pairs to one [set_polling_many] before it returns, and
    empties the queue when that call returns. *)
Theorem queue_flushes_capacity_plus_one (self : Metric.metric) (w : world)
    (items : list (entity * pyval)) :
  Metric.queue self = [] ->
  0 <= Metric.queue_size self ->
  Z.of_nat (length items) = Metric.queue_size self + 1 ->
  (forall n : nat, Z.of_nat n <= Metric.queue_size self ->
     Spec.enqueue_all (take n items) (self, w)
     = (Return tt, (Metric.with_queue (take n items) self, w))) /\
  Spec.enqueue_all items (self, w)
  = match Metric.set_polling_many self items w with
    | (Return _, w') => (Return tt, (Metric.with_queue [] self, w'))
    | (Raise e, w') => (Raise e, (Metric.with_queue items self, w'))
    end.
Proof.
  intros Hq Hcap Hlen.
  assert (Hpre : forall n : nat, Z.of_nat n <= Metric.queue_size self ->
     Spec.enqueue_all (take n items) (self, w)
     = (Return tt, (Metric.with_queue (take n items) self, w))).
  { intros n Hn. rewrite enqueue_all_within_capacity.
    - now rewrite Hq.
    - rewrite Hq, length_take. simpl. lia. }
  split; [exact Hpre|].
  destruct (exists_last (l := items)) as [init [[obj value] Hitems]].
  { intros ->. simpl in Hlen. lia. }
  assert (Hinit : Z.of_nat (length init) = Metric.queue_size self).
  { rewrite Hitems, length_app in Hlen. simpl in Hlen. lia. }
  specialize (Hpre (length init) ltac:(lia)).
  rewrite Hitems in Hpre. rewrite take_app_length in Hpre.
  rewrite Hitems. unfold Spec.enqueue_all in *. rewrite for_each_app, Hpre.
  simpl. unfold bind. rewrite queue_append_step. simpl.
  destruct (Z.ltb_spec (Metric.queue_size self) (Z.of_nat (length (init ++ [(obj, value)]))))
    as [Hlt|Hge].
  2:{ rewrite length_app in Hge. simpl in Hge. lia. }
  rewrite set_polling_many_with_queue.
  destruct (Metric.set_polling_many self (init ++ [(obj, value)]) w) as [[[]|e] w']; reflexivity.
Qed.

End Queue.

(** C5, witness: a new metric under the default settings, whose capacity is
    3000, and 3001 pairs. *)
Lemma queue_flushes_capacity_plus_one_witness :
  let self := Metric.__init__ Examples.unset 5 "bw" "int" false 0 in
  let run := @Spec.enqueue_all Examples.one_decimal Examples.many (self, Examples.nothing) in
  let flush := @Metric.set_polling_many Examples.one_decimal self Examples.many Examples.nothing in
  Metric.queue_size self = 3000 /\
  (forall n : nat, Z.of_nat n <= 3000 ->
     @Spec.enqueue_all Examples.one_decimal (take n Examples.many) (self, Examples.nothing)
     = (Return tt, (Metric.with_queue (take n Examples.many) self, Examples.nothing))) /\
  run = match flush with
        | (Return _, w') => (Return tt, (Metric.with_queue [] self, w'))
        | (Raise e, w') => (Raise e, (Metric.with_queue Examples.many self, w'))
        end.
Proof.
  intros self run flush. split; [reflexivity|].
  apply (@queue_flushes_capacity_plus_one Examples.one_decimal self Examples.nothing Examples.many).
  - reflexivity.
  - discriminate.
  - unfold Examples.many. rewrite length_replicate. reflexivity.
Defined.

(** C5 as stated fails: with capacity 2, the third call flushes three pairs,
    not two. *)
Lemma flush_holds_three_at_capacity_two :
  let '(r, (self', w')) :=
    @Spec.enqueue_all Examples.one_decimal Examples.three
      (Examples.bandwidth "int" 2, Examples.nothing) in
  r = Return tt /\ Metric.queue self' = [] /\
  map size (Spec.cache_writes (trace w')) = [3%nat] /\
  Metric.queue_size (Examples.bandwidth "int" 2) = 2.
Proof. vm_compute. split; [|split; [|split]]; reflexivity. Qed.

(** ** C4: one archive write *)

Section ArchiveWrite.
Context `{FloatText}.
Variables (self : Metric.metric) (obj_pk path : string) (value : pyval).

Let arg : string := "N:" ++ py_str value.
Let dir : string := OsPath.dirname path.

Lemma create_and_retry (w : world) :
  (path_exists dir w = true -> dir ∈ dirs w) ->
  (let* _ := (if negb (path_exists dir (emit (RrdUpdate path arg) w))
              then makedirs dir else ret tt) in
   let* _ := rrd_create path (ds (Spec.fresh self arg)) Metric.rings in
   rrd_update path arg) (emit (RrdUpdate path arg) w)
  = (Return tt, Spec.provisioned self path value w).
Proof.
  intros Hdir. unfold bind, Spec.provisioned. fold arg dir.
  change (path_exists dir (emit (RrdUpdate path arg) w)) with (path_exists dir w).
  destruct (path_exists dir w) eqn:Hex; simpl.
  - unfold ret, rrd_create. simpl. fold dir.
    rewrite bool_decide_eq_true_2 by (apply Hdir; reflexivity).
    unfold rrd_update. simpl. rewrite lookup_insert_eq. simpl.
    rewrite insert_insert_eq. unfold with_files, emit. simpl.
    rewrite <- !app_assoc. reflexivity.
  - unfold makedirs, rrd_create. simpl. fold dir.
    rewrite bool_decide_eq_true_2 by set_solver.
    unfold rrd_update. simpl. rewrite lookup_insert_eq. simpl.
    rewrite insert_insert_eq. unfold with_files, emit. simpl.
    rewrite <- !app_assoc. reflexivity.
Qed.

(** When the create-and-retry path returns, the archive holds the one
    sample, and the cache and its writes are as before. *)
Lemma create_and_retry_returns (w w' : world) :
  (let* _ := (if negb (path_exists dir (emit (RrdUpdate path arg) w))
              then makedirs dir else ret tt) in
   let* _ := rrd_create path (ds (Spec.fresh self arg)) Metric.rings in
   rrd_update path arg) (emit (RrdUpdate path arg) w)
  = (Return tt, w') ->
  shared w' = shared w /\
  Spec.cache_writes (trace w') = Spec.cache_writes (trace w) /\
  Spec.round_trips (trace w') = Spec.round_trips (trace w) /\
  files w' = <[path := Spec.fresh self arg]> (files w).
Proof.
  intros Hrun.
  destruct (path_exists dir w) eqn:Hex.
  - destruct (decide (dir ∈ dirs w)) as [Hin|Hout].
    + rewrite create_and_retry in Hrun by auto. injection Hrun as <-.
      unfold Spec.provisioned, Spec.cache_writes, Spec.round_trips. fold dir. rewrite Hex. simpl.
      rewrite !flat_map_app, !List.filter_app. simpl.
      rewrite !app_nil_r. auto.
    + exfalso. revert Hrun. unfold bind.
      change (path_exists dir (emit (RrdUpdate path arg) w)) with (path_exists dir w).
      rewrite Hex. simpl. unfold ret, rrd_create. simpl. fold dir.
      rewrite bool_decide_eq_false_2 by assumption. discriminate.
  - rewrite create_and_retry in Hrun by (rewrite Hex; discriminate). injection Hrun as <-.
    unfold Spec.provisioned, Spec.cache_writes, Spec.round_trips. fold dir. rewrite Hex. simpl.
    rewrite !flat_map_app, !List.filter_app. simpl.
    rewrite !app_nil_r. auto.
Qed.

(** A missing archive is created, with its directory, and written once. *)
Lemma archive_write_missing (w : world) :
  files w !! path = None ->
  (path_exists dir w = true -> dir ∈ dirs w) ->
  Metric.archive_write self obj_pk path value w = (Return tt, Spec.provisioned self path value w).
Proof.
  intros Hnone Hdir. unfold Metric.archive_write, rrd_update at 1. rewrite Hnone.
  rewrite missing_message_reads_missing. simpl negb. cbv iota.
  apply create_and_retry, Hdir.
Qed.

(** Any other refusal is logged and the archive is left as it was. *)
Lemma archive_write_refused (w : world) (a : archive) (message : string) :
  files w !! path = Some a -> fault a = Some message ->
  contains "No such file" message = false ->
  Metric.archive_write self obj_pk path value w
  = (Return tt,
     emit (LogError ("error on " ++ Metric.parameter self ++ " metric (object " ++ obj_pk
                     ++ "): " ++ message))
       (emit (RrdUpdate path arg) w)).
Proof.
  intros Hsome Hfault Hmsg. unfold Metric.archive_write, rrd_update at 1.
  rewrite Hsome, Hfault, Hmsg. reflexivity.
Qed.

(** A refusal that reads as a missing file is taken for one: the archive is
    created anew, whatever it held, and written once. *)
Lemma archive_write_reads_missing (w : world) (a : archive) (message : string) :
  files w !! path = Some a -> fault a = Some message ->
  contains "No such file" message = true ->
  (path_exists dir w = true -> dir ∈ dirs w) ->
  Metric.archive_write self obj_pk path value w = (Return tt, Spec.provisioned self path value w).
Proof.
  intros Hsome Hfault Hmsg Hdir. unfold Metric.archive_write, rrd_update at 1.
  rewrite Hsome, Hfault, Hmsg. simpl negb. cbv iota.
  apply create_and_retry, Hdir.
Qed.

(** Whenever an archive write returns, the files are those of [persist];
    the shared cache is not touched. *)
Lemma archive_write_returns (w w' : world) :
  Metric.archive_write self obj_pk path value w = (Return tt, w') ->
  shared w' = shared w /\
  Spec.cache_writes (trace w') = Spec.cache_writes (trace w) /\
  Spec.round_trips (trace w') = Spec.round_trips (trace w) /\
  files w' = Spec.persist self path arg (files w).
Proof.
  unfold Metric.archive_write, rrd_update at 1, Spec.persist. fold arg.
  destruct (files w !! path) as [a|] eqn:Hfile.
  - destruct (fault a) as [message|] eqn:Hfault.
    + destruct (contains "No such file" message) eqn:Hmsg; simpl negb; cbv iota.
      * apply create_and_retry_returns.
      * unfold log_error. intros [= <-]. simpl.
        unfold Spec.cache_writes, Spec.round_trips.
        rewrite !flat_map_app, !List.filter_app. simpl. rewrite !app_nil_r. auto.
    + intros [= <-]. simpl. unfold Spec.cache_writes, Spec.round_trips.
      rewrite !flat_map_app, !List.filter_app. simpl. rewrite !app_nil_r. auto.
  - rewrite missing_message_reads_missing. simpl negb. cbv iota.
    apply create_and_retry_returns.
Qed.

End ArchiveWrite.

Section Batch.
Context `{FloatText}.

Lemma set_polling_many_unfold (self : Metric.metric) (first : entity) (value : pyval)
    (rest : list (entity * pyval)) :
  Metric.set_polling_many self ((first, value) :: rest)
  = (let* cache_dict := for_each (Spec.loop_body self first) ((first, value) :: rest) ∅ in
     Spec.finish self cache_dict).
Proof. reflexivity. Qed.

(** One turn of the loop on an archived value: the cache entry is recorded
    before the archive is written. *)
Lemma loop_body_archives (self : Metric.metric) (first obj : entity) (value : pyval)
    (key : string) (d : gmap string pyval) (w : world) :
  Metric.rrd_enabled self = true -> Metric.non_empty value = true ->
  Metric.key_of (Metric.cache_prefix self ++ "/" ++ objtype first ++ "/%s/"
                 ++ str_int (Metric.pk self)) (pk obj) = Return key ->
  Spec.loop_body self first (obj, value) d w
  = match Metric.archive_write self (strip_colons (str_pk (pk obj)))
            (Spec.batch_path self first obj) value w with
    | (Return _, w') => (Return (<[key := value]> d), w')
    | (Raise e, w') => (Raise e, w')
    end.
Proof.
  intros Hrrd Hval Hkey. unfold Spec.loop_body, Metric.store_one, Metric.key_of in *.
  unfold bind, lift. rewrite Hkey, Hrrd, Hval. cbn [andb].
  unfold Spec.batch_path.
  destruct (Metric.archive_write _ _ _ _ w) as [[[]|e] w']; reflexivity.
Qed.

End Batch.

Section Contained.
Context `{FloatText}.

Lemma set_polling_many_loop (self : Metric.metric) (before after : list (entity * pyval))
    (obj : entity) (value : pyval) :
  Metric.set_polling_many self (before ++ (obj, value) :: after)
  = (let* cache_dict := for_each (Spec.loop_body self (Spec.first_of before obj))
                          (before ++ (obj, value) :: after) ∅ in
     Spec.finish self cache_dict).
Proof. destruct before as [|[first v] before]; reflexivity. Qed.


End Contained.



(** ** C9: what a flush persists *)

Lemma store_entries_over `{FloatText} (kvs : list (string * pyval)) (d c : gmap string pyval) :
  (raw <$> fold_left Spec.write_entry kvs d) ∪ c
  = fold_left Spec.store_entry kvs ((raw <$> d) ∪ c).
Proof.
  revert d. induction kvs as [|[k v] kvs IH]; intros d; simpl; [reflexivity|].
  rewrite IH. unfold Spec.write_entry, Spec.store_entry. simpl.
  now rewrite fmap_insert, insert_union_l.
Qed.

Lemma cache_writes_snoc (tr : list event) (e : event) :
  Spec.cache_writes (tr ++ [e])
  = (Spec.cache_writes tr ++ match e with CacheSetMany d _ => [d] | _ => [] end)%list.
Proof. unfold Spec.cache_writes. rewrite flat_map_app. simpl. now rewrite app_nil_r. Qed.

Section Flush.
Context `{FloatText}.

(** One turn of the loop that returns: a cache entry is recorded, the
    archive write, if any, is that of [persist], and nothing is written to
    the shared cache yet. *)
Lemma loop_body_returns (self : Metric.metric) (first obj : entity) (value : pyval)
    (d d' : gmap string pyval) (w w' : world) :
  Spec.loop_body self first (obj, value) d w = (Return d', w') ->
  exists key : string,
    Metric.cache_key self first obj = Return key /\
    d' = <[key := value]> d /\
    shared w' = shared w /\
    Spec.cache_writes (trace w') = Spec.cache_writes (trace w) /\
    files w' = fold_left (Spec.persist_entry self) (Spec.archived_from self first [(obj, value)])
                 (files w).
Proof.
  unfold Spec.loop_body, Metric.store_one, Metric.cache_key, Metric.key_of. simpl obind.
  unfold bind at 1, lift.
  destruct (mod_format _ (strip_colons (str_pk (pk obj)))) as [key|e]; [|discriminate].
  intros Hrun. exists key. split; [reflexivity|]. revert Hrun.
  unfold bind, Spec.archived_from. simpl flat_map.
  destruct (Metric.rrd_enabled self && Metric.non_empty value).
  - destruct (Metric.archive_write _ _ _ _ w) as [[[]|e] w2] eqn:Hwrite; [|simpl; discriminate].
    unfold ret. intros Heq. inversion Heq; subst.
    apply archive_write_returns in Hwrite as (Hs & Hc & _ & Hf).
    simpl. unfold Spec.persist_entry, Spec.batch_path. simpl. auto.
  - unfold ret. intros Heq. inversion Heq; subst. simpl. auto.
Qed.

Lemma loop_returns (self : Metric.metric) (first : entity) (items : list (entity * pyval))
    (d d' : gmap string pyval) (w w' : world) :
  for_each (Spec.loop_body self first) items d w = (Return d', w') ->
  exists kvs : list (string * pyval),
    Spec.keyed_under (Metric.cache_prefix self ++ "/" ++ objtype first ++ "/%s/"
                      ++ str_int (Metric.pk self)) items = Return kvs /\
    d' = fold_left Spec.write_entry kvs d /\
    shared w' = shared w /\
    Spec.cache_writes (trace w') = Spec.cache_writes (trace w) /\
    files w' = fold_left (Spec.persist_entry self) (Spec.archived_from self first items) (files w).
Proof.
  revert d w. induction items as [|[obj value] items IH]; intros d w; cbn [for_each].
  - unfold ret. intros Heq. inversion Heq; subst. exists []. auto.
  - unfold bind at 1.
    destruct (Spec.loop_body self first (obj, value) d w) as [[d1|e] w1] eqn:Hturn; [|simpl; discriminate].
    intros Hrest.
    apply loop_body_returns in Hturn as (key & Hkey & -> & Hs & Hc & Hf).
    apply IH in Hrest as (kvs & Hkvs & -> & Hs' & Hc' & Hf').
    exists ((key, value) :: kvs).
    unfold Metric.cache_key in Hkey. simpl in Hkey. cbn [Spec.keyed_under].
    rewrite Hkey. cbn [obind]. rewrite Hkvs. cbn [obind].
    repeat split; try congruence.
    rewrite Hf', Hf. unfold Spec.archived_from. simpl.
    rewrite app_nil_r, fold_left_app. reflexivity.
Qed.

(** What a batch write that returns has done. *)
Lemma set_polling_many_returns (self : Metric.metric) (first : entity) (value : pyval)
    (rest : list (entity * pyval)) (w w' : world) :
  Metric.set_polling_many self ((first, value) :: rest) w = (Return tt, w') ->
  exists kvs : list (string * pyval),
    Spec.keyed self ((first, value) :: rest) = Return kvs /\
    Spec.cache_writes (trace w')
    = (Spec.cache_writes (trace w) ++ [fold_left Spec.write_entry kvs ∅])%list /\
    shared w' = fold_left Spec.store_entry kvs (shared w) /\
    files w' = fold_left (Spec.persist_entry self)
                 (Spec.archived self ((first, value) :: rest)) (files w).
Proof.
  rewrite set_polling_many_unfold. unfold bind at 1.
  destruct (for_each _ _ ∅ w) as [[d|e] w1] eqn:Hloop; [|simpl; discriminate].
  unfold Spec.finish, cache_set_many. intros Heq. inversion Heq; subst. clear Heq.
  apply loop_returns in Hloop as (kvs & Hkvs & -> & Hs & Hc & Hf).
  exists kvs. unfold Spec.keyed, Spec.archived. simpl obind.
  repeat split.
  - exact Hkvs.
  - simpl. rewrite cache_writes_snoc. now rewrite Hc.
  - simpl. rewrite Hs, store_entries_over. now rewrite fmap_empty, (left_id ∅ (∪)).
  - simpl. exact Hf.
Qed.

(** C9, as the code has it.  The queue keeps every pair, in the order of the
    calls and with its repeats, while it is within its capacity.  A flush
    that returns empties it; the archive updates of its pairs go to the
    store one after the other in that order; the shared cache gets one
    batch write, which holds one entry per cache key, the last value queued
    for the key, and leaves the cache, which keeps the text of each value,
    as writing the pairs in order would. *)
Theorem flush_persists_queue (self self' : Metric.metric) (w w' : world) :
  Metric.queue self <> [] ->
  Metric.dump_queue (self, w) = (Return tt, (self', w')) ->
  (forall items : list (entity * pyval),
     Z.of_nat (length (Metric.queue self) + length items) <= Metric.queue_size self ->
     Spec.enqueue_all items (self, w)
     = (Return tt, (Metric.with_queue (Metric.queue self ++ items) self, w))) /\
  Metric.queue self' = [] /\
  exists kvs : list (string * pyval),
    Spec.keyed self (Metric.queue self) = Return kvs /\
    Spec.cache_writes (trace w') = (Spec.cache_writes (trace w) ++ [fold_left Spec.write_entry kvs ∅])%list /\
    shared w' = fold_left Spec.store_entry kvs (shared w) /\
    files w' = fold_left (Spec.persist_entry self) (Spec.archived self (Metric.queue self)) (files w).
Proof.
  intros Hne Hrun. split; [intros items; apply enqueue_all_within_capacity|].
  revert Hrun. unfold Metric.dump_queue, Metric.me, Metric.set_me, Metric.outside, bind, gets, modify.
  cbn [fst snd].
  destruct (Metric.queue self) as [|[first value] rest] eqn:Hq; [contradiction|].
  destruct (Metric.set_polling_many self ((first, value) :: rest) w) as [[[]|e] w1] eqn:Hset;
    [|simpl; discriminate].
  intros Heq. inversion Heq; subst. clear Heq. split; [reflexivity|].
  exact (set_polling_many_returns self first value rest w w' Hset).
Qed.

End Flush.

(** C9, witness: a queue with the same host twice. *)
Lemma flush_persists_queue_witness :
  let self := Metric.with_queue Examples.twice (Examples.bandwidth "int" 3000) in
  exists kvs : list (string * pyval),
    @Spec.keyed self Examples.twice = Return kvs /\
    fold_left Spec.write_entry kvs (∅ : gmap string pyval) !! "timegraph/host/7/5" = Some (PInt 2) /\
    samples <$> (fold_left (Spec.persist_entry self) (@Spec.archived Examples.one_decimal self Examples.twice) ∅
                 !! "/var/lib/rrdcached/db/host/7/5.rrd") = Some ["N:1"; "N:2"].
Proof.
  intros self.
  destruct (@flush_persists_queue Examples.one_decimal self
              (fst (snd (@Metric.dump_queue Examples.one_decimal (self, Examples.nothing))))
              Examples.nothing
              (snd (snd (@Metric.dump_queue Examples.one_decimal (self, Examples.nothing)))))
    as (_ & _ & kvs & Hkvs & _ & _ & _).
  - discriminate.
  - vm_compute. reflexivity.
  - exists kvs. split; [exact Hkvs|].
    vm_compute in Hkvs. injection Hkvs as <-. vm_compute. split; reflexivity.
Defined.

(** C9 as stated fails: of two values queued for one host, the batch write
    to the shared cache holds the second only. *)
Lemma first_value_never_reaches_cache :
  let s1 := snd (@Spec.enqueue_all Examples.one_decimal Examples.twice
                   (Examples.bandwidth "int" 3000, Examples.nothing)) in
  let r := @Metric.dump_queue Examples.one_decimal s1 in
  Metric.queue (fst s1) = Examples.twice /\ fst r = Return tt /\
  Spec.cache_writes (trace (snd (snd r))) = [{[ "timegraph/host/7/5" := PInt 2 ]}].
Proof. split; [|split]; vm_compute; reflexivity. Qed.

(** ** C7: reading through the two caches *)

Lemma hits_lookup (c : gmap string pyval) (keys : list string) (k : string) :
  hits c keys !! k = if decide (k ∈ keys) then c !! k else None.
Proof.
  induction keys as [|k0 keys IH]; simpl.
  - rewrite lookup_empty. now destruct (decide (k ∈ [])).

  - destruct (decide (k = k0)) as [->|Hne].
    + rewrite decide_True by (apply elem_of_cons; now left).
      destruct (c !! k0) eqn:Hk0; [now rewrite lookup_insert_eq|].
      rewrite IH. case_decide; congruence.
    + assert (Hiff : k ∈ k0 :: keys <-> k ∈ keys).
      { rewrite elem_of_cons. tauto. }
      destruct (c !! k0).
      * rewrite lookup_insert_ne by congruence. rewrite IH.
        repeat case_decide; tauto.
      * rewrite IH. repeat case_decide; tauto.
Qed.

Section Reads.
Context `{FloatText}.
Variables (self : Metric.metric) (pre_key : string).

Lemma uncached_keys_spec (objs : list entity) (keys : list (string * pkval)) :
  Metric.uncached_keys self pre_key objs = Return keys ->
  Spec.keyed_by_pk pre_key keys /\
  Forall (fun o => is_Some (Metric._cache self !! pk o) \/ In (pk o) (map snd keys)) objs.
Proof.
  revert keys. induction objs as [|o objs IH]; intros keys; simpl.
  - intros [= <-]. split; constructor.
  - case_bool_decide as Hc.
    + intros Hk. destruct (IH _ Hk) as [Hinv Hall]. split; [exact Hinv|].
      constructor; [now left | exact Hall].
    + destruct (Metric.key_of pre_key (pk o)) as [k|e] eqn:Hk; simpl; [|discriminate].
      destruct (Metric.uncached_keys self pre_key objs) as [ks|e]; simpl; [|discriminate].
      intros [= <-]. destruct (IH ks eq_refl) as [Hinv Hall]. split.
      * constructor; [exact Hk | exact Hinv].
      * constructor; [right; simpl; now left|].
        eapply Forall_impl; [exact Hall|].
        intros x [Hx|Hx]; [now left|right; simpl; now right].
Qed.

Lemma uncached_keys_all_cached (objs : list entity) :
  Forall (fun o => is_Some (Metric._cache self !! pk o)) objs ->
  Metric.uncached_keys self pre_key objs = Return [].
Proof.
  induction 1 as [|o objs Ho _ IH]; simpl; [reflexivity|].
  now rewrite bool_decide_eq_true_2.
Qed.

Lemma fill_cache_keeps (force : bool) (metrics : gmap string pyval)
    (keys : list (string * pkval)) (c : gmap pkval pyval) (p : pkval) :
  is_Some (c !! p) -> is_Some (Metric.fill_cache self force metrics keys c !! p).
Proof.
  revert c. induction keys as [|[k p0] keys IH]; intros c Hc; simpl; [exact Hc|].
  apply IH. destruct (decide (p0 = p)) as [->|Hne].
  - rewrite lookup_insert_eq. eauto.
  - now rewrite lookup_insert_ne.
Qed.

Lemma fill_cache_records (force : bool) (metrics : gmap string pyval)
    (keys : list (string * pkval)) (c : gmap pkval pyval) (p : pkval) (k : string) :
  Spec.keyed_by_pk pre_key keys -> Metric.key_of pre_key p = Return k ->
  In p (map snd keys) \/ c !! p = Some (Spec.recorded self force metrics k) ->
  Metric.fill_cache self force metrics keys c !! p = Some (Spec.recorded self force metrics k).
Proof.
  intros Hinv Hk. revert c. induction Hinv as [|[k0 p0] keys Hk0 _ IH]; intros c Hin; simpl.
  - destruct Hin as [[]|Hc]. exact Hc.
  - apply IH. simpl in Hk0. destruct (decide (p0 = p)) as [->|Hne].
    + right. rewrite lookup_insert_eq. unfold Spec.recorded.
      assert (k0 = k) as -> by congruence. reflexivity.
    + destruct Hin as [Hin|Hc].
      * simpl in Hin. destruct Hin as [Heq|Hin]; [congruence | now left].
      * right. now rewrite lookup_insert_ne.
Qed.

Lemma get_cached_polling_list_cached (self' : Metric.metric) (objs : list entity) :
  Forall (fun o => is_Some (Metric._cache self' !! pk o)) objs ->
  exists vs, Metric.get_cached_polling_list self' objs = Return vs.
Proof.
  induction 1 as [|o objs [v Hv] _ [vs IH]]; simpl; [eauto|].
  rewrite Hv, IH. simpl. eauto.
Qed.

End Reads.

Section ReadThrough.
Context `{FloatText}.

(** [get_polling_many] on a batch that is not empty, by cases on the keys
    that the local cache lacks. *)
Lemma get_polling_many_cases (first : entity) (rest : list entity) (no_return force : bool)
    (self : Metric.metric) (w : world) :
  let objs := first :: rest in
  let pre_key := Metric.cache_prefix self ++ "/" ++ objtype first ++ "/%s/"
                 ++ str_int (Metric.pk self) in
  Metric.get_polling_many objs no_return force (self, w)
  = match Metric.uncached_keys self pre_key objs with
    | Raise e => (Raise e, (self, w))
    | Return [] => Spec.answer no_return objs (self, w)
    | Return keys =>
        Spec.answer no_return objs
          (Metric.with_cache
             (Metric.fill_cache self force (hits (shared w) (map fst keys)) keys
                (Metric._cache self)) self,
           emit (CacheGetMany (map fst keys)) w)
    end.
Proof.
  intros objs pre_key. subst objs. unfold Metric.get_polling_many.
  unfold Metric.me, Metric.set_me, Metric.outside, bind, lift, gets, modify, ret, Spec.answer.
  cbn [fst snd Metric._pre_key_for]. fold pre_key.
  destruct (Metric.uncached_keys self pre_key (first :: rest)) as [[|kp keys]|e];
    [| |reflexivity].
  - destruct no_return; [reflexivity|].
    change (fst (self, w)) with self.
    destruct (Metric.get_cached_polling_list self (first :: rest)); reflexivity.
  - unfold cache_get_many. destruct no_return; [reflexivity|].
    cbv beta iota delta [fst snd].
    destruct (Metric.get_cached_polling_list _ (first :: rest)); reflexivity.
Qed.

Lemma answer_state (no_return : bool) (objs : list entity) (s : Metric.state) :
  snd (Spec.answer no_return objs s) = s.
Proof.
  unfold Spec.answer. destruct no_return; [reflexivity|].
  destruct (Metric.get_cached_polling_list (fst s) objs); reflexivity.
Qed.

Lemma answer_returns (no_return : bool) (objs : list entity) (s : Metric.state) :
  Forall (fun o => is_Some (Metric._cache (fst s) !! pk o)) objs ->
  exists x, Spec.answer no_return objs s = (Return x, s).
Proof.
  intros Hall. unfold Spec.answer. destruct no_return; [eauto|].
  destruct (get_cached_polling_list_cached (fst s) objs Hall) as [vs ->]. eauto.
Qed.

End ReadThrough.

Section RoundTrips.
Context `{FloatText}.

Lemma round_trips_emit_read (keys : list string) (w : world) :
  Spec.round_trips (trace (emit (CacheGetMany keys) w)) = S (Spec.round_trips (trace w)).
Proof.
  unfold Spec.round_trips. simpl. rewrite List.filter_app, length_app. simpl. lia.
Qed.

Lemma answer_is (no_return : bool) (objs : list entity) (s s' : Metric.state)
    (r : outcome (option (list pyval))) :
  Spec.answer no_return objs s = (r, s') -> s' = s.
Proof. intros Heq. now rewrite <- (answer_state no_return objs s), Heq. Qed.

(** C7.  A call of [get_polling_many] makes at most one round trip to the
    shared cache, and none when every object of the batch is in the local
    cache.  When it returns, every object of the batch is in the local
    cache, an object that neither cache knew being recorded as [None], and
    a second call for the same batch returns from the same state: it makes
    no round trip. *)
Theorem local_cache_spares_round_trips (objs : list entity) (no_return force : bool)
    (self self' : Metric.metric) (w w' : world) (r : outcome (option (list pyval))) :
  Metric.get_polling_many objs no_return force (self, w) = (r, (self', w')) ->
  (Spec.round_trips (trace w') <= Spec.round_trips (trace w) + 1)%nat /\
  (Forall (fun o => is_Some (Metric._cache self !! pk o)) objs -> w' = w) /\
  (forall x, r = Return x ->
     Forall (fun o => is_Some (Metric._cache self' !! pk o)) objs /\
     (forall (o : entity) (key : string),
        o ∈ objs -> Metric._cache self !! pk o = None ->
        obind (Metric._pre_key_for self objs) (fun pre_key => Metric.key_of pre_key (pk o))
        = Return key ->
        shared w !! key = None ->
        Metric._cache self' !! pk o = Some PNone) /\
     (forall no_return' force' : bool, exists y,
        Metric.get_polling_many objs no_return' force' (self', w') = (Return y, (self', w')))).
Proof.
  destruct objs as [|first rest].
  { simpl. unfold ret. intros [= <- <- <-]. repeat split; try lia.
    - constructor.
    - intros o key Ho. now apply elem_of_nil in Ho.
    - intros. eauto. }
  rewrite get_polling_many_cases. cbv zeta.
  set (objs := first :: rest).
  set (pre_key := Metric.cache_prefix self ++ "/" ++ objtype first ++ "/%s/"
                  ++ str_int (Metric.pk self)).
  destruct (Metric.uncached_keys self pre_key objs) as [keys|e] eqn:Hkeys.
  2:{ intros [= <- <- <-]. repeat split; try lia. all: discriminate. }
  destruct (uncached_keys_spec self pre_key objs keys Hkeys) as [Hinv Hcov].
  destruct keys as [|kp keys].
  - intros Hans. pose proof (answer_is _ _ _ _ _ Hans) as [= -> ->].
    assert (Hall : Forall (fun o => is_Some (Metric._cache self !! pk o)) objs).
    { eapply Forall_impl; [exact Hcov|]. intros o [Ho|[]]. exact Ho. }
    repeat split; try lia.
    + exact Hall.
    + intros o key Ho Hnone _ _.
      rewrite Forall_forall in Hall. destruct (Hall o Ho) as [v Hv]. congruence.
    + intros nr' f'. subst objs. rewrite get_polling_many_cases. cbv zeta.
      fold pre_key. rewrite Hkeys.
      exact (answer_returns nr' (first :: rest) (self, w) Hall).
  - set (metrics := hits (shared w) (map fst (kp :: keys))).
    set (self1 := Metric.with_cache
                    (Metric.fill_cache self force metrics (kp :: keys) (Metric._cache self)) self).
    intros Hans. pose proof (answer_is _ _ _ _ _ Hans) as [= -> ->].
    assert (Hall : Forall (fun o => is_Some (Metric._cache self1 !! pk o)) objs).
    { eapply Forall_impl; [exact Hcov|].
      intros o [Ho|Ho]; unfold self1; cbn [Metric._cache Metric.with_cache].
      - now apply fill_cache_keeps.
      - pose proof Ho as Hin. apply in_map_iff in Hin as [[k p] [Hp Hin]].
        simpl in Hp. subst p.
        pose proof Hinv as Hk. unfold Spec.keyed_by_pk in Hk. rewrite List.Forall_forall in Hk.
        specialize (Hk _ Hin). simpl in Hk.
        rewrite (fill_cache_records self pre_key force metrics (kp :: keys) _ (pk o) k
                   Hinv Hk (or_introl Ho)).
        eauto. }
    split; [rewrite round_trips_emit_read; lia|]. split.
    { intros Hcached. rewrite (uncached_keys_all_cached self pre_key objs Hcached) in Hkeys.
      discriminate. }
    intros x _. split; [exact Hall|]. split.
    + intros o key Ho Hnone Hkey Hmiss. simpl in Hkey. fold pre_key in Hkey.
      unfold self1; cbn [Metric._cache Metric.with_cache].
      rewrite Forall_forall in Hcov. destruct (Hcov o Ho) as [[v Hv]|Hin]; [congruence|].
      rewrite (fill_cache_records self pre_key force metrics (kp :: keys) _ (pk o) key); auto.
      unfold Spec.recorded, metrics. rewrite hits_lookup, Hmiss. now case_decide.
    + intros nr' f'. subst objs. rewrite get_polling_many_cases. cbv zeta.
      change (Metric.cache_prefix self1) with (Metric.cache_prefix self).
      change (Metric.pk self1) with (Metric.pk self). fold pre_key.
      rewrite (uncached_keys_all_cached self1 pre_key (first :: rest) Hall).
      exact (answer_returns nr' (first :: rest) (self1, _) Hall).
Qed.

End RoundTrips.

(** C7, witness: two hosts that neither cache knows. *)
Lemma local_cache_spares_round_trips_witness :
  let objs := [Examples.host (PkInt 7); Examples.host (PkInt 8)] in
  let run := @Metric.get_polling_many Examples.one_decimal objs false false
               (Examples.bandwidth "float" 3000, Examples.nothing) in
  (Spec.round_trips (trace (snd (snd run))) <= 0 + 1)%nat /\
  exists y, @Metric.get_polling_many Examples.one_decimal objs true true
              (fst (snd run), snd (snd run))
            = (Return y, (fst (snd run), snd (snd run))).
Proof.
  intros objs run.
  destruct (@local_cache_spares_round_trips Examples.one_decimal objs false false
              (Examples.bandwidth "float" 3000) (fst (snd run)) Examples.nothing
              (snd (snd run)) (fst run)) as (Hle & _ & Hret).
  - vm_compute. reflexivity.
  - split; [exact Hle|].
    destruct (Hret (Some [PNone; PNone])) as (_ & _ & Hagain).
    + vm_compute. reflexivity.
    + exact (Hagain true true).
Defined.

(** ** C3: the export of several metrics is all or nothing *)

Section AllOrNothing.
Variables (w : world) (object_list : list entity).

Lemma export_defs_unarchived (key : string) (metric : Metric.metric) (objs : list entity)
    (xvars args : list string) :
  Forall (fun obj => path_exists (Metric._rrd_path metric obj) w = false) objs ->
  Views.export_defs w key metric objs xvars args = (Return xvars, args).
Proof.
  induction 1 as [|obj objs Hobj _ IH]; simpl; [reflexivity|]. now rewrite Hobj.
Qed.

Lemma export_defs_outcome (key : string) (metric : Metric.metric) (objs : list entity)
    (xvars args : list string) :
  (exists xs, fst (Views.export_defs w key metric objs xvars args) = Return xs) \/
  fst (Views.export_defs w key metric objs xvars args) = Raise TypeError.
Proof.
  revert xvars args. induction objs as [|obj objs IH]; intros xvars args; simpl.
  - left. eauto.
  - destruct (path_exists _ w); [|apply IH].
    unfold bind, lift, modify. destruct (pk obj); simpl; [apply IH | now right].
Qed.

Lemma export_defs_numbered (key : string) (metric : Metric.metric) (objs : list entity)
    (xvars args : list string) :
  Spec.numbered objs ->
  exists xs, fst (Views.export_defs w key metric objs xvars args) = Return xs.
Proof.
  intros Hall. revert xvars args.
  induction Hall as [|obj objs [z Hz] _ IH]; intros xvars args; simpl; [eauto|].
  destruct (path_exists _ w); [|apply IH].
  unfold bind, lift, modify. rewrite Hz. simpl. apply IH.
Qed.

Lemma export_cdefs_unarchived (exports : list (string * Metric.metric)) (op un_value : string)
    (key : string) (metric : Metric.metric) :
  In (key, metric) exports -> Spec.unarchived w object_list metric ->
  forall keys args,
    Spec.nothing_exported object_list None (fst (Views.export_cdefs w object_list exports op un_value keys args)).
Proof.
  intros Hin Hnone. induction exports as [|[k0 m0] exports IH]; [destruct Hin|].
  intros keys args. cbn [Views.export_cdefs]. unfold bind at 1.
  destruct Hin as [Heq|Hin].
  - injection Heq as -> ->. rewrite export_defs_unarchived by exact Hnone.
    split; auto.
  - specialize (IH Hin).
    destruct (Views.export_defs w k0 m0 object_list [] args) as [[[|x xs]|e] args'] eqn:Hdefs.
    + split; auto.
    + unfold bind, modify. apply IH.
    + split.
      * right. destruct (export_defs_outcome k0 m0 object_list [] args) as [[xs Hxs]|Hty];
          rewrite Hdefs in *; simpl in *; congruence.
      * intros Hnum. destruct (export_defs_numbered k0 m0 object_list [] args Hnum) as [xs Hxs].
        rewrite Hdefs in Hxs. discriminate.
Qed.

End AllOrNothing.

(** C3.  When one of the requested metrics has no archive for any object of
    the list, [_rrd_export_wrap] returns [None], or stops earlier on the
    [TypeError] of an object whose key is not a number: it never returns a
    map, partial or not.  With numeric keys it returns [None]. *)
Theorem export_is_all_or_nothing (popen : list string -> Views.process) (w : world)
    (object_list : list entity) (exports : list (string * Metric.metric))
    (op un_value : string) (json : bool) (args : list string)
    (key : string) (metric : Metric.metric) :
  In (key, metric) exports ->
  Forall (fun obj => path_exists (Metric._rrd_path metric obj) w = false) object_list ->
  let r := fst (Views._rrd_export_wrap popen w object_list exports op un_value json args) in
  (r = Return Views.NoData \/ r = Raise TypeError) /\
  (Forall (fun obj => exists z, pk obj = PkInt z) object_list -> r = Return Views.NoData).
Proof.
  intros Hin Hnone r.
  destruct (export_cdefs_unarchived w object_list exports op un_value key metric Hin Hnone [] args)
    as [Hr Hnum].
  assert (Heq : r = match fst (Views.export_cdefs w object_list exports op un_value [] args) with
                    | Return None => Return Views.NoData
                    | Return (Some _) => r
                    | Raise e => Raise e
                    end).
  { subst r. unfold Views._rrd_export_wrap, bind at 1.
    destruct (Views.export_cdefs w object_list exports op un_value [] args) as [[[ks|]|e] args'];
      try reflexivity.
    exfalso. simpl in Hr. destruct Hr; discriminate. }
  clearbody r.
  destruct (fst (Views.export_cdefs w object_list exports op un_value [] args)) as [[ks|]|e].
  - destruct Hr; discriminate.
  - subst r. auto.
  - subst r. split; [right; destruct Hr; congruence|].
    intros Hall. specialize (Hnum Hall). discriminate.
Qed.

(** C3, witness: host 7 has an archive of the bandwidth metric and none of
    the latency metric. *)
Lemma export_is_all_or_nothing_witness :
  fst (Views._rrd_export_wrap (Examples.tool []) (Examples.polled Examples.sound)
         [Examples.host (PkInt 7)]
         [("a", Examples.bandwidth "float" 3000); ("b", Examples.latency)]
         "+" "0" true [])
  = Return Views.NoData.
Proof.
  apply (export_is_all_or_nothing (Examples.tool []) (Examples.polled Examples.sound)
           [Examples.host (PkInt 7)]
           [("a", Examples.bandwidth "float" 3000); ("b", Examples.latency)]
           "+" "0" true [] "b" Examples.latency).
  - right. left. reflexivity.
  - constructor; [vm_compute; reflexivity | constructor].
  - constructor; [exists 7; reflexivity | constructor].
Defined.

(** ** C2: the two assignments on the ends of a series *)

Section Indices.
Context {A : Type}.

Lemma getitem_from_end (l : list A) (k : nat) :
  (0 < k <= length l)%nat ->
  getitem l (- Z.of_nat k)
  = match l !! (length l - k)%nat with Some x => Return x | None => Raise IndexError end.
Proof.
  intros Hk. unfold getitem, norm_index.
  destruct (Z.ltb_spec (- Z.of_nat k) 0); [|lia].
  destruct (Z.leb_spec 0 (- Z.of_nat k + Z.of_nat (length l))); [|lia].
  destruct (Z.ltb_spec (- Z.of_nat k + Z.of_nat (length l)) (Z.of_nat (length l))); [|lia].
  simpl. replace (Z.to_nat (- Z.of_nat k + Z.of_nat (length l))) with (length l - k)%nat by lia.
  reflexivity.
Qed.

Lemma getitem_from_start (l : list A) (k : nat) :
  getitem l (Z.of_nat k)
  = match l !! k with Some x => Return x | None => Raise IndexError end.
Proof.
  unfold getitem, norm_index.
  destruct (Z.ltb_spec (Z.of_nat k) 0); [lia|].
  destruct (Z.leb_spec 0 (Z.of_nat k)); [|lia].
  destruct (Z.ltb_spec (Z.of_nat k) (Z.of_nat (length l))); simpl.
  - now rewrite Nat2Z.id.
  - rewrite lookup_ge_None_2 by lia. reflexivity.
Qed.

Lemma setitem_from_end (l : list A) (k : nat) (x : A) :
  (0 < k <= length l)%nat ->
  setitem l (- Z.of_nat k) x = Return (<[(length l - k)%nat := x]> l).
Proof.
  intros Hk. unfold setitem, norm_index.
  destruct (Z.ltb_spec (- Z.of_nat k) 0); [|lia].
  destruct (Z.leb_spec 0 (- Z.of_nat k + Z.of_nat (length l))); [|lia].
  destruct (Z.ltb_spec (- Z.of_nat k + Z.of_nat (length l)) (Z.of_nat (length l))); [|lia].
  simpl. replace (Z.to_nat (- Z.of_nat k + Z.of_nat (length l))) with (length l - k)%nat by lia.
  reflexivity.
Qed.

Lemma setitem_from_start (l : list A) (k : nat) (x : A) :
  (k < length l)%nat -> setitem l (Z.of_nat k) x = Return (<[k := x]> l).
Proof.
  intros Hk. unfold setitem, norm_index.
  destruct (Z.ltb_spec (Z.of_nat k) 0); [lia|].
  destruct (Z.leb_spec 0 (Z.of_nat k)); [|lia].
  destruct (Z.ltb_spec (Z.of_nat k) (Z.of_nat (length l))); [|lia].
  simpl. now rewrite Nat2Z.id.
Qed.

Lemma last_default (l : list A) (x d d' : A) : List.last (x :: l) d = List.last (x :: l) d'.
Proof. revert x. induction l as [|y l IH]; intros x; [reflexivity|]. apply (IH y). Qed.

Lemma lookup_before_last (first : A) (mid : list A) :
  (first :: mid) !! length mid = Some (List.last mid first).
Proof.
  revert first. induction mid as [|m mid IH]; intros first; [reflexivity|].
  change ((m :: mid) !! length mid = Some (List.last (m :: mid) first)).
  rewrite IH. f_equal. destruct mid as [|y mid]; [reflexivity|].
  apply (last_default mid y m first).
Qed.

End Indices.

(** The part of C2 that holds, the smoothing of [_rrd_export_wrap]: on a
    series of at least two points, the last point that equals [0.0] takes the value before it, then
    the first point that equals [0.0] takes the value after it, and the
    points between the two are kept. *)
Lemma smooth_ends (first : pyval) (mid : list pyval) (last : pyval) :
  Views.smooth (first :: mid ++ [last]) = Return (Spec.smoothed_ends first mid last).
Proof.
  unfold Views.smooth, Spec.smoothed_ends.
  set (series := first :: mid ++ [last]).
  assert (Hlen : length series = S (S (length mid))).
  { unfold series. simpl. rewrite length_app. simpl. lia. }
  assert (Hlast : getitem series (-1) = Return last).
  { change (-1) with (- Z.of_nat 1). rewrite (getitem_from_end series 1) by lia. rewrite Hlen.
    replace (S (S (length mid)) - 1)%nat with (length (first :: mid)) by (simpl; lia).
    unfold series. rewrite app_comm_cons, list_lookup_middle; reflexivity. }
  rewrite Hlast. cbn [obind].
  set (last' := if eq_zero last then List.last mid first else last).
  assert (Hstep : (if eq_zero last
                   then obind (getitem series (-2)) (fun x => setitem series (-1) x)
                   else Return series) = Return (first :: mid ++ [last'])).
  { unfold last'. destruct (eq_zero last); [|reflexivity].
    change (-2) with (- Z.of_nat 2). change (-1) with (- Z.of_nat 1).
    rewrite (getitem_from_end series 2) by lia. rewrite Hlen.
    replace (S (S (length mid)) - 2)%nat with (length mid) by lia.
    unfold series at 1. rewrite app_comm_cons, lookup_app_l by (simpl; lia).
    rewrite lookup_before_last. cbn [obind].
    rewrite (setitem_from_end series 1) by lia. rewrite Hlen.
    replace (S (S (length mid)) - 1)%nat with (length (first :: mid) + 0)%nat by (simpl; lia).
    unfold series. rewrite app_comm_cons, insert_app_r. reflexivity. }
  rewrite Hstep. cbn [obind].
  change (getitem (first :: mid ++ [last']) 0) with (Return (A := pyval) first). cbn [obind].
  destruct (eq_zero first); [|reflexivity].
  change 1 with (Z.of_nat 1). rewrite getitem_from_start.
  change 0 with (Z.of_nat 0).
  destruct mid as [|m mid]; cbn [lookup list_lookup app obind hd];
    rewrite setitem_from_start by (simpl; lia); reflexivity.
Qed.

(** The two series of the claim. *)
Lemma smooth_edges_example :
  Views.smooth Examples.edges = Return [PFloat 5; PFloat 5; PFloat 5; PFloat 5] /\
  Views.smooth [PFloat 5; PFloat 0; PFloat 5; PFloat 5]
  = Return [PFloat 5; PFloat 0; PFloat 5; PFloat 5].
Proof. split; reflexivity. Qed.

(** The last loop of [_rrd_export_wrap] smooths the series of every label. *)
Lemma smooth_all_lookup (keys : list string) (output output' : gmap string (list pyval))
    (key : string) :
  NoDup keys -> key ∈ keys -> Views.smooth_all keys output = Return output' ->
  exists series series',
    output !! key = Some series /\ Views.smooth series = Return series' /\
    output' !! key = Some series'.
Proof.
  intros Hnd. revert output. induction Hnd as [|k keys Hk Hnd IH]; intros output Hin.
  { now apply elem_of_nil in Hin. }
  simpl. destruct (output !! k) as [series|] eqn:Hs; [|discriminate].
  destruct (Views.smooth series) as [series'|e] eqn:Hsm; [|discriminate].
  simpl. intros Hrest.
  assert (Hkeep : forall keys o o', k ∉ keys -> Views.smooth_all keys o = Return o' ->
                                    o' !! k = o !! k).
  { clear. induction keys as [|k' keys IH]; intros o o' Hk; simpl.
    - now intros [= <-].
    - apply not_elem_of_cons in Hk as [Hne Hk].
      destruct (o !! k') as [s|]; [|discriminate].
      destruct (Views.smooth s) as [s'|e]; [|discriminate]. simpl.
      intros Hr. rewrite (IH _ _ Hk Hr). now rewrite lookup_insert_ne. }
  apply elem_of_cons in Hin as [->|Hin].
  - exists series, series'. repeat split; auto.
    rewrite (Hkeep _ _ _ Hk Hrest). apply lookup_insert_eq.
  - destruct (IH _ Hin Hrest) as (s & s' & Hs1 & Hs2 & Hs3).
    exists s, s'. repeat split; auto.
    rewrite lookup_insert_ne in Hs1; [exact Hs1|]. intros ->. contradiction.
Qed.

(** The smoothing of [Metric.xport] reads the rows of the binding. *)

Lemma getitem_last {A} (l : list A) (x : A) : getitem (l ++ [x]) (-1) = Return x.
Proof.
  change (-1) with (- Z.of_nat 1). rewrite getitem_from_end by (rewrite length_app; simpl; lia).
  replace (length (l ++ [x]) - 1)%nat with (length l) by (rewrite length_app; simpl; lia).
  now rewrite list_lookup_middle.
Qed.

Lemma copy_if_zero_on_rows (key : string) (i j : Z) (output : PyObj.pyobj)
    (rows : list PyObj.pyobj) (row : PyObj.pyobj) :
  PyObj.getkey output "data" = Return (PyObj.PyList rows) ->
  getitem rows i = Return row -> Spec.is_row row ->
  Metric.copy_if_zero key i j output = Return output.
Proof.
  intros Hdata Hrow Hshape. unfold Metric.copy_if_zero. rewrite Hdata. simpl.
  rewrite Hrow. simpl. now destruct row.
Qed.

(** C2 fails for [Metric.xport].  The binding answers with one tuple per
    time slot in ['data'], and a tuple never equals [0.0]: [xport] returns
    the answer as the binding gave it, the first and last points included. *)
Theorem xport_leaves_rows_as_given (key : string) (json : bool) (output : PyObj.pyobj)
    (rows : list PyObj.pyobj) :
  PyObj.getkey output "data" = Return (PyObj.PyList rows) ->
  rows <> [] ->
  Forall Spec.is_row rows ->
  Metric.xport_result key json output
  = Return (if json then Metric.Dumps output else Metric.Output output).
Proof.
  intros Hdata Hne Hrows. unfold Metric.xport_result. rewrite Hdata. cbn [obind].
  destruct (exists_last Hne) as [init [last Hlast]].
  destruct rows as [|first rest]; [contradiction|].
  cbn [PyObj.truthy length Nat.eqb negb].
  rewrite (copy_if_zero_on_rows key (-1) (-2) output (first :: rest) last Hdata).
  - cbn [obind].
    rewrite (copy_if_zero_on_rows key 0 1 output (first :: rest) first Hdata).
    + reflexivity.
    + reflexivity.
    + now inversion Hrows.
  - rewrite Hlast. apply getitem_last.
  - rewrite Hlast in Hrows. apply Forall_app in Hrows as [_ Hl]. now inversion Hl.
Qed.

(** C2, the failing input: the series of the claim, as the binding gives
    it, comes back with its zero ends. *)
Lemma xport_leaves_rows_as_given_witness :
  Metric.xport (fun _ => Return (Examples.column Examples.edges))
    (Examples.bandwidth "float" 3000) (Examples.polled Examples.sound) []
    [Examples.host (PkInt 7)] "+" "0" false
  = Return (Metric.Output (Examples.column Examples.edges)).
Proof.
  unfold Metric.xport.
  change (Metric.xport_defs _ _ _ _ _ _)
    with (Return (A := list string * list string)
            (["DEF:bw7=/var/lib/rrdcached/db/host/7/5.rrd:5:AVERAGE"], ["bw7"])).
  cbn [obind].
  apply (xport_leaves_rows_as_given "bw" false (Examples.column Examples.edges)
           (map (fun x => PyObj.Tuple [PyObj.Atom x]) Examples.edges)).
  - reflexivity.
  - discriminate.
  - repeat constructor.
Defined.

(** With the points themselves in ['data'], the first assignment reads
    [output[key]], which the answer of the binding does not have. *)
Lemma xport_of_flat_answer_raises :
  Metric.xport (fun _ => Return (Examples.flat Examples.edges))
    (Examples.bandwidth "float" 3000) (Examples.polled Examples.sound) []
    [Examples.host (PkInt 7)] "+" "0" false
  = Raise (KeyError "bw").
Proof. vm_compute. reflexivity. Qed.

(** ** C1: unknown samples in the program of the [CDEF] *)

Section Gaps.
Variables (env : gmap string Rpn.sample) (un_value : string) (u : Q).
Hypothesis un_number : Rpn.lex un_value = Rpn.Num u.

Lemma run_app (p1 p2 : list Rpn.token) (stack : list Rpn.sample) :
  Rpn.run env (p1 ++ p2) stack
  = match Rpn.run env p1 stack with
    | Some stack' => Rpn.run env p2 stack'
    | None => None
    end.
Proof.
  revert stack. induction p1 as [|tok p1 IH]; intros stack; simpl; [reflexivity|].
  destruct (Rpn.step env tok stack); [apply IH | reflexivity].
Qed.

(** The ten tokens built for one series leave its filled sample on the
    stack. *)
Lemma gap_guard_fills (var : string) (stack : list Rpn.sample) :
  Spec.defined env var ->
  Rpn.run env (map Rpn.lex (gap_guard un_value var)) stack
  = Some (Some (Spec.gap_fill u (Spec.sample_of env var)) :: stack).
Proof.
  intros [Hvar [s Hs]]. unfold gap_guard, Spec.sample_of. rewrite Hs.
  cbn [map]. rewrite Hvar, un_number.
  change (Rpn.lex "UN") with (Rpn.Op Rpn.UN).
  change (Rpn.lex "IF") with (Rpn.Op Rpn.IF).
  change (Rpn.lex "EQ") with (Rpn.Op Rpn.EQ).
  change (Rpn.lex "0.0") with (Rpn.Num 0).
  cbn [Rpn.run Rpn.step]. rewrite Hs.
  destruct s as [x|]; cbn [Rpn.truth Rpn.is_false Rpn.binary Spec.gap_fill].
  - change (Qeq_bool 0 0) with true. cbn iota.
    destruct (Qeq_bool x 0); [change (Qeq_bool 1 0) with false | change (Qeq_bool 0 0) with true];
      reflexivity.
  - reflexivity.
Qed.

Lemma guards_fill (vars : list string) (stack : list Rpn.sample) :
  Forall (Spec.defined env) vars ->
  Rpn.run env (map Rpn.lex (concat (map (gap_guard un_value) vars))) stack
  = Some (rev (map (fun var => Some (Spec.gap_fill u (Spec.sample_of env var))) vars) ++ stack)%list.
Proof.
  intros Hvars. revert stack. induction Hvars as [|var vars Hvar _ IH]; intros stack.
  - reflexivity.
  - cbn [map concat]. rewrite map_app, run_app, (gap_guard_fills var stack Hvar), IH.
    cbn [rev]. now rewrite <- app_assoc.
Qed.

Lemma step_combines (o : Rpn.operator) (x y : Q) (stack : list Rpn.sample) :
  Spec.combining o = true ->
  Rpn.step env (Rpn.Op o) (Some y :: Some x :: stack) = Some (Some (Spec.apply o x y) :: stack).
Proof. destruct o; simpl; intros; try discriminate; reflexivity. Qed.

(** As many operators as there are further series fold the filled samples
    from the right. *)
Lemma operators_combine (o : Rpn.operator) (x : Q) (xs : list Q) (stack : list Rpn.sample) :
  Spec.combining o = true ->
  Rpn.run env (map (fun _ : Q => Rpn.Op o) xs) (rev (map Some (x :: xs)) ++ stack)%list
  = Some (Some (Spec.combine o x xs) :: stack).
Proof.
  intros Ho. revert x stack. induction xs as [|y ys IH]; intros x stack.
  - reflexivity.
  - assert (Hsnoc : forall l : list Q,
              map (fun _ : Q => Rpn.Op o) (y :: l)
              = (map (fun _ : Q => Rpn.Op o) l ++ [Rpn.Op o])%list).
    { induction l as [|z l IHl]; [reflexivity|]. simpl in *. now rewrite <- IHl. }
    rewrite Hsnoc, run_app.
    change (rev (map Some (x :: y :: ys))) with (rev (map Some (y :: ys)) ++ [Some x])%list.
    rewrite <- app_assoc. cbn [app]. rewrite (IH y (Some x :: stack)).
    cbn [Rpn.run]. now rewrite step_combines.
Qed.

End Gaps.



(** * Further properties *)

(** ** Reading through the caches, further *)

Section MoreReads.
Context `{FloatText}.
Variables (self : Metric.metric) (pre_key : string).

Lemma fill_cache_other (force : bool) (metrics : gmap string pyval)
    (keys : list (string * pkval)) (c : gmap pkval pyval) (p : pkval) :
  ~ In p (map snd keys) -> Metric.fill_cache self force metrics keys c !! p = c !! p.
Proof.
  revert c. induction keys as [|[k p0] keys IH]; intros c Hp; simpl; [reflexivity|].
  simpl in Hp. rewrite IH by tauto. apply lookup_insert_ne. tauto.
Qed.

Lemma uncached_keys_fresh (objs : list entity) (keys : list (string * pkval)) :
  Metric.uncached_keys self pre_key objs = Return keys ->
  Forall (fun kp => Metric._cache self !! snd kp = None /\ exists o, o ∈ objs /\ pk o = snd kp) keys.
Proof.
  revert keys. induction objs as [|o objs IH]; intros keys; simpl.
  - intros [= <-]. constructor.
  - case_bool_decide as Hc.
    + intros Hk. eapply Forall_impl; [exact (IH _ Hk)|].
      intros kp [Hn (o' & Ho' & Hp)]. split; [exact Hn|]. exists o'. split; [|exact Hp].
      apply elem_of_cons. now right.
    + destruct (Metric.key_of pre_key (pk o)) as [k|e] eqn:Hk; simpl; [|discriminate].
      destruct (Metric.uncached_keys self pre_key objs) as [ks|e]; simpl; [|discriminate].
      intros [= <-]. constructor.
      * simpl. split.
        -- destruct (Metric._cache self !! pk o) eqn:Hl; [|reflexivity]. exfalso. apply Hc. eauto.
        -- exists o. split; [apply elem_of_cons; now left | reflexivity].
      * eapply Forall_impl; [exact (IH _ eq_refl)|].
        intros kp [Hn (o' & Ho' & Hp)]. split; [exact Hn|]. exists o'. split; [|exact Hp].
        apply elem_of_cons. now right.
Qed.

End MoreReads.

Lemma cached_list_spec `{FloatText} (self : Metric.metric) (objs : list entity) (vs : list pyval) :
  Metric.get_cached_polling_list self objs = Return vs <->
  Forall2 (fun o v => Metric._cache self !! pk o = Some v) objs vs.
Proof.
  revert vs. induction objs as [|o objs IH]; intros vs; simpl.
  - split.
    + intros [= <-]. constructor.
    + intros Hf. apply Forall2_nil_inv_l in Hf. now subst.
  - split.
    + destruct (Metric._cache self !! pk o) as [v|] eqn:Hv; [|discriminate].
      destruct (Metric.get_cached_polling_list self objs) as [vs0|e]; simpl; [|discriminate].
      intros [= <-]. constructor; [exact Hv | now apply IH].
    + intros Hf. apply Forall2_cons_inv_l in Hf as (v & vs0 & Hv & Hrest & ->).
      rewrite Hv. apply IH in Hrest. now rewrite Hrest.
Qed.

Section Held.
Context `{FloatText}.

Lemma recorded_hits (self : Metric.metric) (force : bool) (c : gmap string pyval)
    (keys : list string) (k : string) :
  k ∈ keys -> Spec.recorded self force (hits c keys) k = Spec.recorded self force c k.
Proof. intros Hk. unfold Spec.recorded. rewrite hits_lookup. now rewrite decide_True. Qed.

(** The state a call of [get_polling_many] that returns leaves: the local
    cache holds, for every object of the batch, the value described by
    [held]; the other entries and the world's stores are as before. *)
Lemma get_polling_many_holds (first : entity) (rest : list entity) (no_return force : bool)
    (self self' : Metric.metric) (w w' : world) (x : option (list pyval)) :
  Metric.get_polling_many (first :: rest) no_return force (self, w) = (Return x, (self', w')) ->
  (forall o, o ∈ first :: rest ->
     exists v, Spec.held self force w first o = Return v /\ Metric._cache self' !! pk o = Some v) /\
  (forall p, (forall o, o ∈ first :: rest -> pk o <> p) ->
     Metric._cache self' !! p = Metric._cache self !! p) /\
  self' = Metric.with_cache (Metric._cache self') self /\
  Spec.answer no_return (first :: rest) (self', w') = (Return x, (self', w')).
Proof.
  rewrite get_polling_many_cases. cbv zeta.
  set (objs := first :: rest).
  set (pre_key := Metric.cache_prefix self ++ "/" ++ objtype first ++ "/%s/"
                  ++ str_int (Metric.pk self)).
  destruct (Metric.uncached_keys self pre_key objs) as [keys|e] eqn:Hkeys; [|discriminate].
  destruct (uncached_keys_spec self pre_key objs keys Hkeys) as [Hinv Hcov].
  pose proof (uncached_keys_fresh self pre_key objs keys Hkeys) as Hfresh.
  destruct keys as [|kp keys].
  - intros Hans. pose proof (answer_is _ _ _ _ _ Hans) as [= -> ->].
    split; [|split; [|split]].
    + intros o Ho. rewrite Forall_forall in Hcov. destruct (Hcov o Ho) as [[v Hv]|[]].
      exists v. unfold Spec.held. rewrite Hv. auto.
    + reflexivity.
    + now destruct self.
    + exact Hans.
  - set (ks := kp :: keys) in *.
    set (metrics := hits (shared w) (map fst ks)).
    intros Hans. pose proof (answer_is _ _ _ _ _ Hans) as Heq.
    apply pair_equal_spec in Heq as [-> ->].
    cbn [Metric._cache Metric.with_cache].
    split; [|split; [|split]].
    + intros o Ho. rewrite Forall_forall in Hcov. unfold Spec.held.
      destruct (Hcov o Ho) as [[v Hv]|Hin].
      * exists v. rewrite Hv. split; [reflexivity|].
        rewrite fill_cache_other; [exact Hv|].
        intros Hin. apply in_map_iff in Hin as [kp' [Hp Hin]].
        rewrite List.Forall_forall in Hfresh. destruct (Hfresh kp' Hin) as [Hnone _].
        congruence.
      * pose proof Hin as Hin'. apply in_map_iff in Hin' as [[k p] [Hp Hin']].
        simpl in Hp. subst p.
        pose proof Hinv as Hk. unfold Spec.keyed_by_pk in Hk. rewrite List.Forall_forall in Hk.
        specialize (Hk _ Hin'). simpl in Hk.
        rewrite List.Forall_forall in Hfresh. destruct (Hfresh _ Hin') as [Hnone _].
        simpl in Hnone. rewrite Hnone.
        unfold Metric.cache_key. cbn [Metric._pre_key_for obind]. fold pre_key. rewrite Hk.
        cbn [obind]. eexists. split; [reflexivity|].
        rewrite (fill_cache_records self pre_key force metrics ks _ (pk o) k Hinv Hk (or_introl Hin)).
        f_equal. unfold metrics. apply recorded_hits.
        apply list_elem_of_In. apply in_map_iff. exists (k, pk o). auto.
    + intros p Hp. apply fill_cache_other. intros Hin.
      apply in_map_iff in Hin as [kp' [Hp' Hin]].
      rewrite List.Forall_forall in Hfresh. destruct (Hfresh kp' Hin) as [_ (o & Ho & Heq)].
      apply (Hp o Ho). congruence.
    + reflexivity.
    + exact Hans.
Qed.

End Held.

Section Polled.
Context `{FloatText}.

(** X2.  The list [get_polling_many] returns is in the order of the batch:
    the value at each position is the one the local cache held for the
    object before the call when there was one, and otherwise the entry of
    the shared cache under the object's key, decoded by [to_python], or
    [None] when the shared cache has no such entry. *)
Theorem polled_values_follow_the_batch (first : entity) (rest : list entity) (force : bool)
    (self self' : Metric.metric) (w w' : world) (vs : list pyval) :
  Metric.get_polling_many (first :: rest) false force (self, w)
  = (Return (Some vs), (self', w')) ->
  Forall2 (fun o v => Spec.held self force w first o = Return v) (first :: rest) vs.
Proof.
  intros Hrun. apply get_polling_many_holds in Hrun as (Hheld & _ & _ & Hans).
  unfold Spec.answer in Hans. cbn [fst] in Hans.
  destruct (Metric.get_cached_polling_list self' (first :: rest)) as [vs'|e] eqn:Hlist;
    [|discriminate].
  assert (vs' = vs) as -> by congruence.
  apply cached_list_spec in Hlist.
  apply Forall2_same_length_lookup. split; [eapply Forall2_length; eauto|].
  intros i o v Ho Hv.
  destruct (Hheld o (list_elem_of_lookup_2 _ _ _ Ho)) as (v' & Hheld' & Hc).
  rewrite Forall2_lookup in Hlist. specialize (Hlist i). rewrite Ho, Hv in Hlist.
  inversion Hlist; subst. congruence.
Qed.

(** X3.  [no_return=True] only leaves out the list: the call changes the
    instance and the world as the call that returns the list does, and the
    values are then read from the instance by [get_cached_polling_list] and
    [get_cached_polling] without a [KeyError].  The result is [None], but
    the empty list for an empty batch. *)
Theorem no_return_only_warms (objs : list entity) (force : bool)
    (s s' : Metric.state) (x : option (list pyval)) :
  Metric.get_polling_many objs true force s = (Return x, s') ->
  x = match objs with [] => Some [] | _ => None end /\
  exists vs : list pyval,
    Metric.get_polling_many objs false force s = (Return (Some vs), s') /\
    Metric.get_cached_polling_list (fst s') objs = Return vs /\
    forall (i : nat) (o : entity),
      objs !! i = Some o ->
      exists v, vs !! i = Some v /\ Metric.get_cached_polling (fst s') o = Return v.
Proof.
  destruct s as [self w]. destruct s' as [self' w'].
  destruct objs as [|first rest].
  { simpl. unfold ret. intros [= <- <- <-]. split; [reflexivity|].
    exists []. repeat split. intros i o Hi. discriminate. }
  intros Hrun. pose proof Hrun as Hstate.
  apply get_polling_many_holds in Hstate as (Hheld & _ & _ & Hans).
  assert (Hall : Forall (fun o => is_Some (Metric._cache self' !! pk o)) (first :: rest)).
  { apply Forall_forall. intros o Ho. destruct (Hheld o Ho) as (v & _ & Hv). eauto. }
  destruct (get_cached_polling_list_cached self' _ Hall) as [vs Hvs].
  split.
  { unfold Spec.answer in Hans. congruence. }
  exists vs. split; [|split].
  - revert Hrun. rewrite !get_polling_many_cases. cbv zeta.
    destruct (Metric.uncached_keys _ _ _) as [[|kp keys]|e]; [| |discriminate].
    + intros Hret. pose proof (answer_is _ _ _ _ _ Hret) as Heq.
      apply pair_equal_spec in Heq as [-> ->].
      unfold Spec.answer. cbn [fst]. now rewrite Hvs.
    + intros Hret. pose proof (answer_is _ _ _ _ _ Hret) as Heq.
      apply pair_equal_spec in Heq as [Hs Hw].
      unfold Spec.answer. cbn [fst]. rewrite <- Hs, <- Hw. now rewrite Hvs.
  - exact Hvs.
  - intros i o Hi. cbn [fst]. apply cached_list_spec in Hvs.
    rewrite Forall2_lookup in Hvs. specialize (Hvs i). rewrite Hi in Hvs.
    inversion Hvs as [o' v Hv Ho' Hv'|]; subst.
    exists v. split; [reflexivity|]. unfold Metric.get_cached_polling. now rewrite Hv.
Qed.

(** X4.  A value the instance holds for an object is what
    [get_polling_many] returns for it, without a round trip, whatever was
    written to the shared cache since: [set_polling_many] leaves the local
    cache as it is. *)
Theorem local_value_outlives_writes (objs : list entity) (items : list (entity * pyval))
    (force : bool) (self : Metric.metric) (w : world) (vs : list pyval) :
  Forall2 (fun o v => Metric._cache self !! pk o = Some v) objs vs ->
  Metric.get_polling_many objs false force (self, snd (Metric.set_polling_many self items w))
  = (Return (Some vs), (self, snd (Metric.set_polling_many self items w))).
Proof.
  intros Hvs. set (w' := snd (Metric.set_polling_many self items w)).
  destruct objs as [|first rest].
  { apply Forall2_nil_inv_l in Hvs as ->. reflexivity. }
  rewrite get_polling_many_cases. cbv zeta.
  rewrite uncached_keys_all_cached.
  - unfold Spec.answer. cbn [fst]. apply cached_list_spec in Hvs. now rewrite Hvs.
  - apply Forall_forall. intros o Ho. apply list_elem_of_lookup in Ho as [i Hi].
    rewrite Forall2_lookup in Hvs. specialize (Hvs i). rewrite Hi in Hvs.
    inversion Hvs; subst. eauto.
Qed.

(** X5.  [get_polling] never answers from the local cache: it makes one
    round trip for the key of the object, returns the decoded entry of the
    shared cache, or [None] when there is none, forced type or not, and
    records that value in place of the one the instance held.  Under
    [no_return] it raises [TypeError] after it has done the same.  When the
    key cannot be formatted, the local value is forgotten all the same. *)
Theorem get_polling_asks_the_shared_cache (self : Metric.metric) (obj : entity)
    (no_return force : bool) (w : world) :
  Metric.get_polling obj no_return force (self, w)
  = match Metric.cache_key self obj obj with
    | Return key =>
        let v := match shared w !! key with
                 | Some raw => Metric.to_python self raw force
                 | None => PNone
                 end in
        (if no_return then Raise TypeError else Return v,
         (Metric.with_cache (<[pk obj := v]> (Metric._cache self)) self,
          emit (CacheGetMany [key]) w))
    | Raise e =>
        (Raise e, (Metric.with_cache (delete (pk obj) (Metric._cache self)) self, w))
    end.
Proof.
  unfold Metric.get_polling, Metric.set_me, bind at 1, modify. cbn [fst snd].
  unfold bind. rewrite get_polling_many_cases. cbv zeta.
  cbn [Metric.cache_prefix Metric.pk Metric._cache Metric.with_cache Metric.uncached_keys].
  unfold Metric.cache_key. cbn [Metric._pre_key_for obind].
  rewrite lookup_delete_eq.
  rewrite bool_decide_eq_false_2 by (intros [? ?]; discriminate).
  destruct (Metric.key_of _ (pk obj)) as [key|e]; [|reflexivity].
  cbn [obind map fst snd hits Metric.fill_cache].
  unfold Spec.answer. rewrite insert_delete_eq.
  assert (Hv : hits (shared w) [key] !! key = shared w !! key).
  { rewrite hits_lookup. rewrite decide_True; [reflexivity|]. apply elem_of_cons. now left. }
  cbn [hits] in Hv. rewrite Hv.
  destruct no_return; [reflexivity|].
  cbn [fst snd Metric.get_cached_polling_list Metric._cache Metric.with_cache].
  rewrite lookup_insert_eq. reflexivity.
Qed.

End Polled.

Lemma mod_format_go_errors (n : nat) (fmt : list ascii) (arg : option string) (e : exn) :
  (length fmt <= n)%nat ->
  mod_format_go fmt arg = Raise e -> e = TypeError \/ e = ValueError.
Proof.
  revert fmt arg. induction n as [|n IH]; intros fmt arg Hlen.
  { destruct fmt; [|simpl in Hlen; lia]. simpl. destruct arg; [|discriminate].
    intros [= <-]. now left. }
  destruct fmt as [|c rest]; cbn [mod_format_go].
  { destruct arg; [|discriminate]. intros [= <-]. now left. }
  simpl in Hlen.
  destruct (Ascii.eqb c "%").
  - destruct rest as [|d rest']; [intros [= <-]; now right|]. simpl in Hlen.
    destruct (Ascii.eqb d "s").
    + destruct arg; [|intros [= <-]; now left].
      destruct (mod_format_go rest' None) as [r|e'] eqn:Hrest; [discriminate|].
      cbn [obind]. intros [= <-]. apply (IH rest' None); [lia | exact Hrest].
    + destruct (Ascii.eqb d "%"); [|intros [= <-]; now right].
      destruct (mod_format_go rest' arg) as [r|e'] eqn:Hrest; [discriminate|].
      cbn [obind]. intros [= <-]. apply (IH rest' arg); [lia | exact Hrest].
  - destruct (mod_format_go rest arg) as [r|e'] eqn:Hrest; [discriminate|].
    cbn [obind]. intros [= <-]. apply (IH rest arg); [lia | exact Hrest].
Qed.

Section Failures.
Context `{FloatText}.

Lemma uncached_keys_errors (self : Metric.metric) (pre_key : string) (objs : list entity)
    (e : exn) :
  Metric.uncached_keys self pre_key objs = Raise e -> e = TypeError \/ e = ValueError.
Proof.
  induction objs as [|o objs IH]; cbn [Metric.uncached_keys]; [discriminate|].
  destruct (bool_decide _); [exact IH|].
  unfold Metric.key_of, mod_format.
  destruct (mod_format_go _ _) as [r|e'] eqn:Hfmt; cbn [obind].
  - destruct (Metric.uncached_keys self pre_key objs) as [ks|e']; [discriminate|].
    cbn [obind]. intros [= <-]. now apply IH.
  - intros [= <-]. exact (mod_format_go_errors _ _ _ _ (le_n _) Hfmt).
Qed.

Lemma filled_covers (self : Metric.metric) (pre_key : string) (objs : list entity)
    (keys : list (string * pkval)) (force : bool) (metrics : gmap string pyval) :
  Metric.uncached_keys self pre_key objs = Return keys ->
  Forall (fun o => is_Some (Metric.fill_cache self force metrics keys (Metric._cache self) !! pk o))
    objs.
Proof.
  intros Hkeys. destruct (uncached_keys_spec self pre_key objs keys Hkeys) as [Hinv Hcov].
  eapply Forall_impl; [exact Hcov|]. intros o [Ho|Ho].
  - now apply fill_cache_keeps.
  - pose proof Ho as Hin. apply in_map_iff in Hin as [[k p] [Hp Hin]]. simpl in Hp. subst p.
    pose proof Hinv as Hk. unfold Spec.keyed_by_pk in Hk. rewrite List.Forall_forall in Hk.
    specialize (Hk _ Hin). simpl in Hk.
    rewrite (fill_cache_records self pre_key force metrics keys _ (pk o) k Hinv Hk (or_introl Ho)).
    eauto.
Qed.


End Failures.

(** ** Sums *)

Section Sums.
Context `{FloatText} `{PyArith.FloatAdd}.

(** A property of values that the decoding establishes is an invariant of
    the local cache under [get_polling_many], and holds of what it
    returns. *)
Lemma get_polling_many_keeps (P : pyval -> bool) (objs : list entity) (force : bool)
    (self self' : Metric.metric) (w w' : world) (vs : list pyval) :
  P PNone = true ->
  (forall raw, P (Metric.to_python self raw force) = true) ->
  map_Forall (fun _ v => P v = true) (Metric._cache self) ->
  Metric.get_polling_many objs false force (self, w) = (Return (Some vs), (self', w')) ->
  Forall (fun v => P v = true) vs /\
  map_Forall (fun _ v => P v = true) (Metric._cache self').
Proof.
  intros Hnone Hdec Hinv. destruct objs as [|first rest].
  { simpl. unfold ret. intros [= <- <- <-]. split; [constructor | exact Hinv]. }
  intros Hrun. apply get_polling_many_holds in Hrun as (Hheld & Hother & _ & Hans).
  assert (Hgood : forall o v, Spec.held self force w first o = Return v -> P v = true).
  { intros o v. unfold Spec.held.
    destruct (Metric._cache self !! pk o) as [c|] eqn:Hc.
    - intros [= <-]. exact (Hinv _ _ Hc).
    - destruct (Metric.cache_key self first o) as [key|e]; [|discriminate].
      cbn [obind]. intros [= <-]. unfold Spec.recorded.
      destruct (shared w !! key); [apply Hdec | exact Hnone]. }
  assert (Hkept : map_Forall (fun _ v => P v = true) (Metric._cache self')).
  { intros p v Hp.
    destruct (decide (p ∈ (pk <$> (first :: rest)))) as [Hin|Hout].
    - apply list_elem_of_fmap in Hin as (o & -> & Ho).
      destruct (Hheld o Ho) as (v' & Hv' & Hc). apply (Hgood o). congruence.
    - rewrite Hother in Hp; [exact (Hinv _ _ Hp)|].
      intros o Ho Heq. apply Hout. apply list_elem_of_fmap. eauto. }
  split; [|exact Hkept].
  unfold Spec.answer in Hans. cbn [fst] in Hans.
  destruct (Metric.get_cached_polling_list self' (first :: rest)) as [vs'|e] eqn:Hlist;
    [|discriminate].
  assert (vs' = vs) as -> by congruence.
  apply cached_list_spec in Hlist.
  apply Forall_forall. intros v Hv. apply list_elem_of_lookup in Hv as [i Hi].
  destruct (Forall2_lookup_r _ _ _ _ _ Hlist Hi) as (o & _ & Ho). exact (Hkept _ _ Ho).
Qed.

Lemma add_numbers (a b : pyval) :
  Spec.number a = true -> Spec.number b = true ->
  exists n, PyArith.add a b = Return n /\ Spec.number n = true.
Proof.
  destruct a as [| |x|x|]; try discriminate; destruct b as [| |y|y|]; try discriminate;
    intros _ _; eexists; split; reflexivity.
Qed.

Lemma sum_from_numbers (items : list pyval) (acc : pyval) :
  Spec.number acc = true -> Forall (fun v => Spec.number v = true) items ->
  exists n, PyArith.sum_from acc items = Return n /\ Spec.number n = true.
Proof.
  intros Hacc Hall. revert acc Hacc.
  induction Hall as [|x items Hx _ IH]; intros acc Hacc; simpl.
  - exists acc. split; [reflexivity | exact Hacc].
  - destruct (add_numbers acc x Hacc Hx) as (a & -> & Ha). cbn [obind]. exact (IH a Ha).
Qed.

(** Integers are added exactly, from the left. *)
Lemma sum_from_integers (items : list pyval) (z : Z) :
  Forall (fun v => Spec.integer_or_none v = true) items ->
  PyArith.sum_from (PInt z) (List.filter (fun x => negb (is_none x)) items)
  = Return (PInt (z + Spec.total items)).
Proof.
  intros Hall. revert z. induction Hall as [|x items Hx _ IH]; intros z.
  - simpl. now rewrite Z.add_0_r.
  - destruct x as [| |y| |]; try discriminate.
    + simpl. apply IH.
    + cbn [List.filter is_none negb PyArith.sum_from PyArith.add PyArith.as_int obind Spec.total
           fold_right].
      rewrite IH. fold (Spec.total items). do 2 f_equal. lia.
Qed.

Lemma to_python_number (self : Metric.metric) (unit : string) (raw : pyval) (force : bool) :
  Metric.is_summable self unit = true ->
  Spec.number_or_none (Metric.to_python self raw force) = true.
Proof.
  unfold Metric.is_summable. intros Hs. apply andb_true_iff in Hs as [Hkind _].
  apply bool_decide_eq_true in Hkind.
  unfold Metric.to_python.
  apply elem_of_cons in Hkind as [->|Hkind].
  - simpl. destruct (py_float raw); [reflexivity | now destruct force].
  - apply elem_of_cons in Hkind as [->|Hkind]; [|now apply elem_of_nil in Hkind].
    simpl. destruct (py_int raw); [reflexivity | now destruct force].
Qed.

Lemma to_python_integer (self : Metric.metric) (raw : pyval) (force : bool) :
  Metric.type self = "int" ->
  Spec.integer_or_none (Metric.to_python self raw force) = true.
Proof.
  intros Hkind. unfold Metric.to_python. rewrite Hkind. simpl.
  destruct (py_int raw); [reflexivity | now destruct force].
Qed.

(** X7.  For a metric that [is_summable], [get_sum_many] returns whenever
    [get_polling_many] does, leaving the same state, and its result is a
    number.  When every polled value is an integer or [None], as under the
    integer kind, the result is the integer sum of the values, an object
    without a value counting for nothing; it is the integer [0] when no
    object has a value, under the float kind too.  What a sum of floats is
    worth is the runtime's business. *)
Theorem sum_of_a_summable_metric (objs : list entity) (force : bool) (unit : string)
    (self self' : Metric.metric) (w w' : world) (vs : list pyval) :
  Metric.is_summable self unit = true ->
  map_Forall (fun _ v => Spec.number_or_none v = true) (Metric._cache self) ->
  Metric.get_polling_many objs false force (self, w) = (Return (Some vs), (self', w')) ->
  exists n : pyval,
    Metric.get_sum_many objs false force (self, w) = (Return n, (self', w')) /\
    Spec.number n = true /\
    (Forall (fun v => Spec.integer_or_none v = true) vs -> n = PInt (Spec.total vs)) /\
    (Metric.type self = "int" ->
     map_Forall (fun _ v => Spec.integer_or_none v = true) (Metric._cache self) ->
     n = PInt (Spec.total vs)) /\
    (Forall (fun v => v = PNone) vs -> n = PInt 0) /\
    map_Forall (fun _ v => Spec.number_or_none v = true) (Metric._cache self').
Proof.
  intros Hsum Hinv Hrun.
  destruct (get_polling_many_keeps Spec.number_or_none objs force self self' w w' vs
              eq_refl (fun raw => to_python_number self unit raw force Hsum) Hinv Hrun)
    as [Hvs Hinv'].
  assert (Hnum : Forall (fun v => Spec.number v = true)
                   (List.filter (fun x => negb (is_none x)) vs)).
  { apply List.Forall_forall. intros v Hv. apply filter_In in Hv as [Hin Hnn].
    rewrite Forall_forall in Hvs. apply list_elem_of_In in Hin. specialize (Hvs v Hin).
    unfold Spec.number_or_none in Hvs. destruct (is_none v); [discriminate | exact Hvs]. }
  destruct (sum_from_numbers _ (PInt 0) eq_refl Hnum) as (n & Hn & Hnumber).
  assert (Hints : Forall (fun v => Spec.integer_or_none v = true) vs -> n = PInt (Spec.total vs)).
  { intros Hall. pose proof (sum_from_integers vs 0 Hall) as Hexact.
    rewrite Hn in Hexact. now injection Hexact. }
  exists n. split; [|split; [|split; [|split; [|split]]]].
  - unfold Metric.get_sum_many, bind. rewrite Hrun. unfold lift, PyArith.sum. now rewrite Hn.
  - exact Hnumber.
  - exact Hints.
  - intros Hkind Hcache. apply Hints.
    exact (proj1 (get_polling_many_keeps Spec.integer_or_none objs force self self' w w' vs
                    eq_refl (fun raw => to_python_integer self raw force Hkind) Hcache Hrun)).
  - intros Hnone. rewrite Hints.
    + f_equal. clear -Hnone. induction Hnone as [|v vs -> _ IH]; [reflexivity | exact IH].
    + eapply Forall_impl; [exact Hnone|]. now intros v ->.
  - exact Hinv'.
Qed.

Lemma to_python_text (self : Metric.metric) (raw : pyval) (force : bool) :
  Metric.type self ∉ ["float"; "int"; "bool"] ->
  Spec.text_or_none (Metric.to_python self raw force) = true.
Proof.
  intros Hkind. unfold Metric.to_python.
  destruct (String.eqb_spec (Metric.type self) "float") as [Heq|_].
  { exfalso. apply Hkind. rewrite Heq. set_solver. }
  destruct (String.eqb_spec (Metric.type self) "int") as [Heq|_].
  { exfalso. apply Hkind. rewrite Heq. set_solver. }
  destruct (String.eqb_spec (Metric.type self) "bool") as [Heq|_].
  { exfalso. apply Hkind. rewrite Heq. set_solver. }
  destruct (truthy raw); [|reflexivity]. now destruct (truthy _).
Qed.

(** X8.  For a metric of texts (a kind other than [float], [int] and
    [bool]), [get_sum_many] raises [TypeError] as soon as one object of the
    batch has a value: the sum starts from the integer [0]. *)
Theorem sum_of_texts_raises (objs : list entity) (force : bool)
    (self self' : Metric.metric) (w w' : world) (vs : list pyval) :
  Metric.type self ∉ ["float"; "int"; "bool"] ->
  map_Forall (fun _ v => Spec.text_or_none v = true) (Metric._cache self) ->
  Metric.get_polling_many objs false force (self, w) = (Return (Some vs), (self', w')) ->
  Exists (fun v => v <> PNone) vs ->
  Metric.get_sum_many objs false force (self, w) = (Raise TypeError, (self', w')).
Proof.
  intros Hkind Hinv Hrun Hsome.
  destruct (get_polling_many_keeps Spec.text_or_none objs force self self' w w' vs
              eq_refl (fun raw => to_python_text self raw force Hkind) Hinv Hrun)
    as [Hvs _].
  unfold Metric.get_sum_many, bind. rewrite Hrun. unfold lift, PyArith.sum. f_equal.
  clear Hrun. induction Hvs as [|v vs Hv Hvs IH].
  - now apply Exists_nil in Hsome.
  - destruct v as [| | | |s]; try discriminate.
    + simpl. apply IH. apply Exists_cons in Hsome as [Hn|Hs]; [contradiction | exact Hs].
    + reflexivity.
Qed.

End Sums.

(** ** Writes and the queue, further *)

Section Writes.
Context `{FloatText}.

(** X9.  A flush that fails loses no pair: when [queue_append] raises, the
    queue holds the pairs it held and the new one, the exception is that of
    [set_polling_many] on this queue, and the queue is still over its
    capacity, so that the next [queue_append] flushes again. *)
Theorem failed_flush_keeps_the_queue (obj : entity) (value : pyval)
    (self self' : Metric.metric) (w w' : world) (e : exn) :
  Metric.queue_append obj value (self, w) = (Raise e, (self', w')) ->
  self' = Metric.with_queue (Metric.queue self ++ [(obj, value)]) self /\
  Metric.set_polling_many self' (Metric.queue self') w = (Raise e, w') /\
  Metric.queue_size self' < Z.of_nat (length (Metric.queue self')).
Proof.
  rewrite queue_append_step. cbv zeta.
  destruct (Z.ltb_spec (Metric.queue_size self)
              (Z.of_nat (length (Metric.queue self ++ [(obj, value)])))) as [Hover|_];
    [|discriminate].
  destruct (Metric.set_polling_many self _ w) as [[[]|e'] w1] eqn:Hset; [discriminate|].
  intros Heq. apply pair_equal_spec in Heq as [He Hs].
  apply pair_equal_spec in Hs as [<- <-]. injection He as <-.
  split; [reflexivity|]. split.
  - rewrite set_polling_many_with_queue. exact Hset.
  - exact Hover.
Qed.

(** The loop of [set_polling_many] when nothing is archived: only the key
    can fail, and the world is left alone. *)
Lemma loop_without_archive (self : Metric.metric) (first : entity)
    (items : list (entity * pyval)) (d : gmap string pyval) (w : world) :
  Metric.rrd_enabled self = false \/
  Forall (fun item => Metric.non_empty (snd item) = false) items ->
  snd (for_each (Spec.loop_body self first) items d w) = w.
Proof.
  intros Hoff. revert d. induction items as [|[obj value] items IH]; intros d; [reflexivity|].
  cbn [for_each]. unfold bind at 1.
  assert (Hturn : Spec.loop_body self first (obj, value) d w
                  = match Metric.key_of (Metric.cache_prefix self ++ "/" ++ objtype first
                                         ++ "/%s/" ++ str_int (Metric.pk self)) (pk obj) with
                    | Return key => (Return (<[key := value]> d), w)
                    | Raise e => (Raise e, w)
                    end).
  { unfold Spec.loop_body, Metric.store_one, Metric.key_of, bind, lift.
    destruct (mod_format _ _) as [key|e]; [|reflexivity].
    assert (Metric.rrd_enabled self && Metric.non_empty value = false) as ->; [|reflexivity].
    destruct Hoff as [->|Hall]; [reflexivity|].
    apply Forall_cons in Hall as [Hv _]. simpl in Hv. rewrite Hv. apply andb_false_r. }
  rewrite Hturn. destruct (Metric.key_of _ (pk obj)) as [key|e]; [|reflexivity].
  apply IH. destruct Hoff as [Hoff|Hall]; [now left | right].
  now apply Forall_cons in Hall as [_ Hrest].
Qed.


(** X11.  Under every kind but [bool], a value that [to_python] returned is
    decoded to itself, with the same [force_metric_type].
    Under [bool] the text ["1"] is decoded to [True], and [True] to
    [False]. *)
Theorem decoded_values_decode_to_themselves (self : Metric.metric) (force : bool) :
  (Metric.type self <> "bool" ->
   forall value : pyval,
     Metric.to_python self (Metric.to_python self value force) force
     = Metric.to_python self value force) /\
  (Metric.type self = "bool" ->
   Metric.to_python self (PStr "1") force = PBool true /\
   Metric.to_python self (Metric.to_python self (PStr "1") force) force = PBool false).
Proof.
  split.
  - intros Hkind value. unfold Metric.to_python.
    destruct (String.eqb (Metric.type self) "float").
    { destruct (py_float value) as [q|e]; [reflexivity | now destruct force]. }
    destruct (String.eqb (Metric.type self) "int").
    { destruct (py_int value) as [z|e]; [reflexivity | now destruct force]. }
    destruct (String.eqb_spec (Metric.type self) "bool") as [Heq|_]; [contradiction|].
    destruct (truthy value); [|reflexivity].
    destruct (truthy (PStr (py_str value))) eqn:Ht; [|reflexivity].
    rewrite Ht. cbn [py_str]. now rewrite Ht.
  - intros Hkind. unfold Metric.to_python. rewrite Hkind. simpl. now destruct force.
Qed.

End Writes.

(** ** Decimal texts *)

Lemma uint_chars_digits (d : Decimal.uint) :
  Forall (fun c => In c Spec.decimal_digits) (chars (NilEmpty.string_of_uint d)).
Proof.
  induction d; cbn [NilEmpty.string_of_uint chars list_ascii_of_string];
    [constructor | constructor; [unfold Spec.decimal_digits; simpl; tauto | exact IHd] ..].
Qed.

Lemma digits_of_uint_acc (d : Decimal.uint) (p : positive) (len : nat) :
  digits (chars (NilEmpty.string_of_uint d)) (Zpos p) len
  = (Zpos (Pos.of_uint_acc d p), (len + Decimal.nb_digits d)%nat, []).
Proof.
  revert p len.
  induction d; intros p len;
    cbn [NilEmpty.string_of_uint chars list_ascii_of_string digits Pos.of_uint_acc];
    [simpl; now rewrite Nat.add_0_r | ..];
    (change (digit_of _) with (Some 0) || change (digit_of _) with (Some 1)
     || change (digit_of _) with (Some 2) || change (digit_of _) with (Some 3)
     || change (digit_of _) with (Some 4) || change (digit_of _) with (Some 5)
     || change (digit_of _) with (Some 6) || change (digit_of _) with (Some 7)
     || change (digit_of _) with (Some 8) || change (digit_of _) with (Some 9));
    cbn iota beta;
    match goal with
    | |- digits _ ?acc _ = _ =>
        match goal with
        | |- _ = (Zpos (Pos.of_uint_acc _ ?q), _, _) =>
            replace acc with (Zpos q) by lia
        end
    end;
    fold (chars (NilEmpty.string_of_uint d)); rewrite IHd; cbn [Decimal.nb_digits];
    do 2 f_equal; lia.
Qed.

Lemma digits_of_uint (d : Decimal.uint) (len : nat) :
  digits (chars (NilEmpty.string_of_uint d)) 0 len
  = (Z.of_uint d, (len + Decimal.nb_digits d)%nat, []).
Proof.
  revert len.
  induction d; intros len;
    cbn [NilEmpty.string_of_uint chars list_ascii_of_string digits];
    [simpl; now rewrite Nat.add_0_r | ..];
    (change (digit_of _) with (Some 0) || change (digit_of _) with (Some 1)
     || change (digit_of _) with (Some 2) || change (digit_of _) with (Some 3)
     || change (digit_of _) with (Some 4) || change (digit_of _) with (Some 5)
     || change (digit_of _) with (Some 6) || change (digit_of _) with (Some 7)
     || change (digit_of _) with (Some 8) || change (digit_of _) with (Some 9));
    cbn iota beta; fold (chars (NilEmpty.string_of_uint d));
    unfold Z.of_uint; cbn [Pos.of_uint Z.of_N Decimal.nb_digits].
  - change (10 * 0 + 0) with 0. rewrite IHd. unfold Z.of_uint. do 2 f_equal. lia.
  - change (10 * 0 + 1) with (Zpos 1). rewrite digits_of_uint_acc. do 2 f_equal. lia.
  - change (10 * 0 + 2) with (Zpos 2). rewrite digits_of_uint_acc. do 2 f_equal. lia.
  - change (10 * 0 + 3) with (Zpos 3). rewrite digits_of_uint_acc. do 2 f_equal. lia.
  - change (10 * 0 + 4) with (Zpos 4). rewrite digits_of_uint_acc. do 2 f_equal. lia.
  - change (10 * 0 + 5) with (Zpos 5). rewrite digits_of_uint_acc. do 2 f_equal. lia.
  - change (10 * 0 + 6) with (Zpos 6). rewrite digits_of_uint_acc. do 2 f_equal. lia.
  - change (10 * 0 + 7) with (Zpos 7). rewrite digits_of_uint_acc. do 2 f_equal. lia.
  - change (10 * 0 + 8) with (Zpos 8). rewrite digits_of_uint_acc. do 2 f_equal. lia.
  - change (10 * 0 + 9) with (Zpos 9). rewrite digits_of_uint_acc. do 2 f_equal. lia.
Qed.

Lemma digit_char_facts (c : ascii) :
  In c Spec.decimal_digits ->
  is_blank c = false /\ is_colon c = false /\ Ascii.eqb c "-" = false /\
  Ascii.eqb c "+" = false /\ c <> "/"%char.
Proof.
  unfold Spec.decimal_digits. simpl.
  intros Hin. repeat (destruct Hin as [<-|Hin]; [repeat split; discriminate|]).
  destruct Hin.
Qed.

Lemma lstrip_id (l : list ascii) :
  match l with c :: _ => is_blank c = false | [] => True end -> lstrip l = l.
Proof. destruct l as [|c l]; simpl; [reflexivity|]. now intros ->. Qed.

Lemma strip_id (l : list ascii) : Forall (fun c => is_blank c = false) l -> strip l = l.
Proof.
  intros Hall. unfold strip. rewrite (lstrip_id l).
  - rewrite lstrip_id; [apply rev_involutive|].
    destruct (rev l) as [|c r] eqn:Hr; [exact I|].
    rewrite List.Forall_forall in Hall. apply Hall. apply in_rev. rewrite Hr. now left.
  - destruct Hall; [exact I | assumption].
Qed.

(** The characters of [str(n)]: an optional minus sign, then digits, at
    least one. *)
Lemma str_int_chars (z : Z) :
  exists (d : Decimal.uint),
    Decimal.nb_digits d <> 0%nat /\
    Z.of_uint d = Z.abs z /\
    chars (str_int z)
    = ((if z <? 0 then ["-"%char] else []) ++ chars (NilEmpty.string_of_uint d))%list.
Proof.
  destruct z as [|p|p]; unfold str_int; cbn [Z.to_int NilZero.string_of_int].
  - exists (Decimal.D0 Decimal.Nil). repeat split. discriminate.
  - pose proof (DecimalZ.of_to (Zpos p)) as Hp. cbn [Z.to_int Z.of_int] in Hp.
    destruct (Pos.to_uint p) as [| | | | | | | | | |] eqn:Hd;
      [discriminate Hp | eexists; repeat split; [|exact Hp]; discriminate ..].
  - pose proof (DecimalZ.of_to (Zpos p)) as Hp. cbn [Z.to_int Z.of_int] in Hp.
    destruct (Pos.to_uint p) as [| | | | | | | | | |] eqn:Hd;
      [discriminate Hp | eexists; repeat split; [|exact Hp]; discriminate ..].
Qed.

Lemma str_int_plain (z : Z) :
  Forall (fun c => is_blank c = false /\ is_colon c = false /\ c <> "/"%char) (chars (str_int z)).
Proof.
  destruct (str_int_chars z) as (d & _ & _ & ->).
  apply Forall_app. split.
  - destruct (z <? 0); repeat constructor. discriminate.
  - eapply Forall_impl; [apply uint_chars_digits|]. intros c Hc.
    destruct (digit_char_facts c Hc) as (? & ? & _ & _ & ?). auto.
Qed.

(** [int(str(n))] is [n]. *)
Lemma parse_int_str_int (z : Z) : parse_int (str_int z) = Some z.
Proof.
  unfold parse_int. rewrite strip_id.
  2:{ eapply Forall_impl; [apply str_int_plain|]. now intros c [Hc _]. }
  destruct (str_int_chars z) as (d & Hlen & Hval & ->).
  assert (Hsign : sign_of ((if z <? 0 then ["-"%char] else []) ++ chars (NilEmpty.string_of_uint d))
                  = (z <? 0, chars (NilEmpty.string_of_uint d))).
  { destruct (z <? 0); [reflexivity|]. cbn [app].
    pose proof (uint_chars_digits d) as Hd.
    destruct (chars (NilEmpty.string_of_uint d)) as [|c l]; [reflexivity|].
    apply Forall_cons in Hd as [Hc _].
    destruct (digit_char_facts c Hc) as (_ & _ & Hm & Hp & _).
    cbn [sign_of]. now rewrite Hm, Hp. }
  rewrite Hsign, digits_of_uint, Hval. cbn [Nat.add].
  destruct (Decimal.nb_digits d); [contradiction|].
  f_equal. destruct (Z.ltb_spec z 0); lia.
Qed.

Lemma str_int_inj (x y : Z) : str_int x = str_int y -> x = y.
Proof.
  intros Heq. pose proof (parse_int_str_int x) as Hx. rewrite Heq, parse_int_str_int in Hx.
  congruence.
Qed.

Lemma str_int_without_colons (z : Z) : strip_colons (str_int z) = str_int z.
Proof.
  unfold strip_colons. rewrite <- (string_of_list_ascii_of_string (str_int z)) at 2.
  unfold text. f_equal. fold (chars (str_int z)).
  pose proof (str_int_plain z) as Hall.
  induction Hall as [|c l (_ & Hc & _) _ IH]; [reflexivity|].
  simpl. rewrite Hc. simpl. now rewrite IH.
Qed.

Lemma str_int_component (z : Z) : Spec.component (str_int z).
Proof.
  split.
  - intros Hempty. pose proof (parse_int_str_int z) as Hz. rewrite Hempty in Hz. discriminate.
  - intros Hin. pose proof (str_int_plain z) as Hall. rewrite List.Forall_forall in Hall.
    destruct (Hall _ Hin) as (_ & _ & Hne). now apply Hne.
Qed.

(** ** C8: a value written, then read *)

Section RoundTrip.
Context `{FloatText}.

(** What [get_polling] returns after [set_polling] has returned: the decode
    of the text that the shared cache keeps of the value. *)
Lemma set_then_get (self : Metric.metric) (obj : entity) (value : pyval)
    (force : bool) (c : gmap pkval pyval) (w w' : world) :
  Metric.set_polling self obj value w = (Return tt, w') ->
  fst (Metric.get_polling obj false force (Metric.with_cache c self, w'))
  = Return (Metric.to_python self (raw value) force).
Proof.
  intros Hset. unfold Metric.set_polling in Hset.
  apply set_polling_many_returns in Hset as (kvs & Hkvs & _ & Hshared & _).
  unfold Spec.keyed in Hkvs. cbn [Metric._pre_key_for obind Spec.keyed_under] in Hkvs.
  set (pre_key := Metric.cache_prefix self ++ "/" ++ objtype obj ++ "/%s/"
                  ++ str_int (Metric.pk self)) in *.
  destruct (Metric.key_of pre_key (pk obj)) as [key|e] eqn:Hkey; [|discriminate].
  cbn [obind] in Hkvs. injection Hkvs as <-.
  cbn [fold_left] in Hshared. unfold Spec.store_entry in Hshared. cbn [fst snd] in Hshared.
  unfold Metric.get_polling, Metric.set_me, bind at 1, modify. cbn [fst snd].
  unfold bind. rewrite get_polling_many_cases. cbv zeta.
  cbn [Metric.cache_prefix Metric.pk Metric._cache Metric.with_cache Metric.uncached_keys].
  fold pre_key. rewrite lookup_delete_eq.
  rewrite bool_decide_eq_false_2 by (intros [? ?]; discriminate).
  rewrite Hkey. cbn [obind map fst snd hits Metric.fill_cache].
  rewrite Hshared, lookup_insert_eq, lookup_insert_eq.
  unfold Spec.answer. cbn [fst snd Metric.get_cached_polling_list Metric._cache Metric.with_cache].
  rewrite lookup_insert_eq. reflexivity.
Qed.


End RoundTrip.


(** ** Paths and keys of distinct objects *)

Lemma chars_app (a b : string) : chars (a ++ b) = (chars a ++ chars b)%list.
Proof. induction a as [|c a IH]; simpl; [reflexivity|]. unfold chars in *. now rewrite IH. Qed.

Lemma chars_inj (a b : string) : chars a = chars b -> a = b.
Proof.
  intros Heq. rewrite <- (string_of_list_ascii_of_string a), <- (string_of_list_ascii_of_string b).
  unfold chars in Heq. now rewrite Heq.
Qed.

Lemma component_not_absolute (k t : string) :
  Spec.component k -> String.prefix "/" (k ++ t) = false.
Proof.
  intros [Hne Hslash]. destruct k as [|c k]; [contradiction|].
  change (String.prefix "/" (String c (k ++ t)) = false). cbn [String.prefix].
  destruct (ascii_dec "/" c) as [<-|_]; [|reflexivity].
  exfalso. apply Hslash. left. reflexivity.
Qed.

Lemma component_relative (k : string) : Spec.component k -> String.prefix "/" k = false.
Proof.
  intros [Hne Hslash]. destruct k as [|c k]; [contradiction|].
  cbn [String.prefix]. destruct (ascii_dec "/" c) as [<-|_]; [|reflexivity].
  exfalso. apply Hslash. left. reflexivity.
Qed.

Lemma component_ends (x k : string) :
  Spec.component k ->
  String.eqb (x ++ k) "" || String.prefix "/" (text (rev (chars (x ++ k)))) = false.
Proof.
  intros [Hne Hslash]. apply orb_false_iff. split.
  - apply String.eqb_neq. intros Heq. apply (f_equal chars) in Heq. rewrite chars_app in Heq.
    apply app_eq_nil in Heq as [_ Hk]. apply Hne. now apply chars_inj.
  - rewrite chars_app, rev_app_distr.
    destruct (chars k) as [|c l] eqn:Hk using rev_ind.
    { exfalso. apply Hne. now apply chars_inj. }
    rewrite rev_app_distr. cbn [rev app text string_of_list_ascii String.prefix].
    destruct (ascii_dec "/" c) as [<-|_]; [|reflexivity].
    exfalso. apply Hslash. apply in_or_app. right. now left.
Qed.

(** [os.path.join] of a directory, a component and a file name that does
    not start with a slash. *)
Lemma join_component (a k f : string) :
  Spec.component k -> String.prefix "/" f = false ->
  OsPath.join2 (OsPath.join2 a k) f
  = (a ++ (if String.eqb a "" || String.prefix "/" (text (rev (chars a))) then "" else "/") ++ k)
    ++ "/" ++ f.
Proof.
  intros Hk Hf.
  assert (Hjoin : OsPath.join2 a k
                  = a ++ (if String.eqb a "" || String.prefix "/" (text (rev (chars a)))
                          then "" else "/") ++ k).
  { unfold OsPath.join2. rewrite (component_relative k Hk).
    destruct (String.eqb a "" || String.prefix "/" (text (rev (chars a)))); reflexivity. }
  rewrite Hjoin. unfold OsPath.join2 at 1. rewrite Hf.
  assert (Hassoc : forall x y z : string, x ++ y ++ z = (x ++ y) ++ z).
  { clear. intros x y z. induction x as [|c x IH]; [reflexivity|].
    change (String c (x ++ y ++ z) = String c ((x ++ y) ++ z)). now rewrite IH. }
  rewrite (Hassoc a), component_ends by exact Hk. reflexivity.
Qed.

Lemma file_name_not_absolute (z : Z) : String.prefix "/" (str_int z ++ ".rrd") = false.
Proof. apply component_not_absolute, str_int_component. Qed.

Lemma rrd_paths_differ (self : Metric.metric) (a b : entity) :
  objtype a = objtype b ->
  Spec.component (strip_colons (str_pk (pk a))) ->
  Spec.component (strip_colons (str_pk (pk b))) ->
  Metric._rrd_path self a = Metric._rrd_path self b ->
  strip_colons (str_pk (pk a)) = strip_colons (str_pk (pk b)).
Proof.
  intros Htype Ha Hb. unfold Metric._rrd_path, OsPath.join. cbn [fold_left].
  rewrite Htype.
  rewrite !join_component by (assumption || apply file_name_not_absolute).
  intros Heq. apply (f_equal chars) in Heq. rewrite !chars_app in Heq.
  apply app_inv_tail in Heq. apply app_inv_head in Heq. apply app_inv_head in Heq.
  now apply chars_inj.
Qed.

(** A format with one [%s] puts its argument between two texts that only
    depend on the format. *)
Lemma mod_format_go_shape (n : nat) (fmt : list ascii) (a : string) (r : list ascii) :
  (length fmt <= n)%nat ->
  mod_format_go fmt (Some a) = Return r ->
  exists before after : list ascii,
    forall a' : string, mod_format_go fmt (Some a') = Return (before ++ chars a' ++ after)%list.
Proof.
  revert fmt r. induction n as [|n IH]; intros fmt r Hlen.
  { destruct fmt; [discriminate | simpl in Hlen; lia]. }
  destruct fmt as [|c rest]; [discriminate|]. cbn [mod_format_go].
  destruct (Ascii.eqb c "%").
  - destruct rest as [|d rest']; [discriminate|].
    destruct (Ascii.eqb d "s").
    + destruct (mod_format_go rest' None) as [r0|e]; [|discriminate].
      intros _. exists [], r0. reflexivity.
    + destruct (Ascii.eqb d "%"); [|discriminate].
      destruct (mod_format_go rest' (Some a)) as [r0|e] eqn:Hrest; [|discriminate].
      intros _. destruct (IH rest' r0) as (before & after & Hshape).
      * simpl in Hlen. lia.
      * exact Hrest.
      * exists (d :: before), after. intros a'. now rewrite Hshape.
  - destruct (mod_format_go rest (Some a)) as [r0|e] eqn:Hrest; [|discriminate].
    intros _. destruct (IH rest r0) as (before & after & Hshape).
    + simpl in Hlen. lia.
    + exact Hrest.
    + exists (c :: before), after. intros a'. now rewrite Hshape.
Qed.

Lemma mod_format_inj (fmt a b key : string) :
  mod_format fmt a = Return key -> mod_format fmt b = Return key -> a = b.
Proof.
  unfold mod_format.
  destruct (mod_format_go (chars fmt) (Some a)) as [r|e] eqn:Hr; [|discriminate].
  destruct (mod_format_go_shape _ _ _ _ (le_n _) Hr) as (before & after & Hshape).
  rewrite (Hshape a) in Hr. injection Hr as <-. rewrite (Hshape b). cbn [obind].
  intros [= <-] [= Heq].
  apply (f_equal chars) in Heq. rewrite !chars_text in Heq.
  apply app_inv_head in Heq. apply app_inv_tail in Heq. symmetry. now apply chars_inj.
Qed.

Lemma cache_keys_differ (self : Metric.metric) (a b : entity) (key : string) :
  objtype a = objtype b ->
  Metric.cache_key self a a = Return key -> Metric.cache_key self b b = Return key ->
  strip_colons (str_pk (pk a)) = strip_colons (str_pk (pk b)).
Proof.
  unfold Metric.cache_key, Metric.key_of. cbn [Metric._pre_key_for obind].
  intros ->. apply mod_format_inj.
Qed.

(** X12.  Within one class, two objects whose keys, once their colons are
    removed, are distinct path components (not empty, without a slash) have
    distinct archive paths and distinct cache keys: the colons are the only
    way for two such keys to meet. *)
Theorem component_keys_do_not_collide (self : Metric.metric) (a b : entity) :
  objtype a = objtype b ->
  Spec.component (strip_colons (str_pk (pk a))) ->
  Spec.component (strip_colons (str_pk (pk b))) ->
  strip_colons (str_pk (pk a)) <> strip_colons (str_pk (pk b)) ->
  Metric._rrd_path self a <> Metric._rrd_path self b /\
  forall key : string,
    Metric.cache_key self a a = Return key -> Metric.cache_key self b b <> Return key.
Proof.
  intros Htype Ha Hb Hne. split.
  - intros Heq. apply Hne. now apply (rrd_paths_differ self a b).
  - intros key Hka Hkb. apply Hne. now apply (cache_keys_differ self a b key).
Qed.

(** X13.  Objects of one class with distinct integer keys never share an
    archive path or a cache key. *)
Theorem numeric_keys_do_not_collide (self : Metric.metric) (cls : string) (x y : Z) :
  x <> y ->
  let a := {| class_name := cls; pk := PkInt x |} in
  let b := {| class_name := cls; pk := PkInt y |} in
  Metric._rrd_path self a <> Metric._rrd_path self b /\
  forall key : string,
    Metric.cache_key self a a = Return key -> Metric.cache_key self b b <> Return key.
Proof.
  intros Hne a b.
  assert (Hkeys : strip_colons (str_pk (pk a)) <> strip_colons (str_pk (pk b))).
  { subst a b. cbn [pk str_pk]. rewrite !str_int_without_colons.
    intros Heq. apply Hne. now apply str_int_inj. }
  assert (Hca : Spec.component (strip_colons (str_pk (pk a)))).
  { subst a. cbn [pk str_pk]. rewrite str_int_without_colons. apply str_int_component. }
  assert (Hcb : Spec.component (strip_colons (str_pk (pk b)))).
  { subst b. cbn [pk str_pk]. rewrite str_int_without_colons. apply str_int_component. }
  split.
  - intros Heq. apply Hkeys. now apply (rrd_paths_differ self a b).
  - intros key Hka Hkb. apply Hkeys. now apply (cache_keys_differ self a b key).
Qed.

(** X14.  Under the integer kind, an integer is decoded to itself, and so
    is its text: [int(str(n))] is [n], so that a value written as a number
    or as its text is read back as the number. *)
Theorem integer_text_decodes_to_itself `{FloatText} (self : Metric.metric) (z : Z) (force : bool) :
  Metric.type self = "int" ->
  Metric.to_python self (PInt z) force = PInt z /\
  Metric.to_python self (PStr (py_str (PInt z))) force = PInt z.
Proof.
  intros Hkind. unfold Metric.to_python. rewrite Hkind.
  cbn [String.eqb Ascii.eqb Bool.eqb py_str py_int]. simpl String.eqb.
  split; [reflexivity|]. now rewrite parse_int_str_int.
Qed.

(** ** Exports and graphs *)

Lemma xport_defs_archived (self : Metric.metric) (w : world) (key : string)
    (objs : list entity) (args xvars : list string) :
  Metric.xport_defs self w key objs args xvars
  = Metric.xport_defs self w key (Spec.archived_objects w self objs) args xvars.
Proof.
  revert args xvars. induction objs as [|obj objs IH]; intros args xvars; [reflexivity|].
  unfold Spec.archived_objects. cbn [Metric.xport_defs List.filter].
  destruct (path_exists (Metric._rrd_path self obj) w) eqn:Hex.
  - cbn [Metric.xport_defs]. rewrite Hex.
    destruct (fmt_s_i key (pk obj)) as [xkey|e]; [|reflexivity].
    cbn [obind]. apply IH.
  - apply IH.
Qed.

(** X15.  [Metric.xport] reads the objects that have an archive and no
    other: the objects without one can be left out of the list, and when
    no object has one the result is [None] and the binding is not
    called. *)
Theorem xport_reads_archived_objects_only (rrdtool_xport : list string -> outcome PyObj.pyobj)
    (self : Metric.metric) (w : world) (args : list string) (object_list : list entity)
    (op un_value : string) (json : bool) :
  Metric.xport rrdtool_xport self w args object_list op un_value json
  = Metric.xport rrdtool_xport self w args (Spec.archived_objects w self object_list)
      op un_value json /\
  (Spec.archived_objects w self object_list = [] ->
   Metric.xport rrdtool_xport self w args object_list op un_value json = Return Metric.NoData).
Proof.
  assert (Heq : Metric.xport rrdtool_xport self w args object_list op un_value json
                = Metric.xport rrdtool_xport self w args
                    (Spec.archived_objects w self object_list) op un_value json).
  { unfold Metric.xport. now rewrite xport_defs_archived. }
  split; [exact Heq|]. intros Hnone. rewrite Heq, Hnone. reflexivity.
Qed.

Lemma xport_defs_text_key (self : Metric.metric) (w : world) (key : string)
    (objs : list entity) (args xvars : list string) :
  Exists (fun obj => path_exists (Metric._rrd_path self obj) w = true /\
                     exists s, pk obj = PkStr s) objs ->
  Metric.xport_defs self w key objs args xvars = Raise TypeError.
Proof.
  intros Hex. revert args xvars.
  induction Hex as [obj objs [Hthere [s Hs]]|obj objs _ IH]; intros args xvars;
    cbn [Metric.xport_defs].
  - rewrite Hthere, Hs. reflexivity.
  - destruct (path_exists _ w); [|apply IH].
    destruct (pk obj); cbn [fmt_s_i obind]; [apply IH | reflexivity].
Qed.

(** X16.  [Metric.xport] cannot export an object whose key is a text, an
    address with colons say, although [set_polling] archives it: as soon as
    such an object has an archive, the ['%s%i'] of its series name raises
    [TypeError], and the binding is not called. *)
Theorem xport_rejects_text_keys (rrdtool_xport : list string -> outcome PyObj.pyobj)
    (self : Metric.metric) (w : world) (args : list string) (object_list : list entity)
    (op un_value : string) (json : bool) :
  Exists (fun obj => path_exists (Metric._rrd_path self obj) w = true /\
                     exists s, pk obj = PkStr s) object_list ->
  Metric.xport rrdtool_xport self w args object_list op un_value json = Raise TypeError.
Proof.
  intros Hex. unfold Metric.xport. now rewrite xport_defs_text_key.
Qed.

Section CallersList.
Variables (w : world) (object_list : list entity) (op un_value : string).

Lemma export_defs_extends (key : string) (metric : Metric.metric) (objs : list entity)
    (xvars args : list string) :
  Views.export_defs w key metric objs xvars args
  = (fst (Views.export_defs w key metric objs xvars []),
     (args ++ snd (Views.export_defs w key metric objs xvars []))%list).
Proof.
  revert xvars args. induction objs as [|obj objs IH]; intros xvars args; cbn [Views.export_defs].
  - unfold ret. simpl. now rewrite app_nil_r.
  - destruct (path_exists _ w); [|apply IH].
    unfold bind at 1 3 5, lift.
    destruct (fmt_s_i key (pk obj)) as [xkey|e]; [|simpl; now rewrite app_nil_r].
    unfold bind, modify. rewrite (IH _ (args ++ _)%list), (IH _ ([] ++ _)%list).
    cbn [fst snd app]. now rewrite <- app_assoc.
Qed.

Lemma export_cdefs_extends (exports : list (string * Metric.metric)) (keys args : list string) :
  Views.export_cdefs w object_list exports op un_value keys args
  = (fst (Views.export_cdefs w object_list exports op un_value keys []),
     (args ++ snd (Views.export_cdefs w object_list exports op un_value keys []))%list).
Proof.
  revert keys args. induction exports as [|[key metric] exports IH]; intros keys args;
    cbn [Views.export_cdefs].
  - unfold ret. simpl. now rewrite app_nil_r.
  - unfold bind at 1 4 7.
    rewrite (export_defs_extends key metric object_list [] args).
    destruct (Views.export_defs w key metric object_list [] []) as [[[|x xs]|e] ext];
      cbn [fst snd]; try reflexivity.
    unfold bind, modify.
    rewrite (IH _ (((args ++ ext) ++ _) ++ _)%list), (IH _ ((ext ++ _) ++ _)%list).
    cbn [fst snd]. f_equal. rewrite <- !app_assoc. reflexivity.
Qed.

Lemma export_cdefs_keys (exports : list (string * Metric.metric)) (keys ks args args' : list string) :
  Views.export_cdefs w object_list exports op un_value keys args = (Return (Some ks), args') ->
  ks = (keys ++ map fst exports)%list.
Proof.
  revert keys args. induction exports as [|[key metric] exports IH]; intros keys args;
    cbn [Views.export_cdefs].
  - unfold ret. intros [= <- <-]. simpl. now rewrite app_nil_r.
  - unfold bind at 1.
    destruct (Views.export_defs w key metric object_list [] args) as [[[|x xs]|e] ext];
      [discriminate| |discriminate].
    unfold bind, modify. intros Hrest. apply IH in Hrest. rewrite Hrest.
    simpl. now rewrite <- app_assoc.
Qed.

End CallersList.

(** X17.  [_rrd_export_wrap] extends the list that its caller passed as
    [args]: whatever it returns or raises, the list holds afterwards what it
    held before, followed by the [DEF], [CDEF] and [XPORT] directives of the
    labels that were processed.  A second call with the same list hands the
    tool the directives of the first call again. *)
Theorem export_extends_the_callers_list (popen : list string -> Views.process) (w : world)
    (object_list : list entity) (exports : list (string * Metric.metric))
    (op un_value : string) (json : bool) (args : list string) :
  let directives := snd (Views.export_cdefs w object_list exports op un_value [] []) in
  let once := Views._rrd_export_wrap popen w object_list exports op un_value json args in
  snd once = (args ++ directives)%list /\
  snd (Views._rrd_export_wrap popen w object_list exports op un_value json (snd once))
  = (args ++ directives ++ directives)%list.
Proof.
  intros directives.
  assert (Hext : forall args0,
            snd (Views._rrd_export_wrap popen w object_list exports op un_value json args0)
            = (args0 ++ directives)%list).
  { intros args0. unfold Views._rrd_export_wrap, bind at 1.
    rewrite export_cdefs_extends. fold directives. cbn [fst snd].
    destruct (fst (Views.export_cdefs w object_list exports op un_value [] [])) as [[ks|]|e];
      try reflexivity.
    unfold bind, gets, raise, lift, ret.
    destruct (negb _); [reflexivity|].
    destruct (Views.add_rows _ _ _) as [o|e]; [|reflexivity].
    destruct (Views.smooth_all _ _); reflexivity. }
  cbv zeta. split; [apply Hext|]. rewrite Hext, Hext. now rewrite <- app_assoc.
Qed.

(** X18.  When every requested label has an archive and the tool ends
    with a return code other than [0], [_rrd_export_wrap] raises an
    [Exception] whose message ends with what the tool wrote to its standard
    error; the tool was run on [rrdtool xport], the caller's arguments and
    the directives. *)
Theorem export_reports_tool_failure (popen : list string -> Views.process) (w : world)
    (object_list : list entity) (exports : list (string * Metric.metric))
    (op un_value : string) (json : bool) (args keys : list string) :
  let directives := snd (Views.export_cdefs w object_list exports op un_value [] []) in
  let p := popen ("rrdtool" :: "xport" :: args ++ directives)%list in
  fst (Views.export_cdefs w object_list exports op un_value [] args) = Return (Some keys) ->
  Views.returncode p <> 0 ->
  fst (Views._rrd_export_wrap popen w object_list exports op un_value json args)
  = Raise (Exception ("rrdtool xport failed " ++ Views.err p)).
Proof.
  intros directives p. unfold Views._rrd_export_wrap, bind at 1.
  rewrite export_cdefs_extends. fold directives. cbn [fst snd].
  intros -> Hcode. unfold bind, gets, raise. cbn [fst snd]. fold p.
  destruct (Z.eqb_spec (Views.returncode p) 0) as [Hzero|_]; [contradiction|]. reflexivity.
Qed.

Lemma fresh_series (keys : list string) (output : gmap string (list pyval)) (key : string) :
  key ∈ keys ->
  fold_left (fun o k => <[k := []]> o) keys output !! key = Some [].
Proof.
  revert output. induction keys as [|k keys IH]; intros output Hin.
  { now apply elem_of_nil in Hin. }
  cbn [fold_left]. destruct (decide (key ∈ keys)) as [Hk|Hk]; [now apply IH|].
  apply elem_of_cons in Hin as [->|Hin]; [|contradiction].
  clear IH. revert output. induction keys as [|k' keys IH]; intros output.
  - apply lookup_insert_eq.
  - cbn [fold_left]. apply not_elem_of_cons in Hk as [Hne Hk].
    rewrite insert_insert_ne by congruence. now apply IH.
Qed.

(** X19.  When the tool succeeds and answers without a row, while every
    requested label has an archive, [_rrd_export_wrap] does not return an
    empty export: the smoothing reads the last point of the first series
    and raises [IndexError]. *)
Theorem export_without_rows_raises (popen : list string -> Views.process) (w : world)
    (object_list : list entity) (exports : list (string * Metric.metric))
    (op un_value : string) (json : bool) (args : list string) (keys : list string) :
  exports <> [] ->
  fst (Views.export_cdefs w object_list exports op un_value [] args) = Return (Some keys) ->
  (forall a, Views.returncode (popen a) = 0 /\ Views.out (popen a) = []) ->
  fst (Views._rrd_export_wrap popen w object_list exports op un_value json args)
  = Raise IndexError.
Proof.
  intros Hne Hkeys Htool. unfold Views._rrd_export_wrap, bind at 1.
  destruct (Views.export_cdefs w object_list exports op un_value [] args) as [r args'] eqn:Hrun.
  simpl in Hkeys. subst r. apply export_cdefs_keys in Hrun. simpl in Hrun.
  unfold bind, gets, lift, ret. cbn [fst snd].
  destruct (Htool ("rrdtool" :: "xport" :: args')) as [-> ->]. cbn [negb Z.eqb Views.add_rows].
  destruct exports as [|[key metric] exports]; [contradiction|].
  subst keys. cbn [map fst Views.smooth_all].
  rewrite (fresh_series (key :: map fst exports) _ key) by (apply elem_of_cons; now left).
  reflexivity.
Qed.

Lemma metric_options_drawing (w : world) (metric : Metric.metric) (color : string)
    (objs : list entity) (n : nat) (options : list string) :
  Views.metric_options w metric color objs (if Nat.eqb n 0 then "AREA" else "STACK")
    (Z.of_nat n) options
  = (Z.of_nat (n + length (Spec.archived_objects w metric objs)),
     (options ++ concat (imap (fun i => Spec.draw metric color (n + i))
                           (Spec.archived_objects w metric objs)))%list).
Proof.
  revert n options. induction objs as [|obj objs IH]; intros n options.
  - simpl. now rewrite Nat.add_0_r, app_nil_r.
  - unfold Spec.archived_objects. cbn [Views.metric_options List.filter].
    destruct (path_exists (Metric._rrd_path metric obj) w).
    + replace (Z.of_nat n + 1) with (Z.of_nat (S n)) by lia.
      rewrite (IH (S n)). fold (Spec.archived_objects w metric objs).
      cbn [imap concat length]. f_equal; [f_equal; lia|].
      rewrite <- app_assoc. f_equal. unfold Spec.draw at 2. rewrite Nat.add_0_r.
      cbn [app]. do 2 f_equal. f_equal. apply imap_ext. intros i o _. simpl.
      now replace (n + S i)%nat with (S (n + i)) by lia.
    + apply IH.
Qed.

(** X20.  [render_metric] answers an invalid form with a bad request,
    before it looks at any object.  Otherwise it draws the objects that
    have an archive of the metric and no other, in their order: they are
    numbered from [0] as they are drawn, the first one is an [AREA] and
    each of the others a [STACK], in the colour of the metric or [#990033];
    the options of the form come last.  When no object has an archive it
    raises [Http404] and the tool is not run. *)
Theorem render_metric_draws_archived_objects (is_valid : bool) (form_options : list string)
    (rrdtool_graph : list string -> outcome string) (image_file_name : string)
    (w : world) (metric : Metric.metric) (graph_color : string) (object_list : list entity) :
  Views.render_metric is_valid form_options rrdtool_graph image_file_name w metric graph_color
    object_list
  = if is_valid then
      match Spec.archived_objects w metric object_list with
      | [] => Raise Views.Http404
      | drawn =>
          obind (rrdtool_graph
                   (image_file_name
                    :: Spec.drawing metric (if String.eqb graph_color "" then "#990033"
                                            else graph_color) drawn
                    ++ form_options)%list)
            (fun image_data => Return (Views.HttpResponse image_data "image/png"))
      end
    else Return Views.HttpResponseBadRequest.
Proof.
  unfold Views.render_metric. destruct is_valid; [|reflexivity]. cbn [negb].
  rewrite (metric_options_drawing w metric _ object_list 0 []). cbn [app Nat.add].
  destruct (Spec.archived_objects w metric object_list) as [|obj drawn]; [reflexivity|].
  cbn [length]. destruct (Z.eqb_spec (Z.of_nat (S (length drawn))) 0) as [Heq|_]; [lia|].
  reflexivity.
Qed.

(** ** The rows of the tool *)

Lemma extend_returns (output output' : gmap string (list pyval)) (key : string) (x : pyval) :
  Views.extend output key x = Return output' ->
  exists xs, output !! key = Some xs /\ output' = <[key := (xs ++ [x])%list]> output.
Proof.
  unfold Views.extend. destruct (output !! key) as [xs|]; [|discriminate].
  intros [= <-]. eauto.
Qed.

(** One row: the label at position [j] gets the text at position [c + j]. *)
Lemma add_values_returns (values : list string) (keys : list string) (c : nat)
    (output output' : gmap string (list pyval)) :
  NoDup keys ->
  Views.add_values values (Z.of_nat c) keys output = Return output' ->
  (forall k, k ∉ keys -> output' !! k = output !! k) /\
  forall (j : nat) (key : string),
    keys !! j = Some key ->
    exists (xs : list pyval) (txt : string) (x : pyval),
      output !! key = Some xs /\ values !! (c + j)%nat = Some txt /\
      Spec.point txt = Return x /\ output' !! key = Some (xs ++ [x])%list.
Proof.
  intros Hnd. revert c output.
  induction Hnd as [|key keys Hkey Hnd IH]; intros c output; cbn [Views.add_values].
  { intros [= <-]. split; [reflexivity|]. intros j key Hj. discriminate. }
  rewrite getitem_from_start.
  destruct (values !! c) as [txt|] eqn:Htxt; [|discriminate]. cbn [obind].
  fold (Spec.point txt).
  destruct (Spec.point txt) as [x|e] eqn:Hx; [|discriminate]. cbn [obind].
  destruct (Views.extend output key x) as [output1|e] eqn:Hext; [|discriminate]. cbn [obind].
  apply extend_returns in Hext as (xs & Hxs & ->).
  replace (Z.of_nat c + 1) with (Z.of_nat (S c)) by lia.
  intros Hrest. destruct (IH _ _ Hrest) as [Hother Hcols]. split.
  - intros k Hk. apply not_elem_of_cons in Hk as [Hne Hk].
    rewrite (Hother k Hk). now rewrite lookup_insert_ne.
  - intros [|j] key' Hj.
    + injection Hj as <-. exists xs, txt, x. rewrite Nat.add_0_r.
      repeat split; try assumption.
      rewrite (Hother key Hkey). apply lookup_insert_eq.
    + cbn [lookup list_lookup] in Hj. destruct (Hcols j key' Hj) as (xs' & txt' & x' & H1 & H2 & H3 & H4).
      exists xs', txt', x'. replace (c + S j)%nat with (S c + j)%nat by lia.
      repeat split; try assumption.
      rewrite lookup_insert_ne in H1; [exact H1|].
      intros <-. apply Hkey. eapply list_elem_of_lookup_2. exact Hj.
Qed.

Lemma add_rows_builds (keys : list string) (rows done : list Views.xml_row)
    (output output' : gmap string (list pyval)) :
  NoDup ("stamp" :: keys) ->
  Spec.built keys done output ->
  Views.add_rows rows keys output = Return output' ->
  Spec.built keys (done ++ rows) output'.
Proof.
  intros Hnd. apply NoDup_cons in Hnd as [Hstamp Hnd].
  revert done output. induction rows as [|row rows IH]; intros done output Hbuilt;
    cbn [Views.add_rows].
  { intros [= <-]. now rewrite app_nil_r. }
  destruct (py_int (PStr (Views.t row))) as [stamp|e] eqn:Hstampv; [|discriminate]. cbn [obind].
  destruct (Views.extend output "stamp" (PInt stamp)) as [output1|e] eqn:Hext; [|discriminate].
  cbn [obind]. apply extend_returns in Hext as (ss & Hss & ->).
  destruct (Views.add_values (Views.v row) 0 keys _) as [output2|e] eqn:Hvalues; [|discriminate].
  cbn [obind]. change 0 with (Z.of_nat 0) in Hvalues.
  apply add_values_returns in Hvalues as [Hother Hcols]; [|exact Hnd].
  intros Hrest. replace (done ++ row :: rows)%list with ((done ++ [row]) ++ rows)%list
    by now rewrite <- app_assoc.
  apply (IH _ output2); [|exact Hrest].
  destruct Hbuilt as [(stamps & Hstamps & Hall) Hseries]. split.
  - exists (stamps ++ [stamp])%list. split.
    + rewrite (Hother "stamp" Hstamp), lookup_insert_eq, fmap_app.
      rewrite Hstamps in Hss. injection Hss as <-. reflexivity.
    + apply Forall2_app; [exact Hall | now constructor].
  - intros j key Hj. destruct (Hseries j key Hj) as (xs & Hxs & Hcol).
    destruct (Hcols j key Hj) as (xs' & txt & x & Hxs' & Htxt & Hx & Hout).
    assert (key <> "stamp") as Hne.
    { intros ->. apply Hstamp. eapply list_elem_of_lookup_2. exact Hj. }
    rewrite lookup_insert_ne in Hxs' by congruence.
    assert (xs' = xs) as -> by congruence.
    exists (xs ++ [x])%list. split; [exact Hout|].
    apply Forall2_app; [exact Hcol|]. constructor; [|constructor].
    exists txt. split; [exact Htxt | exact Hx].
Qed.

Lemma fresh_output_built (keys : list string) :
  Spec.built keys [] (fold_left (fun o key => <[key := []]> o) keys {["stamp" := []]}).
Proof.
  split.
  - exists []. split; [|constructor].
    destruct (decide ("stamp" ∈ keys)) as [Hin|Hout]; [now apply fresh_series|].
    assert (Hkeep : forall (o : gmap string (list pyval)),
              fold_left (fun o key => <[key := []]> o) keys o !! "stamp" = o !! "stamp").
    { clear -Hout. induction keys as [|k keys IH]; intros o; [reflexivity|].
      apply not_elem_of_cons in Hout as [Hne Hout]. cbn [fold_left].
      rewrite (IH Hout). now rewrite lookup_insert_ne. }
    rewrite Hkeep. apply lookup_insert_eq.
  - intros j key Hj. exists []. split; [|constructor].
    apply fresh_series. eapply list_elem_of_lookup_2. exact Hj.
Qed.

(** X21.  The parsing of the tool's answer in [_rrd_export_wrap]: when the
    labels are distinct and none is ['stamp'], the output holds under
    ['stamp'] the times of the rows, and under the label at position [j]
    the [j]-th value of every row, in the order of the rows, a value of
    [NaN] or [nan] being [None] and any other the number it reads as. *)
Theorem export_columns_follow_labels (rows : list Views.xml_row) (keys : list string)
    (output : gmap string (list pyval)) :
  NoDup ("stamp" :: keys) ->
  Views.add_rows rows keys (fold_left (fun o key => <[key := []]> o) keys {["stamp" := []]})
  = Return output ->
  (exists stamps : list Z,
     output !! "stamp" = Some (PInt <$> stamps) /\
     Forall2 (fun row s => py_int (PStr (Views.t row)) = Return s) rows stamps) /\
  forall (j : nat) (key : string),
    keys !! j = Some key ->
    exists xs : list pyval,
      output !! key = Some xs /\
      Forall2 (fun row x => exists txt, Views.v row !! j = Some txt /\ Spec.point txt = Return x)
        rows xs.
Proof.
  intros Hnd Hrun.
  exact (add_rows_builds keys rows [] _ output Hnd (fresh_output_built keys) Hrun).
Qed.

(** ** Instances *)

(** X2, witness: host 7 is in the local cache, host 8 in the shared cache,
    host 9 in neither. *)
Lemma polled_values_follow_the_batch_witness :
  let self := Metric.with_cache {[ PkInt 7 := PFloat 9 ]} (Examples.bandwidth "float" 3000) in
  let w := Examples.known (PStr "0.5") (PStr "1.5") in
  Forall2 (fun o v => @Spec.held Examples.one_decimal self true w (Examples.host (PkInt 7)) o
                      = Return v)
    [Examples.host (PkInt 7); Examples.host (PkInt 8); Examples.host (PkInt 9)]
    [PFloat 9; PFloat (3 # 2); PNone].
Proof.
  intros self w.
  set (run := @Metric.get_polling_many Examples.one_decimal
                [Examples.host (PkInt 7); Examples.host (PkInt 8); Examples.host (PkInt 9)]
                false true (self, w)).
  apply (@polled_values_follow_the_batch Examples.one_decimal (Examples.host (PkInt 7))
           [Examples.host (PkInt 8); Examples.host (PkInt 9)] true self (fst (snd run)) w
           (snd (snd run))).
  vm_compute. reflexivity.
Defined.

(** X4, witness: the instance holds 9 for host 7; 2.5 is written; 9 is
    returned. *)
Lemma local_value_outlives_writes_witness :
  let self := Metric.with_cache {[ PkInt 7 := PFloat 9 ]} (Examples.bandwidth "float" 3000) in
  let w' := snd (@Metric.set_polling_many Examples.one_decimal self
                   [(Examples.host (PkInt 7), PStr "2.5")] Examples.nothing) in
  shared w' !! "timegraph/host/7/5" = Some (PStr "2.5") /\
  @Metric.get_polling_many Examples.one_decimal [Examples.host (PkInt 7)] false true (self, w')
  = (Return (Some [PFloat 9]), (self, w')).
Proof.
  intros self w'. split; [vm_compute; reflexivity|].
  apply (@local_value_outlives_writes Examples.one_decimal [Examples.host (PkInt 7)]
           [(Examples.host (PkInt 7), PStr "2.5")] true self Examples.nothing [PFloat 9]).
  constructor; [reflexivity | constructor].
Defined.

(** X3, witness: two hosts are warmed, then read from the instance. *)
Lemma no_return_only_warms_witness :
  let objs := [Examples.host (PkInt 7); Examples.host (PkInt 8)] in
  let s := (Examples.bandwidth "float" 3000, Examples.known (PStr "0.5") (PStr "1.5")) in
  let s' := snd (@Metric.get_polling_many Examples.one_decimal objs true true s) in
  exists vs : list pyval,
    @Metric.get_polling_many Examples.one_decimal objs false true s = (Return (Some vs), s') /\
    Metric.get_cached_polling_list (fst s') objs = Return vs.
Proof.
  intros objs s s'.
  destruct (@no_return_only_warms Examples.one_decimal objs true s s' None)
    as (_ & vs & Hrun & Hlist & _).
  - vm_compute. reflexivity.
  - exists vs. split; [exact Hrun | exact Hlist].
Defined.

(** X7, witness: 10 and 20 for hosts 7 and 8, nothing for host 9. *)
Lemma sum_of_a_summable_metric_witness :
  let objs := [Examples.host (PkInt 7); Examples.host (PkInt 8); Examples.host (PkInt 9)] in
  let s := (Examples.bandwidth "int" 3000, Examples.known (PStr "10") (PStr "20")) in
  fst (@Metric.get_sum_many Examples.one_decimal Examples.exact objs false false s)
  = Return (PInt 30).
Proof.
  intros objs s.
  pose (run := @Metric.get_polling_many Examples.one_decimal objs false false s).
  destruct (@sum_of_a_summable_metric Examples.one_decimal Examples.exact objs false "B"
              (Examples.bandwidth "int" 3000) (fst (snd run))
              (Examples.known (PStr "10") (PStr "20")) (snd (snd run))
              [PInt 10; PInt 20; PNone])
    as (n & Hsum & _ & _ & Hexact & _).
  - reflexivity.
  - apply map_Forall_empty.
  - vm_compute. reflexivity.
  - unfold s. rewrite Hsum. cbn [fst]. f_equal.
    apply Hexact; [reflexivity | apply map_Forall_empty].
Defined.

(** X8, witness: a metric of texts with a value for host 7. *)
Lemma sum_of_texts_raises_witness :
  fst (@Metric.get_sum_many Examples.one_decimal Examples.exact [Examples.host (PkInt 7)]
         false true
         (Examples.bandwidth "str" 3000, Examples.known (PStr "up") (PStr "down")))
  = Raise TypeError.
Proof.
  pose (run := @Metric.get_polling_many Examples.one_decimal [Examples.host (PkInt 7)] false true
                 (Examples.bandwidth "str" 3000, Examples.known (PStr "up") (PStr "down"))).
  rewrite (@sum_of_texts_raises Examples.one_decimal Examples.exact [Examples.host (PkInt 7)] true
             (Examples.bandwidth "str" 3000) (fst (snd run))
             (Examples.known (PStr "up") (PStr "down")) (snd (snd run)) [PStr "up"]).
  - reflexivity.
  - intros Hin. apply list_elem_of_In in Hin. simpl in Hin. intuition discriminate.
  - apply map_Forall_empty.
  - vm_compute. reflexivity.
  - constructor. discriminate.
Defined.

(** X9, witness: the prefix of the metric does not format, so the flush of
    the first pair fails. *)
Lemma failed_flush_keeps_the_queue_witness :
  let run := @Metric.queue_append Examples.one_decimal (Examples.host (PkInt 7)) (PInt 1)
               (Examples.misnamed, Examples.nothing) in
  fst run = Raise ValueError /\
  Metric.queue (fst (snd run)) = [(Examples.host (PkInt 7), PInt 1)].
Proof.
  intros run.
  destruct (@failed_flush_keeps_the_queue Examples.one_decimal (Examples.host (PkInt 7)) (PInt 1)
              Examples.misnamed (fst (snd run)) Examples.nothing (snd (snd run)) ValueError)
    as (Hself & _ & _).
  - vm_compute. reflexivity.
  - split; [vm_compute; reflexivity|]. rewrite Hself. reflexivity.
Defined.


(** X16, witness: the host of address [aa:bb] has an archive. *)
Lemma xport_rejects_text_keys_witness :
  Metric.xport (fun _ => Return (Examples.column Examples.edges))
    (Examples.bandwidth "float" 3000) Examples.addressed []
    [Examples.host (PkInt 7); Examples.host (PkStr "aa:bb")] "+" "0" false
  = Raise TypeError.
Proof.
  apply xport_rejects_text_keys. apply Exists_cons_tl, Exists_cons_hd. split.
  - vm_compute. reflexivity.
  - exists "aa:bb". reflexivity.
Defined.

(** X19, witness: host 7 has its archive and the tool answers no row. *)
Lemma export_without_rows_raises_witness :
  fst (Views._rrd_export_wrap (Examples.tool []) (Examples.polled Examples.sound)
         [Examples.host (PkInt 7)] [("a", Examples.bandwidth "float" 3000)] "+" "0" true [])
  = Raise IndexError.
Proof.
  apply (export_without_rows_raises (Examples.tool []) (Examples.polled Examples.sound)
           [Examples.host (PkInt 7)] [("a", Examples.bandwidth "float" 3000)] "+" "0" true []
           ["a"]).
  - discriminate.
  - vm_compute. reflexivity.
  - intros a. split; reflexivity.
Defined.

(** X12, witness: two addresses that differ in their last digit. *)
Lemma component_keys_do_not_collide_witness :
  Metric._rrd_path (Examples.bandwidth "float" 3000) (Examples.host (PkStr "aa:bb"))
  <> Metric._rrd_path (Examples.bandwidth "float" 3000) (Examples.host (PkStr "aa:bc")).
Proof.
  apply (component_keys_do_not_collide (Examples.bandwidth "float" 3000)
           (Examples.host (PkStr "aa:bb")) (Examples.host (PkStr "aa:bc"))).
  - reflexivity.
  - split; [discriminate|]. vm_compute. intuition discriminate.
  - split; [discriminate|]. vm_compute. intuition discriminate.
  - vm_compute. discriminate.
Defined.

(** X13, witness: hosts 7 and 8. *)
Lemma numeric_keys_do_not_collide_witness :
  Metric._rrd_path (Examples.bandwidth "float" 3000) (Examples.host (PkInt 7))
  <> Metric._rrd_path (Examples.bandwidth "float" 3000) (Examples.host (PkInt 8)).
Proof.
  apply (numeric_keys_do_not_collide (Examples.bandwidth "float" 3000) "Host" 7 8).
  discriminate.
Defined.

(** X14, witness: 42 and its text. *)
Lemma integer_text_decodes_to_itself_witness :
  @Metric.to_python Examples.one_decimal (Examples.bandwidth "int" 3000) (PInt 42) false = PInt 42 /\
  @Metric.to_python Examples.one_decimal (Examples.bandwidth "int" 3000) (PStr "42") false = PInt 42.
Proof.
  apply (@integer_text_decodes_to_itself Examples.one_decimal (Examples.bandwidth "int" 3000) 42
           false).
  reflexivity.
Defined.

(** X21, witness: two rows for the labels [a] and [b]; the first row has a
    gap under [b]. *)
Lemma export_columns_follow_labels_witness :
  exists xs : list pyval,
    ({[ "stamp" := [PInt 100; PInt 400];
        "a" := [PFloat (3 # 2); PFloat 2];
        "b" := [PNone; PFloat 7] ]} : gmap string (list pyval)) !! "b" = Some xs /\
    Forall2 (fun row x => exists txt, Views.v row !! 1%nat = Some txt /\ Spec.point txt = Return x)
      Examples.two_rows xs.
Proof.
  destruct (export_columns_follow_labels Examples.two_rows ["a"; "b"]
              {[ "stamp" := [PInt 100; PInt 400];
                 "a" := [PFloat (3 # 2); PFloat 2];
                 "b" := [PNone; PFloat 7] ]}) as [_ Hcolumns].
  - repeat constructor; intros Hin; apply list_elem_of_In in Hin; simpl in Hin;
      intuition discriminate.
  - vm_compute. reflexivity.
  - exact (Hcolumns 1%nat "b" eq_refl).
Defined.


(** X18, witness: the tool fails on a missing archive. *)
Lemma export_reports_tool_failure_witness :
  fst (Views._rrd_export_wrap
         (fun _ => {| Views.returncode := 1; Views.out := []; Views.err := "ERROR: no such file" |})
         (Examples.polled Examples.sound) [Examples.host (PkInt 7)]
         [("a", Examples.bandwidth "float" 3000)] "+" "0" true ["--start"; "-1d"])
  = Raise (Exception "rrdtool xport failed ERROR: no such file").
Proof.
  apply (export_reports_tool_failure
           (fun _ => {| Views.returncode := 1; Views.out := []; Views.err := "ERROR: no such file" |})
           (Examples.polled Examples.sound) [Examples.host (PkInt 7)]
           [("a", Examples.bandwidth "float" 3000)] "+" "0" true ["--start"; "-1d"] ["a"]).
  - vm_compute. reflexivity.
  - discriminate.
Defined.

(** X17, witness: host 7 has an archive of the bandwidth metric and none of
    the latency metric; the export returns [None] and the caller's list
    has grown by the directives of the first label. *)
Lemma export_extends_the_callers_list_witness :
  let once := Views._rrd_export_wrap (Examples.tool []) (Examples.polled Examples.sound)
                [Examples.host (PkInt 7)]
                [("a", Examples.bandwidth "float" 3000); ("b", Examples.latency)]
                "+" "0" true ["--start"; "-1d"] in
  fst once = Return Views.NoData /\
  snd once = ["--start"; "-1d";
              "DEF:a7=/var/lib/rrdcached/db/host/7/5.rrd:5:AVERAGE";
              "CDEF:a=a7,UN,0.0,a7,IF,0.0,EQ,0,a7,IF";
              "XPORT:a"].
Proof.
  intros once. split; [vm_compute; reflexivity|].
  etransitivity.
  - apply (proj1 (export_extends_the_callers_list (Examples.tool [])
                    (Examples.polled Examples.sound) [Examples.host (PkInt 7)]
                    [("a", Examples.bandwidth "float" 3000); ("b", Examples.latency)]
                    "+" "0" true ["--start"; "-1d"])).
  - vm_compute. reflexivity.
Defined.

(** X20, witness: host 8 has no archive and host 7 has one, which is drawn
    first. *)
Lemma render_metric_draws_archived_objects_witness :
  Views.render_metric true ["--start"; "-1d"] (fun options => Return (join " " options))
    "/tmp/graph.png" (Examples.polled Examples.sound) (Examples.bandwidth "float" 3000) ""
    [Examples.host (PkInt 8); Examples.host (PkInt 7)]
  = Return (Views.HttpResponse
              "/tmp/graph.png DEF:0=/var/lib/rrdcached/db/host/7/5.rrd:5:AVERAGE AREA:0#990033 --start -1d"
              "image/png").
Proof.
  etransitivity.
  - apply render_metric_draws_archived_objects.
  - vm_compute. reflexivity.
Defined.
